(** * scikit-digital-health: activity bouts, activity endpoints and the
      sleep day pipeline

    A shallow embedding of
      - [skdh/activity/endpoints.py]: [get_activity_bouts] and the endpoint
        classes [IntensityGradient], [MaxAcceleration], [TotalIntensityTime],
        [BoutIntensityTime] and [FragmentationEndpoints];
      - [skimu/sleep/sleep.py]: [Sleep.predict].

    Conventions of the embedding.
      - A numpy array is a [list]; an index or a size is a [nat].
      - A Python float is an exact rational ([Q]): the comparisons, sums and
        products of the code are carried out without rounding.  Results are
        therefore compared with [==] (equality of rationals).  The one float
        that is not a number, [nan], is a constructor of its own in the cells
        of a results table.  A theorem that compares two numbers which the
        code reaches along different sums or quotients is stated for the
        epochs and sizes at which doubles carry these out without rounding
        ([exact_epochs], [exact_count]).
      - A Python exception is the [Raise] outcome of a [result]; code that
        mutates an object and may raise afterwards returns the object it has
        reached together with the outcome. *)

From Stdlib Require Import ZArith QArith Qround Lia Lqa List Bool String.
From stdpp Require Import gmap strings list fin_maps pretty sorting.

Local Open Scope nat_scope.

(** ** Exceptions and outcomes *)

Inductive exn : Type :=
| ValueError
| IndexError
| KeyError
| ZeroDivisionError.

Inductive result (A : Type) : Type :=
| Ok (a : A)
| Raise (e : exn).

Arguments Ok {A} a.
Arguments Raise {A} e.

Definition rbind {A B : Type} (r : result A) (k : A -> result B) : result B :=
  match r with
  | Ok a => k a
  | Raise e => Raise e
  end.

Notation "'let*' x ':=' r 'in' k" := (rbind r (fun x => k))
  (at level 10, x pattern, r at level 100, k at level 200).

(** ** numpy on lists *)

Module Np.

(** [a < b] on floats. *)
Definition Qltb (a b : Q) : bool := negb (Qle_bool b a).

(** [int(q)]: truncation towards zero. *)
Definition int_of_float (q : Q) : Z := Z.quot (Qnum q) (Z.pos (Qden q)).

Definition of_nat (n : nat) : Q := inject_Z (Z.of_nat n).

(** [sum(x)] of an integer array. *)
Definition sum (x : list Z) : Z := fold_right Z.add 0%Z x.

(** [sum(x)] of a float array. *)
Definition fsum (x : list Q) : Q := fold_right Qplus 0%Q x.

(** [x[a:b]] for [0 <= a]; the slice is clipped to the array. *)
Definition slice {A : Type} (x : list A) (a b : nat) : list A :=
  take (b - a) (drop a x).

(** [nonzero(x)[0]]: the indices of the entries that are not zero. *)
Fixpoint nonzero_from (i : nat) (x : list Z) : list nat :=
  match x with
  | [] => []
  | v :: x' =>
      if Z.eqb v 0 then nonzero_from (S i) x' else i :: nonzero_from (S i) x'
  end.

Definition nonzero (x : list Z) : list nat := nonzero_from 0 x.

(** [nonzero(b)[0]] of a boolean array. *)
Fixpoint where_from (i : nat) (b : list bool) : list nat :=
  match b with
  | [] => []
  | v :: b' => if v then i :: where_from (S i) b' else where_from (S i) b'
  end.

Definition where_ (b : list bool) : list nat := where_from 0 b.

(** [max(p)] of an index array; numpy raises ValueError on an empty one. *)
Definition max_idx (p : list nat) : result nat :=
  match p with
  | [] => Raise ValueError
  | v :: p' => Ok (fold_left Nat.max p' v)
  end.

(** [max(a)] of a float array; numpy raises ValueError on an empty one. *)
Definition Qmax (a b : Q) : Q := if Qle_bool a b then b else a.

Definition max (a : list Q) : result Q :=
  match a with
  | [] => Raise ValueError
  | v :: a' => Ok (fold_left Qmax a' v)
  end.

(** [zeros(n)] *)
Definition zeros (n : nat) : list Q := repeat 0%Q n.
Definition izeros (n : nat) : list Z := repeat 0%Z n.

(** [x[a:b] = v] for a scalar [v] and [b <= x.size]. *)
Definition fill_slice {A : Type} (x : list A) (a b : nat) (v : A) : list A :=
  take a x ++ repeat v (length (slice x a b)) ++ drop (a + length (slice x a b)) x.

(** [x[a:b] = v] for an array [v]: numpy raises ValueError unless [v] has
    the length of the slice or a single entry, which is then repeated. *)
Definition assign_slice (x : list Q) (a b : nat) (v : list Q) : result (list Q) :=
  let n := length (slice x a b) in
  if length v =? n then Ok (take a x ++ v ++ drop (a + n) x)
  else match v with
       | [s] => Ok (fill_slice x a b s)
       | _ => Raise ValueError
       end.

(** [x[m] = v] for a boolean array [m] of the size of [x]. *)
Definition putmask {A : Type} (x : list A) (m : list bool) (v : A) : list A :=
  zip_with (fun xi (mi : bool) => if mi then v else xi) x m.

(** [x[ind] = v] for an array [ind] of indices that are all in range. *)
Definition put {A : Type} (x : list A) (ind : list nat) (v : A) : list A :=
  fold_left (fun acc i => <[i:=v]> acc) ind x.

End Np.

(** ** The moving mean of [skdh.utility] *)

(** Modelled from the spec: [moving_mean(sequence, window_length, stride)] of
    [skdh.utility], which is not among the sources.  It is the mean of every
    window of [w_len] consecutive entries, the windows starting [skip] entries
    apart, and it fails (ValueError) if [w_len] exceeds the length of the
    sequence.  A window of no entries has no mean and a stride of zero never
    advances: both are made the same failure here. *)
Definition window_mean (a : list Q) (w_len k : nat) : Q :=
  (Np.fsum (Np.slice a k (k + w_len)) / Np.of_nat w_len)%Q.

Definition moving_mean (a : list Q) (w_len skip : nat) : result (list Q) :=
  if (w_len =? 0) || (skip =? 0) then Raise ValueError
  else if length a <? w_len then Raise ValueError
  else
    Ok (map (fun k => window_mean a w_len (k * skip))
            (seq 0 ((length a - w_len) / skip + 1))).

(** ** [get_activity_bouts] *)

Module Bouts.

(** [((accm >= lower_thresh) & (accm < upper_thresh)).astype(int_)] *)
Definition in_level (lower_thresh upper_thresh v : Q) : bool :=
  Qle_bool lower_thresh v && Np.Qltb v upper_thresh.

Definition level_mask (accm : list Q) (lower_thresh upper_thresh : Q) : list Z :=
  map (fun v => if in_level lower_thresh upper_thresh v then 1%Z else 0%Z) accm.

(** [wlen / 60], the minutes of one epoch. *)
Definition epoch_minutes (wlen : nat) : Q := (Np.of_nat wlen / 60)%Q.

(** [int(boutdur * (60 / wlen))]; [60 / wlen] divides by zero for
    [wlen = 0]. *)
Definition get_nboutdur (wlen boutdur : nat) : result nat :=
  if wlen =? 0 then Raise ZeroDivisionError
  else Ok (Z.to_nat (Np.int_of_float (Np.of_nat boutdur * (60 / Np.of_nat wlen))%Q)).

(** *** boutmetric 1 *)

(** The inner [while] of metric 1:
    [while sum(x[start:end+1]) > (end+1-start)*boutcrit and end < x.size: end += 1].
    [fuel] is [x.size - end]; when it is used up [end < x.size] is false, which
    is when the loop of the code stops at the latest. *)
Fixpoint extend_end (x : list Z) (boutcrit : Q) (start end_ fuel : nat) : nat :=
  match fuel with
  | O => end_
  | S fuel' =>
      if Np.Qltb (Np.of_nat (end_ + 1 - start) * boutcrit)
                 (inject_Z (Np.sum (Np.slice x start (end_ + 1))))
         && (end_ <? length x)
      then extend_end x boutcrit start (S end_) fuel'
      else end_
  end.

(** The outer [while i_mvpa < p.size] of metric 1.  Every turn adds
    [jump >= 1] to [i_mvpa], so [fuel = p.size - i_mvpa] turns are enough
    (lemma [metric1_loop_fuel]). *)
Fixpoint metric1_loop (fuel : nat) (x : list Z) (p : list nat)
         (nboutdur : nat) (boutcrit : Q) (closedbout : bool) (wlen : nat)
         (i_mvpa : nat) (time_in_bout : Q) : result Q :=
  match fuel with
  | O => Ok time_in_bout
  | S fuel' =>
      match p !! i_mvpa with
      | None => Ok time_in_bout
      | Some start =>
          let end_ := start + nboutdur in
          if end_ <? length x then
            if Np.Qltb (Np.of_nat nboutdur * boutcrit)
                       (inject_Z (Np.sum (Np.slice x start end_)))
            then
              let end_ := extend_end x boutcrit start end_ (length x - end_) in
              let select := filter (fun v => v < end_) (drop i_mvpa p) in
              let jump := Nat.max (length select) 1 in
              if closedbout then
                let* m := Np.max_idx (filter (fun v => v < end_) p) in
                metric1_loop fuel' x p nboutdur boutcrit closedbout wlen
                  (i_mvpa + jump)
                  (time_in_bout
                   + inject_Z (Z.of_nat m - Z.of_nat start + 1) * epoch_minutes wlen)%Q
              else
                metric1_loop fuel' x p nboutdur boutcrit closedbout wlen
                  (i_mvpa + jump)
                  (time_in_bout + Np.of_nat (length select) * epoch_minutes wlen)%Q
            else
              metric1_loop fuel' x p nboutdur boutcrit closedbout wlen
                (i_mvpa + 1) time_in_bout
          else
            metric1_loop fuel' x p nboutdur boutcrit closedbout wlen
              (i_mvpa + 1) time_in_bout
      end
  end.

Definition metric1 (accm : list Q) (lower_thresh upper_thresh : Q)
           (wlen nboutdur : nat) (boutcrit : Q) (closedbout : bool) : result Q :=
  let x := level_mask accm lower_thresh upper_thresh in
  let p := Np.nonzero x in
  metric1_loop (length p) x p nboutdur boutcrit closedbout wlen 0 0%Q.

(** *** boutmetric 2 *)

(** One turn of the [while] of metric 2, on the pair [(x, xt)]; [i_mvpa]
    goes up by one every turn, so the loop is a fold over [range(p.size)]. *)
Definition metric2_step (p : list nat) (nboutdur : nat) (boutcrit : Q)
           (st : list Z * list Z) (i_mvpa : nat) : list Z * list Z :=
  let '(x, xt) := st in
  match p !! i_mvpa with
  | None => (x, xt)
  | Some start =>
      let end_ := start + nboutdur in
      if end_ <? length x then
        if Np.Qltb (Np.of_nat nboutdur * boutcrit)
                   (inject_Z (Np.sum (Np.slice x start end_)))
        then (x, Np.fill_slice xt start end_ 2%Z)
        else (<[start:=0%Z]> x, xt)
      else
        if (1 <? length p) && (2 <? i_mvpa)
        then (<[start:=nth (nth (i_mvpa - 1) p 0) x 0%Z]> x, xt)
        else (x, xt)
  end.

Definition metric2 (accm : list Q) (lower_thresh upper_thresh : Q)
           (wlen nboutdur : nat) (boutcrit : Q) : result Q :=
  let x := level_mask accm lower_thresh upper_thresh in
  let xt := Np.izeros (length x) in
  let p := Np.nonzero x in
  let '(x, xt) := fold_left (metric2_step p nboutdur boutcrit) (seq 0 (length p)) (x, xt) in
  let x := Np.putmask x (map (fun v => Z.eqb v 2) xt) 1%Z in
  Ok (0 + inject_Z (Np.sum x) * epoch_minutes wlen)%Q.

(** *** boutmetric 3 and 4 *)

(** The break search shared by metrics 3 and 4: [xt], the mask in which
    every epoch whose centred mean over [N = int(60 / wlen) + 1] epochs is
    zero holds the negative value [-(60 / wlen) * nboutdur] (stored in an
    integer array, hence truncated).  This [moving_mean] is outside the
    [try] of the code. *)
Definition break_penalty (wlen nboutdur : nat) : Z :=
  Np.int_of_float (- (60 / Np.of_nat wlen) * Np.of_nat nboutdur)%Q.

Definition break_window (wlen : nat) : nat :=
  Z.to_nat (Np.int_of_float (60 / Np.of_nat wlen)%Q + 1).

Definition lookforbreaks (x : list Z) (wlen : nat) : result (list Q) :=
  let N := break_window wlen in
  let i1 := (Qfloor ((Np.of_nat N + 1) / 2)%Q - 1)%Z in
  let i2 := Qceiling (Np.of_nat (length x) - Np.of_nat N / 2)%Q in
  let* mm := moving_mean (map inject_Z x) N 1 in
  Np.assign_slice (Np.zeros (length x)) (Z.to_nat i1) (Z.to_nat i2) mm.

Definition penalise_breaks (x : list Z) (wlen nboutdur : nat) : result (list Z) :=
  let* lfb := lookforbreaks x wlen in
  Ok (Np.putmask x (map (fun v => Qeq_bool v 0) lfb) (break_penalty wlen nboutdur)).

(** [ind = p + gi; xt[ind[(ind >= 0) & (ind < xt.size)]] = 2] *)
Definition mark_shift (p : list nat) (xt : list Z) (gi : nat) : list Z :=
  Np.put xt (filter (fun i => i < length xt) (map (fun s => s + gi) p)) 2%Z.

(** [for gi in range(nboutdur): ...] *)
Definition mark_windows (xt : list Z) (p : list nat) (nboutdur : nat) : list Z :=
  fold_left (mark_shift p) (seq 0 nboutdur) xt.

(** [x[xt != 2] = 0; x[xt == 2] = 1; sum(x) * (wlen / 60)] *)
Definition marked_minutes (x xt : list Z) (wlen : nat) : Q :=
  let x := Np.putmask x (map (fun v => negb (Z.eqb v 2)) xt) 0%Z in
  let x := Np.putmask x (map (fun v => Z.eqb v 2) xt) 1%Z in
  (0 + inject_Z (Np.sum x) * epoch_minutes wlen)%Q.

Definition metric3 (accm : list Q) (lower_thresh upper_thresh : Q)
           (wlen nboutdur : nat) (boutcrit : Q) : result Q :=
  let x := level_mask accm lower_thresh upper_thresh in
  let* xt := penalise_breaks x wlen nboutdur in
  match moving_mean (map inject_Z xt) nboutdur 1 with
  | Raise ValueError => Ok 0%Q
  | Raise e => Raise e
  | Ok rm =>
      let p := Np.where_ (map (fun v => Np.Qltb boutcrit v) rm) in
      let xt := mark_windows xt p nboutdur in
      Ok (marked_minutes x xt wlen)
  end.

(** [p[nonzero((x[p] == 1) & (x[p + nboutdur - 1] == 1))]]: every [s] of [p]
    is the start of a window of [rm], hence [s + nboutdur - 1 < x.size]. *)
Definition both_ends (x : list Z) (p : list nat) (nboutdur : nat) : list nat :=
  filter (fun s => nth s x 0%Z = 1%Z /\ nth (s + nboutdur - 1) x 0%Z = 1%Z) p.

Definition metric4 (accm : list Q) (lower_thresh upper_thresh : Q)
           (wlen nboutdur : nat) (boutcrit : Q) : result Q :=
  let x := level_mask accm lower_thresh upper_thresh in
  let* xt := penalise_breaks x wlen nboutdur in
  match moving_mean (map inject_Z xt) nboutdur 1 with
  | Raise ValueError => Ok 0%Q
  | Raise e => Raise e
  | Ok rm =>
      let p := Np.where_ (map (fun v => Np.Qltb boutcrit v) rm) in
      let p := both_ends x p nboutdur in
      let xt := mark_windows xt p nboutdur in
      Ok (marked_minutes x xt wlen)
  end.

(** *** The detector *)

Definition get_activity_bouts (accm : list Q) (lower_thresh upper_thresh : Q)
           (wlen boutdur : nat) (boutcrit : Q) (closedbout : bool)
           (boutmetric : Z) : result Q :=
  let* nboutdur := get_nboutdur wlen boutdur in
  if length accm <? nboutdur then Ok 0%Q
  else if Z.eqb boutmetric 1 then
    metric1 accm lower_thresh upper_thresh wlen nboutdur boutcrit closedbout
  else if Z.eqb boutmetric 2 then
    metric2 accm lower_thresh upper_thresh wlen nboutdur boutcrit
  else if Z.eqb boutmetric 3 then
    metric3 accm lower_thresh upper_thresh wlen nboutdur boutcrit
  else if Z.eqb boutmetric 4 then
    metric4 accm lower_thresh upper_thresh wlen nboutdur boutcrit
  else Raise ValueError.

End Bouts.

(** ** Results tables of the activity endpoints *)

(** An entry of a results array: a float or [nan]. *)
Inductive flt : Type :=
| nan
| fin (q : Q).

(** [results]: a dict from the name of an endpoint to its array, one entry
    per day.  The endpoint classes keep references to these arrays
    ([self.ig = results[...]]); a reference is modelled by the name of the
    array in the one results dict of the run. *)
Abbreviation results_t := (gmap string (list flt)).

(** [results[name][i]] *)
Definition results_get (results : results_t) (name : string) (i : nat) : result flt :=
  match results !! name with
  | None => Raise KeyError
  | Some arr =>
      match arr !! i with
      | None => Raise IndexError
      | Some v => Ok v
      end
  end.

(** [results[name][i] = v] *)
Definition results_set (results : results_t) (name : string) (i : nat) (v : flt)
  : result results_t :=
  match results !! name with
  | None => Raise KeyError
  | Some arr =>
      if i <? length arr then Ok (<[name := <[i := v]> arr]> results)
      else Raise IndexError
  end.

(** A slot for [day] in the array [p] of [results]. *)
Definition reserved (results : results_t) (day : nat) (p : string) : Prop :=
  exists arr, results !! p = Some arr /\ day < length arr.

(** [ActivityEndpoint.__init__]: [f"{state} {name}"] *)
Definition endpoint_name (state name : string) : string :=
  (state +:+ " " +:+ name)%string.

(** ** [MaxAcceleration] *)

Module MaxAcceleration.

Record t : Type := {
  name : list string;
  wlens : list nat;
}.

Definition init (window_lengths : list nat) (state : string) : t :=
  {| name := map (fun i => endpoint_name state
                             ("max acc " +:+ pretty i +:+ "min [g]")%string)
                 window_lengths;
     wlens := window_lengths |}.

(** [nanmax([tmp_max, prev])] *)
Definition nanmax2 (tmp_max : Q) (prev : flt) : flt :=
  match prev with
  | nan => fin tmp_max
  | fin v => fin (Np.Qmax tmp_max v)
  end.

(** The body of the [for] of [predict]; [None] is the [return] of the
    [except] clause, which leaves the loop and the method. *)
Definition predict_window (accel_metric : list Q) (epochs_per_min i : nat)
           (results : results_t) (wlen : nat) (name : string)
  : option (result results_t) :=
  let n := wlen * epochs_per_min in
  match (let* mm := moving_mean accel_metric n 1 in Np.max mm) with
  | Raise ValueError => None
  | Raise e => Some (Raise e)
  | Ok tmp_max =>
      Some (let* prev := results_get results name i in
            results_set results name i (nanmax2 tmp_max prev))
  end.

(** [for wlen, name in zip(self.wlens, self.name)]: the dict reached and
    how the method ended. *)
Fixpoint predict_loop (accel_metric : list Q) (epochs_per_min i : nat)
         (todo : list (nat * string)) (results : results_t)
  : result unit * results_t :=
  match todo with
  | [] => (Ok tt, results)
  | (wlen, name) :: todo' =>
      match predict_window accel_metric epochs_per_min i results wlen name with
      | None => (Ok tt, results)
      | Some (Raise e) => (Raise e, results)
      | Some (Ok results') =>
          predict_loop accel_metric epochs_per_min i todo' results'
      end
  end.

Definition predict (self : t) (results : results_t) (i : nat)
           (accel_metric : list Q) (epochs_per_min : nat)
  : result unit * results_t :=
  predict_loop accel_metric epochs_per_min i (zip (wlens self) (name self)) results.

(** [a <= b] on the values of a slot, [nan] being under every value:
    what [nanmax] keeps of [a] is at most what it keeps of [b]. *)
Definition flt_le (a b : flt) : Prop :=
  match a, b with
  | nan, _ => True
  | fin x, fin y => (x <= y)%Q
  | fin _, nan => False
  end.

(** The largest mean over [wlen] minutes of a block in which it fits. *)
Definition window_max (accel_metric : list Q) (epochs_per_min wlen : nat) : Q :=
  match (let* mm := moving_mean accel_metric (wlen * epochs_per_min) 1 in Np.max mm) with
  | Ok tmp_max => tmp_max
  | Raise _ => 0%Q
  end.

(** [results[name][i]], if it is there. *)
Definition slot (results : results_t) (i : nat) (name : string) : option flt :=
  match results !! name with
  | Some arr => arr !! i
  | None => None
  end.

(** What the loop of [predict] makes of the slot of [name] when no window
    is too long: the [nanmax] with the largest mean of every window
    length that goes by this name. *)
Definition merged (accel_metric : list Q) (epochs_per_min : nat)
           (todo : list (nat * string)) (name : string) (v : flt) : flt :=
  fold_left (fun v wn => if decide (snd wn = name)
                         then nanmax2 (window_max accel_metric epochs_per_min (fst wn)) v
                         else v)
            todo v.

End MaxAcceleration.

(** ** [IntensityGradient] *)

(** The numerical collaborators of [reset_cached] ([numpy.log] and
    [scipy.stats.linregress]), which are not among the sources.
    [linregress] is given at least two points with distinct abscissae (the
    centres of distinct bins), for which scipy returns. *)
Class Regression : Type := {
  log : Q -> Q;
  linregress : list Q -> list Q -> flt * flt * flt;
}.

(** [results[name]] as a reference to keep: the name must be there. *)
Definition pointer (results : results_t) (name : string) : result string :=
  match results !! name with
  | None => Raise KeyError
  | Some _ => Ok name
  end.

Module IntensityGradient.

Record t : Type := {
  name : list string;
  ig_levels : list Q;
  ig_vals : list Q;
  hist : list Q;
  ig : option string;
  ig_int : option string;
  ig_r : option string;
  i : option nat;
}.

Definition set_hist (self : t) (v : list Q) : t :=
  {| name := name self; ig_levels := ig_levels self; ig_vals := ig_vals self;
     hist := v; ig := ig self; ig_int := ig_int self; ig_r := ig_r self; i := i self |}.
Definition set_ig (self : t) (v : option string) : t :=
  {| name := name self; ig_levels := ig_levels self; ig_vals := ig_vals self;
     hist := hist self; ig := v; ig_int := ig_int self; ig_r := ig_r self; i := i self |}.
Definition set_ig_int (self : t) (v : option string) : t :=
  {| name := name self; ig_levels := ig_levels self; ig_vals := ig_vals self;
     hist := hist self; ig := ig self; ig_int := v; ig_r := ig_r self; i := i self |}.
Definition set_ig_r (self : t) (v : option string) : t :=
  {| name := name self; ig_levels := ig_levels self; ig_vals := ig_vals self;
     hist := hist self; ig := ig self; ig_int := ig_int self; ig_r := v; i := i self |}.
Definition set_i (self : t) (v : option nat) : t :=
  {| name := name self; ig_levels := ig_levels self; ig_vals := ig_vals self;
     hist := hist self; ig := ig self; ig_int := ig_int self; ig_r := ig_r self; i := v |}.

(** [array([i for i in range(0, 4001, 25)] + [8000], dtype="float") / 1000] *)
Definition default_levels : list Q :=
  map (fun k => (inject_Z k / 1000)%Q)
      (map (fun k => 25 * Z.of_nat k)%Z (seq 0 161) ++ [8000%Z]).

(** [(ig_levels[1:] + ig_levels[:-1]) / 2] *)
Definition mid_points (levels : list Q) : list Q :=
  zip_with (fun a b => ((a + b) / 2)%Q) (drop 1 levels) (take (length levels - 1) levels).

Definition init (state : string) : t :=
  {| name := map (endpoint_name state)
                 ["intensity gradient"; "ig intercept"; "ig r-squared"]%string;
     ig_levels := default_levels;
     ig_vals := mid_points default_levels;
     hist := Np.zeros (length (mid_points default_levels));
     ig := None; ig_int := None; ig_r := None; i := None |}.

(** [histogram(a, bins=levels, density=False)[0]]: every bin is closed on
    the left and open on the right, but the last, which is closed. *)
Fixpoint histogram (a : list Q) (levels : list Q) : list Q :=
  match levels with
  | lo :: ((hi :: rest) as levels') =>
      let last := match rest with [] => true | _ => false end in
      Np.of_nat (length (filter (fun v => Qle_bool lo v
                           && (Np.Qltb v hi || (last && Qle_bool v hi)) = true) a))
      :: histogram a levels'
  | _ => []
  end.

(** [predict]: the histogram is added to first, then the four attributes
    are set one after the other; a name that is missing from [results]
    leaves the method there. *)
Definition predict (self : t) (results : results_t) (day : nat)
           (accel_metric : list Q) (epochs_per_min : nat) : result unit * t :=
  let self := set_hist self
                (zip_with Qplus (hist self)
                   (map (fun c => (c / Np.of_nat epochs_per_min)%Q)
                        (histogram accel_metric (ig_levels self)))) in
  match pointer results (nth 0 (name self) ""%string) with
  | Raise e => (Raise e, self)
  | Ok p0 =>
      let self := set_ig self (Some p0) in
      match pointer results (nth 1 (name self) ""%string) with
      | Raise e => (Raise e, self)
      | Ok p1 =>
          let self := set_ig_int self (Some p1) in
          match pointer results (nth 2 (name self) ""%string) with
          | Raise e => (Raise e, self)
          | Ok p2 => (Ok tt, set_i (set_ig_r self (Some p2)) (Some day))
          end
      end
  end.

(** [rval**2] *)
Definition square (v : flt) : flt :=
  match v with
  | nan => nan
  | fin q => fin (q * q)%Q
  end.

(** The end of [reset_cached], which sets the attributes again. *)
Definition reset (self : t) : t :=
  {| name := name self; ig_levels := ig_levels self; ig_vals := ig_vals self;
     hist := Np.zeros (length (ig_vals self));
     ig := None; ig_int := None; ig_r := None; i := None |}.

(** [x[self.hist > 0]] *)
Definition where_positive (x : list Q) (hist : list Q) : list Q :=
  map fst (filter (fun vh => Np.Qltb 0 (snd vh) = true) (zip x hist)).

(** [reset_cached]: how the method ended, the instance and the dict it
    has reached.  An exception of one of the three writes leaves the
    method before the attributes are set again. *)
Definition reset_cached `{Regression} (self : t) (results : results_t)
  : result unit * t * results_t :=
  match ig self, ig_int self, ig_r self, i self with
  | Some p_ig, Some p_int, Some p_r, Some day =>
      let lx := map (fun v => log (v * 1000)%Q) (where_positive (ig_vals self) (hist self)) in
      let ly := map log (where_positive (hist self) (hist self)) in
      let '(slope, intercept, rval) :=
        if length ly <=? 1 then (nan, nan, nan) else linregress lx ly in
      match results_set results p_ig day slope with
      | Raise e => (Raise e, self, results)
      | Ok results1 =>
          match results_set results1 p_int day intercept with
          | Raise e => (Raise e, self, results1)
          | Ok results2 =>
              match results_set results2 p_r day (square rval) with
              | Raise e => (Raise e, self, results2)
              | Ok results3 => (Ok tt, reset self, results3)
              end
          end
      end
  | _, _, _, _ => (Ok tt, reset self, results)
  end.

(** The cached attributes are those of a new instance. *)
Definition cleared (self : t) : Prop :=
  hist self = Np.zeros (length (ig_vals self))
  /\ ig self = None /\ ig_int self = None /\ ig_r self = None /\ i self = None.

(** The arrays and the day that [predict] has recorded, if it has
    recorded all four, are in [results]: the arrays have a slot for the
    day. *)
Definition slots_reserved (self : t) (results : results_t) : Prop :=
  forall p_ig p_int p_r day,
    ig self = Some p_ig -> ig_int self = Some p_int -> ig_r self = Some p_r ->
    i self = Some day ->
    Forall (reserved results day) [p_ig; p_int; p_r].

End IntensityGradient.

(** ** Run-length encoding *)

(** Modelled from the spec: [rle] of [skdh.utility.internal] (and of
    [skimu.utility.internal]), which is not among the sources:
    [run_length_encode(sequence) -> (lengths, start_indices, values)], one
    triple for each maximal run of a constant value. *)
Fixpoint rle_runs {A : Type} `{EqDecision A} (l : list A) : list (nat * A) :=
  match l with
  | [] => []
  | v :: l' =>
      match rle_runs l' with
      | (n, w) :: runs => if decide (v = w) then (S n, w) :: runs
                          else (1, v) :: (n, w) :: runs
      | [] => [(1, v)]
      end
  end.

Fixpoint run_starts (from : nat) (lengths : list nat) : list nat :=
  match lengths with
  | [] => []
  | n :: lengths' => from :: run_starts (from + n) lengths'
  end.

Definition rle {A : Type} `{EqDecision A} (l : list A) : list nat * list nat * list A :=
  let runs := rle_runs l in
  (map fst runs, run_starts 0 (map fst runs), map snd runs).

(** ** [FragmentationEndpoints] *)

(** The five statistics of [skdh.utility.fragmentation_endpoints], which is
    not among the sources; each takes the list of run lengths of the day and
    returns a float or [nan]. *)
Class FragmentationStatistics : Type := {
  average_duration : list nat -> flt;
  state_transition_probability : list nat -> flt;
  gini_index : list nat -> flt;
  average_hazard : list nat -> flt;
  state_power_law_distribution : list nat -> flt;
}.

Module FragmentationEndpoints.

Record t : Type := {
  name : list string;
  state : string;
  level : string;
  lthresh : Q;
  uthresh : Q;
  lens : list nat;
  r_ad : option string;
  r_tp : option string;
  r_gi : option string;
  r_ah : option string;
  r_pld : option string;
  i : option nat;
}.

(** The writes of [predict] and [reset_cached] to the cached attributes. *)
Definition with_cache (self : t) (lens' : list nat)
           (ad tp gi ah pld : option string) (i' : option nat) : t :=
  {| name := name self; state := state self; level := level self;
     lthresh := lthresh self; uthresh := uthresh self;
     lens := lens'; r_ad := ad; r_tp := tp; r_gi := gi; r_ah := ah; r_pld := pld;
     i := i' |}.

(** [__init__]; the two thresholds are what [get_level_thresholds] gives
    for the level and the cutpoints. *)
Definition init (level state : string) (lthresh uthresh : Q) : t :=
  {| name := map (fun s => endpoint_name state (level +:+ s)%string)
                 [" avg duration"; " transition probability"; " gini index";
                  " avg hazard"; " power law distribution"]%string;
     state := state; level := level; lthresh := lthresh; uthresh := uthresh;
     lens := [];
     r_ad := None; r_tp := None; r_gi := None; r_ah := None; r_pld := None;
     i := None |}.

(** [f"{self.state} {self.level} avg duration"] and the like *)
Definition column (self : t) (what : string) : string :=
  (state self +:+ " " +:+ level self +:+ " " +:+ what)%string.

(** [lens[vals == 1]] of the runs of the mask *)
Definition level_runs (self : t) (accel_metric_60 : list Q) : list nat :=
  let mask := map (fun v => Qle_bool (lthresh self) v && Np.Qltb v (uthresh self))
                  accel_metric_60 in
  let '(lens, starts, vals) := rle mask in
  map fst (filter (fun lv => snd lv = true) (zip lens vals)).

Definition predict (self : t) (results : results_t) (day : nat)
           (accel_metric_60 : list Q) : result unit * t :=
  let self := with_cache self (lens self ++ level_runs self accel_metric_60)
                (r_ad self) (r_tp self) (r_gi self) (r_ah self) (r_pld self) (i self) in
  match pointer results (column self "avg duration") with
  | Raise e => (Raise e, self)
  | Ok p0 =>
  let self := with_cache self (lens self)
                (Some p0) (r_tp self) (r_gi self) (r_ah self) (r_pld self) (i self) in
  match pointer results (column self "transition probability") with
  | Raise e => (Raise e, self)
  | Ok p1 =>
  let self := with_cache self (lens self)
                (r_ad self) (Some p1) (r_gi self) (r_ah self) (r_pld self) (i self) in
  match pointer results (column self "gini index") with
  | Raise e => (Raise e, self)
  | Ok p2 =>
  let self := with_cache self (lens self)
                (r_ad self) (r_tp self) (Some p2) (r_ah self) (r_pld self) (i self) in
  match pointer results (column self "avg hazard") with
  | Raise e => (Raise e, self)
  | Ok p3 =>
  let self := with_cache self (lens self)
                (r_ad self) (r_tp self) (r_gi self) (Some p3) (r_pld self) (i self) in
  match pointer results (column self "power law distribution") with
  | Raise e => (Raise e, self)
  | Ok p4 =>
      (Ok tt, with_cache self (lens self)
                (r_ad self) (r_tp self) (r_gi self) (r_ah self) (Some p4) (Some day))
  end end end end end.

(** The end of [reset_cached], which sets the attributes again. *)
Definition reset (self : t) : t :=
  with_cache self [] None None None None None None.

(** The five writes of [reset_cached], in the order of the code; the first
    that raises leaves the method. *)
Fixpoint write_all (results : results_t) (day : nat) (todo : list (string * flt))
  : result unit * results_t :=
  match todo with
  | [] => (Ok tt, results)
  | (p, v) :: todo' =>
      match results_set results p day v with
      | Raise e => (Raise e, results)
      | Ok results' => write_all results' day todo'
      end
  end.

Definition reset_cached `{FragmentationStatistics} (self : t) (results : results_t)
  : result unit * t * results_t :=
  match r_ad self, r_tp self, r_gi self, r_ah self, r_pld self, i self with
  | Some p_ad, Some p_tp, Some p_gi, Some p_ah, Some p_pld, Some day =>
      match write_all results day
              [(p_ad, average_duration (lens self));
               (p_tp, state_transition_probability (lens self));
               (p_gi, gini_index (lens self));
               (p_ah, average_hazard (lens self));
               (p_pld, state_power_law_distribution (lens self))] with
      | (Raise e, results') => (Raise e, self, results')
      | (Ok _, results') => (Ok tt, reset self, results')
      end
  | _, _, _, _, _, _ => (Ok tt, reset self, results)
  end.

(** The cached attributes are those of a new instance. *)
Definition cleared (self : t) : Prop :=
  lens self = []
  /\ r_ad self = None /\ r_tp self = None /\ r_gi self = None
  /\ r_ah self = None /\ r_pld self = None /\ i self = None.

(** The arrays and the day that [predict] has recorded, if it has
    recorded all six, are in [results]: the arrays have a slot for the
    day. *)
Definition slots_reserved (self : t) (results : results_t) : Prop :=
  forall p_ad p_tp p_gi p_ah p_pld day,
    r_ad self = Some p_ad -> r_tp self = Some p_tp -> r_gi self = Some p_gi ->
    r_ah self = Some p_ah -> r_pld self = Some p_pld -> i self = Some day ->
    Forall (reserved results day) [p_ad; p_tp; p_gi; p_ah; p_pld].

End FragmentationEndpoints.

(** ** [Sleep.predict] *)

(** The floats of the sleep pipeline.  [Sleep.predict] only passes them on,
    multiplies, divides and compares them, so it is embedded over any type of
    floats with these operations; IEEE doubles are one instance, the exact
    rationals ([Qfloat] below) another. *)
Class FloatOps (F : Type) : Type := {
  f_of_Z : Z -> F;
  f_add : F -> F -> F;
  f_sub : F -> F -> F;
  f_mul : F -> F -> F;
  f_div : F -> F -> F;
  f_lt : F -> F -> bool;
  f_eqb : F -> F -> bool;
  f_to_int : F -> Z;
}.

#[export] Instance Qfloat : FloatOps Q := {
  f_of_Z := inject_Z;
  f_add := Qplus;
  f_sub := Qminus;
  f_mul := Qmult;
  f_div := Qdiv;
  f_lt := Np.Qltb;
  f_eqb := Qeq_bool;
  f_to_int := Np.int_of_float;
}.

Module Sleep.

Section Pipeline.

Context {F : Type} `{FloatOps F}.

(** A value of the [sleep] table: [nan], an integer, a float or a
    string. *)
Inductive cell : Type :=
| c_nan
| c_int (z : Z)
| c_float (v : F)
| c_str (s : string).

Definition accel_t : Type := list (F * F * F).
Definition indices_t : Type := list (nat * nat).

(** A sleep metric ([SleepMetric]): its name and its [predict]. *)
Record metric : Type := {
  metric_name : string;
  metric_predict : list Z -> list nat -> list nat -> list Z -> cell;
}.

(** What [Sleep.predict] calls and is not among the sources. *)
Record collaborators : Type := {
  (** [apply_downsample(goal_fs, time, data=(accel,), indices=(days, wear))] *)
  apply_downsample :
    F -> list F -> accel_t -> indices_t -> indices_t ->
    list F * accel_t * indices_t * indices_t;
  (** [get_day_wear_intersection(starts, stops, day_start, day_stop)] *)
  get_day_wear_intersection :
    list nat -> list nat -> nat -> nat -> list Z * list Z;
  (** [get_total_sleep_opportunity(fs, time, accel, wear_starts, wear_stops,
      min_rest_block, max_act_break, min_angle, max_angle, plot, idx_start)];
      [None] is the answer whose first entry is [None]. *)
  get_total_sleep_opportunity :
    F -> list F -> accel_t -> list Z -> list Z -> Z -> Z -> F -> F -> nat ->
    option (F * F * Z * Z);
  (** [compute_activity_index(fs, accel)] *)
  compute_activity_index : F -> accel_t -> list F;
  (** [compute_sleep_predictions(act_index, sf=0.243)] *)
  compute_sleep_predictions : list F -> list Z;
  (** [datetime.utcfromtimestamp(t).hour] *)
  utc_hour : F -> Z;
  (** [datetime.utcfromtimestamp(t).strftime("%Y-%m-%d")] *)
  utc_date : F -> string;
  (** [(datetime.utcfromtimestamp(t) - timedelta(days=1)).strftime("%Y-%m-%d")] *)
  utc_date_before : F -> string;
  (** [datetime.utcfromtimestamp(t).strftime("%Y-%m-%d %H:%M:%S.%f")] *)
  utc_datetime : F -> string;
}.

(** The attributes of a [Sleep] instance that [predict] reads.  Plotting
    is not set up ([self.f is None]): every [_plot_*] method, and
    [_setup_day_plot], [_tabulate_results] and [_finalize_plots], then
    return at once and are left out. *)
Record t : Type := {
  min_rest_block : Z;
  max_act_break : Z;
  min_angle : F;
  max_angle : F;
  min_wear_time : F;
  min_day_hrs : F;
  downsample : bool;
  day_key : Z * Z;
  params : list metric;
}.

Abbreviation table := (gmap string (list cell)).

(** [f"{self.day_key}"] *)
Definition day_key_str (self : t) : string :=
  ("(" +:+ pretty (fst (day_key self)) +:+ ", " +:+ pretty (snd (day_key self)) +:+ ")")%string.

(** [diff(a)] *)
Definition diff (a : list F) : list F :=
  zip_with f_sub (drop 1 a) a.

(** [mean(a)] *)
Definition mean (a : list F) : F :=
  f_div (fold_left f_add a (f_of_Z 0)) (f_of_Z (Z.of_nat (length a))).

(** [if fs is None: fs = mean(diff(time[:5000]))] *)
Definition infer_fs (time : list F) (fs : option F) : F :=
  match fs with
  | None => mean (diff (take 5000 time))
  | Some v => v
  end.

(** [goal_fs = 20.]; [fs != goal_fs and self.downsample] *)
Definition goal_fs_20 : F := f_of_Z 20.

Definition must_downsample (self : t) (fs : F) : bool :=
  negb (f_eqb fs goal_fs_20) && downsample self.

(** The [goal_fs] of the rest of [predict]: 20 after downsampling, [fs]
    otherwise. *)
Definition goal_fs_of (self : t) (fs : F) : F :=
  if must_downsample self fs then goal_fs_20 else fs.

(** [sleep[k][-1] = v] *)
Definition set_last (sleep : table) (k : string) (v : cell) : result table :=
  match sleep !! k with
  | None => Raise KeyError
  | Some col =>
      match col with
      | [] => Raise IndexError
      | _ => Ok (<[k := <[length col - 1 := v]> col]> sleep)
      end
  end.

(** [for k in sleep: sleep[k].append(nan)] *)
Definition append_row (sleep : table) : table :=
  (fun col => col ++ [c_nan]) <$> sleep.

(** The table before the first day: the five fixed columns, then the
    column of every metric, all empty. *)
Definition init_table (init_params : list metric) : table :=
  fold_left (fun sleep param => <[metric_name param := []]> sleep) init_params
    (list_to_map
       (map (fun k => (k, []))
            ["Day N"; "Date"; "TSO Start Timestamp"; "TSO Start"; "TSO Duration"]%string)).

(** How the body of the loop over the days was left. *)
Inductive day_outcome : Type :=
| SkippedHours    (** [(stop - start) / (3600 * goal_fs) < self.min_day_hrs] *)
| SkippedWear     (** the wear time of the day is under [self.min_wear_time] *)
| SkippedTso      (** [tso[0] is None] *)
| Processed.

#[global] Instance day_outcome_eq_dec : EqDecision day_outcome :=
  ltac:(solve_decision).

(** [(stop - start) / (3600 * goal_fs)] *)
Definition hours (n : Z) (goal_fs : F) : F :=
  f_div (f_of_Z n) (f_mul (f_of_Z 3600) goal_fs).

(** [for param in init_params: sleep[param.name][-1] = param.predict(...)] *)
Fixpoint fill_metrics (sleep : table) (init_params : list metric)
         (pred : list Z) (lengths starts : list nat) (values : list Z)
  : result table :=
  match init_params with
  | [] => Ok sleep
  | param :: rest =>
      let* sleep := set_last sleep (metric_name param)
                      (metric_predict param pred lengths starts values) in
      fill_metrics sleep rest pred lengths starts values
  end.

(** The body of [for iday, day_idx in enumerate(days_ds)]: the table it
    leaves and how it was left, or the exception it raises.  The indices
    of the sleep window, which cut the predictions, are not negative. *)
Definition day_body (C : collaborators) (self : t) (goal_fs : F)
           (time_ds : list F) (accel_ds : accel_t) (wear_ds : indices_t)
           (init_params : list metric)
           (sleep : table) (iday : nat) (day_idx : nat * nat)
  : result (day_outcome * table) :=
  let '(start, stop) := day_idx in
  if f_lt (hours (Z.of_nat stop - Z.of_nat start) goal_fs) (min_day_hrs self)
  then Ok (SkippedHours, sleep)
  else
    let sleep := append_row sleep in
    let* sleep := set_last sleep "Day N" (c_int (Z.of_nat iday + 1)) in
    match time_ds !! (start + 50) with
    | None => Raise IndexError
    | Some t50 =>
        let* sleep :=
          set_last sleep "Date"
            (c_str (if Z.eqb (utc_hour C t50) (fst (day_key self))
                    then utc_date C t50 else utc_date_before C t50)) in
        let '(dw_starts, dw_stops) :=
          get_day_wear_intersection C (map fst wear_ds) (map snd wear_ds) start stop in
        if f_lt (hours (Np.sum (zip_with Z.sub dw_stops dw_starts)) goal_fs)
                (min_wear_time self)
        then Ok (SkippedWear, sleep)
        else
          match get_total_sleep_opportunity C goal_fs
                  (Np.slice time_ds start stop) (Np.slice accel_ds start stop)
                  dw_starts dw_stops (min_rest_block self) (max_act_break self)
                  (min_angle self) (max_angle self) start with
          | None => Ok (SkippedTso, sleep)
          | Some (tso0, tso1, tso2, tso3) =>
              let act_index :=
                compute_activity_index C goal_fs (Np.slice accel_ds start stop) in
              let predictions := compute_sleep_predictions C act_index in
              let per_min := f_of_Z (f_to_int (f_mul (f_of_Z 60) goal_fs)) in
              let tso_start := f_to_int (f_div (f_of_Z tso2) per_min) in
              let tso_stop := f_to_int (f_div (f_of_Z tso3) per_min) in
              let pred_during_tso :=
                Np.slice predictions (Z.to_nat tso_start) (Z.to_nat tso_stop) in
              let '(sw_lengths, sw_starts, sw_vals) := rle pred_during_tso in
              let* sleep := set_last sleep "TSO Start Timestamp" (c_float tso0) in
              let* sleep := set_last sleep "TSO Start" (c_str (utc_datetime C tso0)) in
              let* sleep :=
                set_last sleep "TSO Duration"
                  (c_float (f_div (f_of_Z (tso3 - tso2)) (f_mul goal_fs (f_of_Z 60)))) in
              let* sleep :=
                fill_metrics sleep init_params pred_during_tso sw_lengths sw_starts sw_vals in
              Ok (Processed, sleep)
          end
    end.

(** The loop over the days: the table at the end and how every day was
    left, in the order of the days. *)
Fixpoint day_loop (C : collaborators) (self : t) (goal_fs : F)
         (time_ds : list F) (accel_ds : accel_t) (wear_ds : indices_t)
         (init_params : list metric)
         (sleep : table) (iday : nat) (days_ds : indices_t)
  : result (list day_outcome * table) :=
  match days_ds with
  | [] => Ok ([], sleep)
  | day_idx :: rest =>
      let* (o, sleep) :=
        day_body C self goal_fs time_ds accel_ds wear_ds init_params sleep iday day_idx in
      let* (os, sleep) :=
        day_loop C self goal_fs time_ds accel_ds wear_ds init_params sleep (S iday) rest in
      Ok (o :: os, sleep)
  end.

(** A row of the table: the value of every column. *)
Definition day_row : Type := string -> cell.

Definition with_value (k : string) (v : cell) (row : day_row) : day_row :=
  fun k' => if decide (k' = k) then v else row k'.

(** The row of a day that was given up after its row was appended: the
    number of the day, its date, and [nan] in every other column. *)
Definition skipped_row (iday : nat) (date : string) : day_row :=
  with_value "Date" (c_str date)
    (with_value "Day N" (c_int (Z.of_nat iday + 1)) (fun _ => c_nan)).

(** Every column of [sleep'] is the column of [sleep] followed by its
    value in [row]. *)
Definition row_added (sleep sleep' : table) (row : day_row) : Prop :=
  forall k, sleep' !! k = (fun col => col ++ [row k]) <$> (sleep !! k).

(** The days that were not skipped for their hours, with their index,
    in the order of the days; [iday] is the index of the first day. *)
Definition kept_days (iday : nat) (os : list day_outcome) : list (nat * day_outcome) :=
  filter (fun d => snd d <> SkippedHours) (zip (seq iday (length os)) os).

(** [row] is the row of a day that ended as [d] says. *)
Definition row_of_day (d : nat * day_outcome) (row : day_row) : Prop :=
  snd d <> Processed -> exists date, row = skipped_row (fst d) date.

(** The part of [predict] that follows the choice of [goal_fs]: the
    table is set up and the days are gone through. *)
Definition process_days (C : collaborators) (self : t) (goal_fs : F)
           (time_ds : list F) (accel_ds : accel_t) (days_ds wear_ds : indices_t)
  : result (list day_outcome * table) :=
  let init_params := params self in
  let sleep := init_table init_params in
  day_loop C self goal_fs time_ds accel_ds wear_ds init_params sleep 0 days_ds.

(** What [predict] returns: the [sleep] table, and the entries it puts
    into [kwargs]; [outcomes] records how every day was left. *)
Record output : Type := {
  out_fs : F;
  out_wear : indices_t;
  out_sleep : table;
  outcomes : list day_outcome;
}.

(** [wear = array([[0, time.size]])] when no wear is given *)
Definition wear_or_all (time : list F) (wear : option indices_t) : indices_t :=
  match wear with
  | None => [(0, length time)]
  | Some w => w
  end.

(** [predict(time, accel, fs=fs, wear=wear, **{days: day_ends})];
    [day_ends] is [kwargs.get(self._days, {})].  The days are those of
    the key [f"{self.day_key}"]. *)
Definition predict (C : collaborators) (self : t)
           (time : list F) (accel : accel_t)
           (fs : option F) (wear : option indices_t)
           (day_ends : gmap string indices_t) : result output :=
  let fs := infer_fs time fs in
  match day_ends !! day_key_str self with
  | None => Raise ValueError
  | Some days =>
      let wear := wear_or_all time wear in
      let goal_fs := goal_fs_of self fs in
      let '(time_ds, accel_ds, days_ds, wear_ds) :=
        if must_downsample self fs
        then apply_downsample C goal_fs_20 time accel days wear
        else (time, accel, days, wear) in
      let* (os, sleep) :=
        process_days C self goal_fs time_ds accel_ds days_ds wear_ds in
      Ok {| out_fs := fs; out_wear := wear; out_sleep := sleep; outcomes := os |}
  end.

End Pipeline.

Arguments cell F : clear implicits.
Arguments metric F : clear implicits.
Arguments collaborators F : clear implicits.
Arguments t F : clear implicits.
Arguments output F : clear implicits.

End Sleep.

(** [r] is a float equal to [q]. *)
Definition returns (r : result Q) (q : Q) : Prop :=
  exists v, r = Ok v /\ (v == q)%Q.

(** ** Inputs of the scenarios *)

Module Scenario.

(** The detector of the end-to-end scenarios: epochs of 60 seconds, bouts
    of 10 minutes, a fraction of 0.8, the level from 0.1 to 100.0. *)
Definition detect (accm : list Q) (closedbout : bool) (boutmetric : Z) : result Q :=
  Bouts.get_activity_bouts accm (1 # 10) 100 60 10 (8 # 10) closedbout boutmetric.

(** The detector on five-second epochs and bouts of one minute. *)
Definition detect_5s (accm : list Q) (boutmetric : Z) : result Q :=
  Bouts.get_activity_bouts accm (1 # 10) 100 5 1 (8 # 10) true boutmetric.

(** Twelve one-minute epochs of value 1.0. *)
Definition ones12 : list Q := repeat 1%Q 12.

(** The same with epochs 5 and 6 at 0.0. *)
Definition gap12 : list Q := repeat 1%Q 5 ++ [0; 0]%Q ++ repeat 1%Q 5.

(** One minute of five-second epochs, all in the level. *)
Definition minute_of_5s : list Q := repeat 1%Q 12.

(** [MaxAcceleration([10, 1], "wake")] and [MaxAcceleration(1, "wake")] *)
Definition max_10_1 : MaxAcceleration.t := MaxAcceleration.init [10; 1] "wake".
Definition max_1 : MaxAcceleration.t := MaxAcceleration.init [1] "wake".

(** A results dict of one day with the columns of [max_10_1], all [nan]. *)
Definition one_day : results_t :=
  list_to_map (map (fun n => (n, [nan])) (MaxAcceleration.name max_10_1)).

(** Five one-minute epochs. *)
Definition five_minutes : list Q := [1; 2; 3; 2; 1]%Q.

(** The endpoints of a day with an intensity gradient and the
    fragmentation of the sedentary level, and their results dict. *)
Definition gradient : IntensityGradient.t := IntensityGradient.init "wake".
Definition fragments : FragmentationEndpoints.t :=
  FragmentationEndpoints.init "sed" "wake" (-1) (50 # 1000).

Definition gradient_day : results_t :=
  list_to_map (map (fun n => (n, [nan]))
                   (IntensityGradient.name gradient ++ FragmentationEndpoints.name fragments)).

(** Four minutes of a day, and the two endpoints after they were given
    to [predict]. *)
Definition four_minutes : list Q := [10 # 1000; 30 # 1000; 80 # 1000; 120 # 1000]%Q.

Definition gradient_fed : IntensityGradient.t :=
  snd (IntensityGradient.predict gradient gradient_day 0 four_minutes 1).
Definition fragments_fed : FragmentationEndpoints.t :=
  snd (FragmentationEndpoints.predict fragments gradient_day 0 four_minutes).

(** Stand-ins for the numerical collaborators that answer [nan]; the
    values written play no part where they are used. *)
Definition no_fit : Regression :=
  {| log := fun v => v; linregress := fun _ _ => (nan, nan, nan) |}.
Definition no_statistics : FragmentationStatistics :=
  {| average_duration := fun _ => nan;
     state_transition_probability := fun _ => nan;
     gini_index := fun _ => nan;
     average_hazard := fun _ => nan;
     state_power_law_distribution := fun _ => nan |}.

(** Every other entry of an array: from 40 Hz to 20 Hz. *)
Fixpoint every_other {A : Type} (l : list A) : list A :=
  match l with
  | a :: _ :: l' => a :: every_other l'
  | _ => l
  end.

Definition halved (indices : Sleep.indices_t) : Sleep.indices_t :=
  map (fun d => (fst d / 2, snd d / 2)) indices.

(** Collaborators for a recording at 40 Hz in which no sleep window is
    found: downsampling keeps every other sample, and the wear of a day is
    every wear interval cut to the day. *)
Definition quiet : Sleep.collaborators Q := {|
  Sleep.apply_downsample := fun _ time accel days wear =>
    (every_other time, every_other accel, halved days, halved wear);
  Sleep.get_day_wear_intersection := fun starts stops day_start day_stop =>
    (map (fun s => Z.of_nat (Nat.max s day_start)) starts,
     map (fun e => Z.of_nat (Nat.max (Nat.min e day_stop) day_start)) stops);
  Sleep.get_total_sleep_opportunity := fun _ _ _ _ _ _ _ _ _ _ => None;
  Sleep.compute_activity_index := fun _ accel => map (fun _ => 0%Q) accel;
  Sleep.compute_sleep_predictions := fun act => map (fun _ => 1%Z) act;
  Sleep.utc_hour := fun _ => 12%Z;
  Sleep.utc_date := fun _ => "1970-01-01"%string;
  Sleep.utc_date_before := fun _ => "1969-12-31"%string;
  Sleep.utc_datetime := fun _ => "1970-01-01 12:00:00.000000"%string;
|}.

(** [Sleep(downsample=False)] with one metric, and [Sleep()]. *)
Definition total_sleep_time : Sleep.metric Q :=
  {| Sleep.metric_name := "total sleep time";
     Sleep.metric_predict := fun pred _ _ _ => Sleep.c_int (Np.sum pred) |}.

Definition sleep_as_is : Sleep.t Q := {|
  Sleep.min_rest_block := 30; Sleep.max_act_break := 60;
  Sleep.min_angle := (1 # 10)%Q; Sleep.max_angle := 1%Q;
  Sleep.min_wear_time := 0%Q; Sleep.min_day_hrs := 6%Q;
  Sleep.downsample := false; Sleep.day_key := (12, 24)%Z;
  Sleep.params := [total_sleep_time] |}.

Definition sleep_default : Sleep.t Q := {|
  Sleep.min_rest_block := 30; Sleep.max_act_break := 60;
  Sleep.min_angle := (1 # 10)%Q; Sleep.max_angle := 1%Q;
  Sleep.min_wear_time := 0%Q; Sleep.min_day_hrs := 6%Q;
  Sleep.downsample := true; Sleep.day_key := (12, 24)%Z;
  Sleep.params := [total_sleep_time] |}.

(** 300 samples, one every 100 seconds, and 300 samples at 40 Hz. *)
Definition slow_time : list Q := map (fun k => inject_Z (100 * Z.of_nat k)) (seq 0 300).
Definition fast_time : list Q := map (fun k => (inject_Z (Z.of_nat k) / 40)%Q) (seq 0 300).
Definition still : Sleep.accel_t (F := Q) := repeat (0, 0, 1)%Q 300.
Definition long_still : Sleep.accel_t (F := Q) := repeat (0, 0, 1)%Q 600.

(** 600 samples at 40 Hz, in one day. *)
Definition long_fast_time : list Q :=
  map (fun k => (inject_Z (Z.of_nat k) / 40)%Q) (seq 0 600).
Definition one_day_of_600 : gmap string Sleep.indices_t :=
  {[ "(12, 24)"%string := [(0, 600)] ]}.

(** One day of 250 samples, then a rest of 50. *)
Definition two_days : gmap string Sleep.indices_t :=
  {[ "(12, 24)"%string := [(0, 250); (250, 300)] ]}.

(** A mapping of days without the key of the day window. *)
Definition other_days : gmap string Sleep.indices_t :=
  {[ "(0, 24)"%string := [(0, 250); (250, 300)] ]}.

End Scenario.

(** ** [TotalIntensityTime] and [BoutIntensityTime] *)

(** [v += q] on an entry of a results array; the sum is the exact one,
    which is the double of the code where [exact_count] holds of both. *)
Definition flt_add (v : flt) (q : Q) : flt :=
  match v with
  | nan => nan
  | fin x => fin (x + q)
  end.

(** The same float: both [nan], or equal numbers. *)
Definition flt_eq (a b : flt) : Prop :=
  match a, b with
  | nan, nan => True
  | fin x, fin y => (x == y)%Q
  | _, _ => False
  end.

(** A float that an endpoint has added to: [nan] stays [nan], a number
    does not get smaller. *)
Definition flt_grown (a b : flt) : Prop :=
  match a, b with
  | nan, nan => True
  | fin x, fin y => (x <= y)%Q
  | _, _ => False
  end.

(** The epochs per minute at which the minutes of an epoch count are the
    same number in doubles as in the rationals: 1, 2 and 4 (epochs of 60,
    30 and 15 seconds), the powers of two among the divisors of 60.  Then
    [wlen / 60] is 1, 0.5 or 0.25, and a count divided by [epochs_per_min]
    or multiplied by [wlen / 60] is not rounded. *)
Definition exact_epochs (epochs_per_min : nat) : Prop :=
  epochs_per_min = 1 \/ epochs_per_min = 2 \/ epochs_per_min = 4.

(** [v] is the minutes of a whole number of epochs, small enough that
    [n] more epochs are still counted without rounding (a double holds
    every integer below [2 ^ 53]). *)
Definition exact_count (epochs_per_min n : nat) (v : Q) : Prop :=
  exists z : Z,
    (0 <= z)%Z /\ (z + Z.of_nat n < 2 ^ 53)%Z
    /\ (v == inject_Z z / Np.of_nat epochs_per_min)%Q.

Module TotalIntensityTime.

Record t : Type := {
  name : string;
  level : string;
  lthresh : Q;
  uthresh : Q;
}.

(** [__init__]; the two thresholds are what [get_level_thresholds] gives
    for the level and the cutpoints. *)
Definition init (level : string) (epoch_length : nat) (state : string)
           (lthresh uthresh : Q) : t :=
  {| name := endpoint_name state
               (level +:+ " " +:+ pretty epoch_length +:+ "s epoch [min]")%string;
     level := level; lthresh := lthresh; uthresh := uthresh |}.

(** [sum((accel_metric >= self.lthresh) & (accel_metric < self.uthresh))] *)
Definition time_in_level (self : t) (accel_metric : list Q) : nat :=
  length (filter (fun v => Bouts.in_level (lthresh self) (uthresh self) v = true)
                 accel_metric).

(** [time / epochs_per_min], for [epochs_per_min >= 1]; the quotient is
    the exact one, which is the double of the code under [exact_epochs]. *)
Definition minutes (self : t) (accel_metric : list Q) (epochs_per_min : nat) : Q :=
  (Np.of_nat (time_in_level self accel_metric) / Np.of_nat epochs_per_min)%Q.

(** [results[self.name][i] += time / epochs_per_min]: the entry is read,
    then written; an exception of the read leaves [results] as it is. *)
Definition predict (self : t) (results : results_t) (i : nat)
           (accel_metric : list Q) (epochs_per_min : nat) : result unit * results_t :=
  match results_get results (name self) i with
  | Raise e => (Raise e, results)
  | Ok prev =>
      match results_set results (name self) i
              (flt_add prev (minutes self accel_metric epochs_per_min)) with
      | Raise e => (Raise e, results)
      | Ok results' => (Ok tt, results')
      end
  end.

End TotalIntensityTime.

Module BoutIntensityTime.

Record t : Type := {
  name : list string;
  level : string;
  blens : list nat;
  bcrit : Q;
  bmetric : Z;
  cbout : bool;
  lthresh : Q;
  uthresh : Q;
}.

Definition init (level : string) (bout_lengths : list nat) (bout_criteria : Q)
           (bout_metric : Z) (closed_bout : bool) (state : string)
           (lthresh uthresh : Q) : t :=
  {| name := map (fun i => endpoint_name state
                             (level +:+ " " +:+ pretty i +:+ "min bout [min]")%string)
                 bout_lengths;
     level := level; blens := bout_lengths; bcrit := bout_criteria;
     bmetric := bout_metric; cbout := closed_bout;
     lthresh := lthresh; uthresh := uthresh |}.

(** [results[name][i] += get_activity_bouts(...)]: the entry is read
    before the bouts are looked for, and written after. *)
Definition predict_bout (self : t) (accel_metric : list Q) (epoch_s i : nat)
           (results : results_t) (bout_len : nat) (name : string) : result results_t :=
  let* prev := results_get results name i in
  let* bout_time :=
    Bouts.get_activity_bouts accel_metric (lthresh self) (uthresh self) epoch_s bout_len
      (bcrit self) (cbout self) (bmetric self) in
  results_set results name i (flt_add prev bout_time).

(** [for bout_len, name in zip(self.blens, self.name)]: the dict reached
    and how the method ended. *)
Fixpoint predict_loop (self : t) (accel_metric : list Q) (epoch_s i : nat)
         (todo : list (nat * string)) (results : results_t)
  : result unit * results_t :=
  match todo with
  | [] => (Ok tt, results)
  | (bout_len, name) :: todo' =>
      match predict_bout self accel_metric epoch_s i results bout_len name with
      | Raise e => (Raise e, results)
      | Ok results' => predict_loop self accel_metric epoch_s i todo' results'
      end
  end.

Definition predict (self : t) (results : results_t) (i : nat)
           (accel_metric : list Q) (epoch_s : nat) : result unit * results_t :=
  predict_loop self accel_metric epoch_s i (zip (blens self) (name self)) results.

End BoutIntensityTime.

(** ** Inputs of further examples *)

Module Examples.

(** [TotalIntensityTime("MVPA", 60)] with the level from 0.1 to 100.0,
    and a results dict of one day with its column. *)
Definition mvpa_time : TotalIntensityTime.t :=
  TotalIntensityTime.init "MVPA" 60 "wake" (1 # 10) 100.

Definition mvpa_day : results_t :=
  {[ TotalIntensityTime.name mvpa_time := [fin 0] ]}.

(** Two minutes in the first bin of the intensity gradient, and the
    endpoint after they were given to [predict]. *)
Definition one_bin : list Q := [10 # 1000; 20 # 1000]%Q.

Definition gradient_one_bin : IntensityGradient.t :=
  snd (IntensityGradient.predict Scenario.gradient Scenario.gradient_day 0 one_bin 1).

(** The two endpoints after four minutes were given to [predict] for
    day 5 of the results of one day. *)
Definition gradient_day_5 : IntensityGradient.t :=
  snd (IntensityGradient.predict Scenario.gradient Scenario.gradient_day 5
         Scenario.four_minutes 1).
Definition fragments_day_5 : FragmentationEndpoints.t :=
  snd (FragmentationEndpoints.predict Scenario.fragments Scenario.gradient_day 5
         Scenario.four_minutes).

(** Thirteen one-minute epochs of value 1.0 but the sixth, at 0.0, and
    twelve epochs at 0.0. *)
Definition one_break : list Q := repeat 1%Q 5 ++ [0%Q] ++ repeat 1%Q 7.
Definition all_low : list Q := repeat 0%Q 12.

End Examples.

Module SleepExamples.

Import Sleep.

(** [Sleep(min_day_hours=1, downsample=False)] with one metric. *)
Definition sleep_short_days : Sleep.t Q := {|
  Sleep.min_rest_block := 30; Sleep.max_act_break := 60;
  Sleep.min_angle := (1 # 10)%Q; Sleep.max_angle := 1%Q;
  Sleep.min_wear_time := 0%Q; Sleep.min_day_hrs := 1%Q;
  Sleep.downsample := false; Sleep.day_key := (12, 24)%Z;
  Sleep.params := [Scenario.total_sleep_time] |}.

(** A day of 20 samples, then a day of the last 40 samples of 300. *)
Definition last_day_of_40 : gmap string Sleep.indices_t :=
  {[ "(12, 24)"%string := [(0, 20); (260, 300)] ]}.

(** Two days of 20 samples. *)
Definition days_of_20 : gmap string Sleep.indices_t :=
  {[ "(12, 24)"%string := [(0, 20); (20, 40)] ]}.

End SleepExamples.

(** * Properties *)

(** ** The scenarios of the bout detector *)

Section BoutScenarios.

Import Bouts Scenario.

(** Twelve qualifying minutes are one bout of twelve minutes. *)
Lemma twelve_ones_scenario :
  returns (detect ones12 true 1) 12 /\ returns (detect ones12 false 1) 12.
Proof. split; eexists; (split; [vm_compute; reflexivity | reflexivity]). Qed.

(** C1, as it is written, fails: the detector does not give 12 minutes for
    the run with the gap and [closed_bout] set. *)
Lemma gap_scenario_not_12 :
  ~ returns (detect gap12 true 1) 12.
Proof. intros (v & E & Hv). vm_compute in E. injection E as <-. discriminate Hv. Qed.

(** C1, amended: with epochs 5 and 6 out of the level, no window of ten
    epochs that starts at a qualifying epoch and ends before the end of
    the data holds more than eight qualifying epochs, and the detector
    gives 0 minutes, whether [closed_bout] is set or not. *)
Theorem gap_scenario :
  detect gap12 true 1 = Ok 0%Q /\ detect gap12 false 1 = Ok 0%Q.
Proof. split; vm_compute; reflexivity. Qed.

(** C6: one minute of five-second epochs passes the check of the length
    ([nboutdur] is 12), but the break search takes the mean over 13 epochs
    outside the [try], and metrics 3 and 4 raise instead of returning 0. *)
Theorem short_block_raises :
  get_nboutdur 5 1 = Ok (length minute_of_5s)
  /\ detect_5s minute_of_5s 3 = Raise ValueError
  /\ detect_5s minute_of_5s 4 = Raise ValueError.
Proof. repeat split; vm_compute; reflexivity. Qed.

(** C3, as it is written, fails: a metric outside 1..4 on a sequence
    shorter than the window is answered by 0, not by an error. *)
Lemma unknown_metric_short_input :
  detect [] true 7 = Ok 0%Q /\ detect [] true 7 <> Raise ValueError.
Proof. split; [vm_compute; reflexivity | vm_compute; discriminate]. Qed.

End BoutScenarios.

(** ** [MaxAcceleration]: a window longer than the block *)

Section MaxAccelerationScenarios.

Import MaxAcceleration Scenario.

(** C8: with the windows 10 and 1 minutes and a block of five minutes the
    first window is too long and [predict] returns; the one-minute window
    is not evaluated and its slot keeps [nan], where the largest epoch of
    the block is 3. *)
Theorem long_window_ends_predict :
  predict max_10_1 one_day 0 five_minutes 1 = (Ok tt, one_day)
  /\ results_get one_day "wake max acc 1min [g]" 0 = Ok nan
  /\ returns (let* mm := moving_mean five_minutes 1 1 in Np.max mm) 3.
Proof.
  repeat split; try (vm_compute; reflexivity).
  eexists; split; [vm_compute; reflexivity | reflexivity].
Qed.

End MaxAccelerationScenarios.

(** ** Floats and numpy helpers *)

Section NumpyFacts.

Import Np.

Lemma Qltb_lt (a b : Q) : Qltb a b = true <-> (a < b)%Q.
Proof.
  unfold Qltb. rewrite negb_true_iff, <- not_true_iff_false, Qle_bool_iff.
  split; [apply Qnot_le_lt | apply Qlt_not_le].
Qed.

Lemma Qltb_ge (a b : Q) : Qltb a b = false <-> (b <= a)%Q.
Proof.
  unfold Qltb. rewrite negb_false_iff. apply Qle_bool_iff.
Qed.

Lemma of_nat_nonneg (n : nat) : (0 <= of_nat n)%Q.
Proof. unfold of_nat. change 0%Q with (inject_Z 0). rewrite <- Zle_Qle. lia. Qed.

Lemma of_nat_S (n : nat) : (of_nat (S n) == of_nat n + 1)%Q.
Proof.
  unfold of_nat. rewrite Nat2Z.inj_succ, <- Z.add_1_r, inject_Z_plus. reflexivity.
Qed.

Lemma of_nat_pos (n : nat) : 1 <= n -> (0 < of_nat n)%Q.
Proof.
  intros Hn. unfold of_nat. change 0%Q with (inject_Z 0). rewrite <- Zlt_Qlt. lia.
Qed.

Lemma sum_nonneg (x : list Z) : Forall (fun v => (0 <= v)%Z) x -> (0 <= sum x)%Z.
Proof. induction 1; simpl; lia. Qed.

Lemma sum_app (x y : list Z) : sum (x ++ y) = (sum x + sum y)%Z.
Proof. induction x; simpl; lia. Qed.

Lemma sum_repeat (v : Z) (n : nat) : sum (repeat v n) = (Z.of_nat n * v)%Z.
Proof. induction n; simpl repeat; simpl sum; lia. Qed.

Lemma fold_max_ge (l : list nat) (v : nat) :
  v <= fold_left Nat.max l v /\ forall x, x ∈ l -> x <= fold_left Nat.max l v.
Proof.
  revert v. induction l as [|a l IH]; intros v; simpl.
  - split; [lia | intros x Hx; inversion Hx].
  - destruct (IH (Nat.max v a)) as [H1 H2]. split; [lia |].
    intros x Hx. apply elem_of_cons in Hx as [-> | Hx]; [lia | auto].
Qed.

(** [max(p)] is there, and at least any entry of [p], when [p] has one. *)
Lemma max_idx_ge (p : list nat) (x : nat) :
  x ∈ p -> exists m, max_idx p = Ok m /\ x <= m.
Proof.
  destruct p as [|v p]; intros Hx; [inversion Hx |].
  simpl. eexists; split; [reflexivity |].
  destruct (fold_max_ge p v) as [H1 H2].
  apply elem_of_cons in Hx as [-> | Hx]; auto.
Qed.

Lemma putmask_Forall {A : Type} (P : A -> Prop) (x : list A) (m : list bool) (v : A) :
  Forall P x -> P v -> Forall P (putmask x m v).
Proof.
  intros Hx Hv. unfold putmask. revert m.
  induction Hx as [|a x Ha Hx IH]; intros [|b m]; simpl; constructor; auto.
  destruct b; auto.
Qed.

Lemma putmask_length {A : Type} (x : list A) (m : list bool) (v : A) :
  length m = length x -> length (putmask x m v) = length x.
Proof. intros E. unfold putmask. rewrite length_zip_with. lia. Qed.

End NumpyFacts.

(** ** The bout detector never goes below zero *)

Section BoutsTotal.

Import Bouts.

Lemma epoch_minutes_nonneg (wlen : nat) : (0 <= epoch_minutes wlen)%Q.
Proof.
  unfold epoch_minutes. apply Qle_shift_div_l; [reflexivity |].
  rewrite Qmult_0_l. apply of_nat_nonneg.
Qed.

Lemma get_nboutdur_wlen (wlen boutdur nboutdur : nat) :
  get_nboutdur wlen boutdur = Ok nboutdur -> 1 <= wlen.
Proof.
  unfold get_nboutdur. destruct (Nat.eqb_spec wlen 0); [discriminate | lia].
Qed.

Lemma extend_end_ge (x : list Z) (c : Q) (start end_ fuel : nat) :
  end_ <= extend_end x c start end_ fuel.
Proof.
  revert end_. induction fuel as [|fuel IH]; intros end_; simpl; [lia |].
  destruct (_ && _); [| lia]. specialize (IH (S end_)). lia.
Qed.

(** A window that passes the test of the fraction has an epoch. *)
Lemma passing_window_nonempty (x : list Z) (start nboutdur : nat) (c : Q) :
  Np.Qltb (Np.of_nat nboutdur * c)
          (inject_Z (Np.sum (Np.slice x start (start + nboutdur)))) = true ->
  1 <= nboutdur.
Proof.
  intros Ht. destruct nboutdur as [|n]; [| lia]. exfalso.
  unfold Np.slice in Ht. replace (start + 0 - start) with 0 in Ht by lia.
  rewrite take_0 in Ht. apply Qltb_lt in Ht.
  change (Np.of_nat 0) with 0%Q in Ht. change (inject_Z (Np.sum [])) with 0%Q in Ht.
  lra.
Qed.

(** The fuel of the outer loop of metric 1 is enough: from [i_mvpa] on,
    any fuel of at least [p.size - i_mvpa] gives the same result, so the
    loop is never cut short. *)
Lemma metric1_loop_fuel (x : list Z) (p : list nat) (nboutdur : nat) (c : Q)
      (closedbout : bool) (wlen : nat) (fuel : nat) :
  forall fuel' i_mvpa t,
    length p - i_mvpa <= fuel -> length p - i_mvpa <= fuel' ->
    metric1_loop fuel x p nboutdur c closedbout wlen i_mvpa t
    = metric1_loop fuel' x p nboutdur c closedbout wlen i_mvpa t.
Proof.
  induction fuel as [|fuel IH]; intros fuel' i t Hf Hf'.
  - assert (Hnone : p !! i = None) by (apply lookup_ge_None; lia).
    destruct fuel'; simpl; [reflexivity | rewrite Hnone; reflexivity].
  - destruct fuel' as [|fuel'].
    + assert (Hnone : p !! i = None) by (apply lookup_ge_None; lia).
      simpl. rewrite Hnone. reflexivity.
    + simpl. destruct (p !! i) as [start|] eqn:Ep; [| reflexivity].
      apply lookup_lt_Some in Ep.
      destruct (start + nboutdur <? length x); [| apply IH; lia].
      destruct (Np.Qltb _ _); [| apply IH; lia].
      destruct closedbout.
      * destruct (Np.max_idx _); simpl; [apply IH; lia | reflexivity].
      * apply IH; lia.
Qed.

Lemma metric1_loop_nonneg (x : list Z) (p : list nat) (nboutdur : nat) (c : Q)
      (closedbout : bool) (wlen : nat) (fuel i_mvpa : nat) (t : Q) :
  (0 <= t)%Q ->
  exists q, metric1_loop fuel x p nboutdur c closedbout wlen i_mvpa t = Ok q
            /\ (0 <= q)%Q.
Proof.
  revert i_mvpa t. induction fuel as [|fuel IH]; intros i t Ht; simpl.
  { eauto. }
  destruct (p !! i) as [start|] eqn:Ep; [| eauto].
  destruct (start + nboutdur <? length x); [| auto].
  destruct (Np.Qltb _ _) eqn:Etest; [| auto].
  pose proof (passing_window_nonempty _ _ _ _ Etest) as Hn.
  pose proof (epoch_minutes_nonneg wlen) as Hem.
  set (end_ := extend_end x c start (start + nboutdur) (length x - (start + nboutdur))).
  assert (Hend : start < end_).
  { pose proof (extend_end_ge x c start (start + nboutdur)
                  (length x - (start + nboutdur))). subst end_. lia. }
  destruct closedbout.
  - destruct (max_idx_ge (filter (fun v => v < end_) p) start) as (m & -> & Hm).
    { apply list_elem_of_filter. split; [exact Hend |].
      apply list_elem_of_lookup. eauto. }
    simpl. apply IH.
    assert (0 <= inject_Z (Z.of_nat m - Z.of_nat start + 1))%Q.
    { change 0%Q with (inject_Z 0). rewrite <- Zle_Qle. lia. }
    nra.
  - apply IH. pose proof (of_nat_nonneg (length (filter (fun v => v < end_) (drop i p)))).
    nra.
Qed.

Lemma metric1_nonneg (accm : list Q) (lo hi : Q) (wlen nboutdur : nat) (c : Q)
      (closedbout : bool) :
  exists q, metric1 accm lo hi wlen nboutdur c closedbout = Ok q /\ (0 <= q)%Q.
Proof. apply metric1_loop_nonneg. lra. Qed.

Lemma level_mask_nonneg (accm : list Q) (lo hi : Q) :
  Forall (fun v => (0 <= v)%Z) (level_mask accm lo hi).
Proof.
  unfold level_mask. apply Forall_forall. intros v Hv.
  apply list_elem_of_In, in_map_iff in Hv as (q & <- & _).
  destruct (in_level lo hi q); lia.
Qed.

Lemma metric2_step_nonneg (p : list nat) (nboutdur : nat) (c : Q)
      (st : list Z * list Z) (i : nat) :
  Forall (fun v => (0 <= v)%Z) (fst st) ->
  Forall (fun v => (0 <= v)%Z) (fst (metric2_step p nboutdur c st i)).
Proof.
  destruct st as [x xt]. simpl. intros Hx.
  destruct (p !! i) as [start|]; [| exact Hx].
  destruct (start + nboutdur <? length x).
  - destruct (Np.Qltb _ _); simpl; [exact Hx |].
    apply Forall_insert; [exact Hx | lia].
  - destruct (_ && _); simpl; [| exact Hx].
    apply Forall_insert; [exact Hx |].
    destruct (nth_in_or_default (nth (i - 1) p 0) x 0%Z) as [Hin | ->]; [| lia].
    rewrite Forall_forall in Hx. apply Hx, list_elem_of_In, Hin.
Qed.

Lemma metric2_nonneg (accm : list Q) (lo hi : Q) (wlen nboutdur : nat) (c : Q) :
  exists q, metric2 accm lo hi wlen nboutdur c = Ok q /\ (0 <= q)%Q.
Proof.
  unfold metric2.
  assert (Hfold : forall (l : list nat) (st : list Z * list Z),
             Forall (fun v => (0 <= v)%Z) (fst st) ->
             Forall (fun v => (0 <= v)%Z)
                    (fst (fold_left (metric2_step (Np.nonzero (level_mask accm lo hi))
                                       nboutdur c) l st))).
  { induction l as [|i l IH]; intros st Hst; simpl; [exact Hst |].
    apply IH, metric2_step_nonneg, Hst. }
  specialize (Hfold (seq 0 (length (Np.nonzero (level_mask accm lo hi))))
                    (level_mask accm lo hi, Np.izeros (length (level_mask accm lo hi)))
                    (level_mask_nonneg accm lo hi)).
  destruct (fold_left _ _ _) as [x xt]. simpl in Hfold.
  eexists; split; [reflexivity |].
  pose proof (epoch_minutes_nonneg wlen) as Hem.
  assert (0 <= inject_Z (Np.sum (Np.putmask x (map (fun v => Z.eqb v 2) xt) 1%Z)))%Q.
  { change 0%Q with (inject_Z 0). rewrite <- Zle_Qle.
    apply sum_nonneg, putmask_Forall; [exact Hfold | lia]. }
  nra.
Qed.

Lemma marked_minutes_nonneg (x xt : list Z) (wlen : nat) :
  (0 <= marked_minutes x xt wlen)%Q.
Proof.
  unfold marked_minutes.
  pose proof (epoch_minutes_nonneg wlen) as Hem.
  set (s := Np.sum _).
  assert (0 <= inject_Z s)%Q; [| nra].
  change 0%Q with (inject_Z 0). rewrite <- Zle_Qle. subst s.
  apply sum_nonneg. unfold Np.putmask.
  apply Forall_forall. intros v Hv.
  apply list_elem_of_lookup in Hv as (j & Hj).
  apply lookup_zip_with_Some in Hj as (a & b & -> & Ha & Hb).
  destruct b; [lia |].
  apply lookup_zip_with_Some in Ha as (a' & b' & -> & Ha' & Hb').
  destruct b'; [lia |].
  rewrite list_lookup_fmap in Hb, Hb'.
  destruct (xt !! j) as [w|]; [| discriminate].
  simpl in Hb, Hb'. injection Hb as Hb. injection Hb' as Hb'.
  rewrite Hb in Hb'. discriminate.
Qed.

End BoutsTotal.

(** ** The moving mean and the break search *)

Section BreakSearch.

Import Bouts.

Lemma moving_mean_stride_1 (a : list Q) (w : nat) :
  1 <= w <= length a ->
  moving_mean a w 1 =
  Ok (map (window_mean a w) (seq 0 (length a - w + 1))).
Proof.
  intros [Hw Ha]. unfold moving_mean.
  destruct (Nat.eqb_spec w 0); [lia |]. cbn [orb Nat.eqb].
  destruct (Nat.ltb_spec (length a) w); [lia |].
  rewrite Nat.div_1_r. f_equal. apply map_ext. intros k.
  rewrite Nat.mul_1_r. reflexivity.
Qed.

Lemma moving_mean_too_long (a : list Q) (w : nat) :
  length a < w -> moving_mean a w 1 = Raise ValueError.
Proof.
  intros Hw. unfold moving_mean.
  destruct (Nat.eqb_spec w 0); cbn [orb Nat.eqb]; [reflexivity |].
  destruct (Nat.ltb_spec (length a) w); [reflexivity | lia].
Qed.

Lemma moving_mean_raises (a : list Q) (w skip : nat) (e : exn) :
  moving_mean a w skip = Raise e -> e = ValueError.
Proof.
  unfold moving_mean. destruct (_ || _); [congruence |].
  destruct (_ <? _); congruence.
Qed.

(** [int(a / b)] of two counts is the quotient of the integers. *)
Lemma int_of_float_quotient (a : Z) (b : nat) :
  1 <= b -> Np.int_of_float (inject_Z a / Np.of_nat b)%Q = Z.quot a (Z.of_nat b).
Proof.
  intros Hb. unfold Np.of_nat, Np.int_of_float, Qdiv, Qinv, inject_Z.
  destruct (Z.of_nat b) as [|pb|pb] eqn:Eb; try lia.
  simpl Qnum. cbn [Qmult Qnum Qden]. simpl Qnum. simpl Qden.
  rewrite Z.mul_1_r. reflexivity.
Qed.

Lemma break_window_value (wlen : nat) :
  1 <= wlen -> break_window wlen = 60 / wlen + 1.
Proof.
  intros Hw. unfold break_window. change 60%Q with (inject_Z 60).
  rewrite (int_of_float_quotient 60 wlen Hw).
  rewrite Z.quot_div_nonneg by lia.
  change 60%Z with (Z.of_nat 60). rewrite <- Nat2Z.inj_div. lia.
Qed.

Lemma break_window_pos (wlen : nat) : 1 <= wlen -> 1 <= break_window wlen.
Proof. intros Hw. rewrite break_window_value by exact Hw. lia. Qed.

(** [i1 = int(floor((N + 1) / 2)) - 1] *)
Lemma break_i1 (N : nat) :
  Z.to_nat (Qfloor ((Np.of_nat N + 1) / 2)%Q - 1) = (N + 1) / 2 - 1.
Proof.
  assert (E : ((Np.of_nat N + 1) / 2 == (Z.of_nat N + 1) # 2)%Q).
  { unfold Np.of_nat, inject_Z, Qeq. simpl. lia. }
  rewrite (Qfloor_comp _ _ E). unfold Qfloor.
  replace (Z.of_nat N + 1)%Z with (Z.of_nat (N + 1)) by lia.
  change (Z.pos 2) with (Z.of_nat 2). rewrite <- Nat2Z.inj_div. lia.
Qed.

(** [i2 = int(ceil(size - N / 2))] *)
Lemma break_i2 (size N : nat) :
  N <= size ->
  Z.to_nat (Qceiling (Np.of_nat size - Np.of_nat N / 2)%Q) = size - N / 2.
Proof.
  intros HN.
  assert (E : (- (Np.of_nat size - Np.of_nat N / 2)
               == (Z.of_nat N - 2 * Z.of_nat size) # 2)%Q).
  { unfold Np.of_nat, inject_Z, Qeq. simpl. lia. }
  unfold Qceiling. rewrite (Qfloor_comp _ _ E). unfold Qfloor.
  pose proof (Nat.div_mod_eq N 2) as HN2.
  pose proof (Nat.mod_upper_bound N 2 ltac:(lia)) as HN3.
  replace (Z.of_nat N - 2 * Z.of_nat size)%Z
    with (Z.of_nat (N mod 2) + (Z.of_nat (N / 2) - Z.of_nat size) * 2)%Z by lia.
  rewrite Z.div_add by lia.
  rewrite Z.div_small by lia.
  lia.
Qed.

(** The break search returns when the data has [int(60 / wlen) + 1]
    epochs: the means take the place of the zeros from [i1] on. *)
Lemma lookforbreaks_value (x : list Z) (wlen : nat) :
  1 <= wlen -> break_window wlen <= length x ->
  let B := break_window wlen in
  let i1 := (B + 1) / 2 - 1 in
  let M := length x - B + 1 in
  lookforbreaks x wlen
  = Ok (take i1 (Np.zeros (length x))
        ++ map (window_mean (map inject_Z x) B) (seq 0 M)
        ++ drop (i1 + M) (Np.zeros (length x))).
Proof.
  intros Hw HN. pose proof (break_window_pos wlen Hw) as HB.
  unfold lookforbreaks. cbv zeta.
  rewrite moving_mean_stride_1 by (rewrite length_map; lia). cbn [rbind].
  rewrite break_i1, break_i2 by exact HN.
  unfold Np.assign_slice.
  set (B := break_window wlen) in *.
  rewrite length_map, length_seq, length_map.
  assert (Hlen : length (Np.slice (Np.zeros (length x)) ((B + 1) / 2 - 1)
                           (length x - B / 2)) = length x - B + 1).
  { unfold Np.slice, Np.zeros. rewrite length_take, length_drop, repeat_length.
    pose proof (Nat.div_mod_eq B 2). pose proof (Nat.div_mod_eq (B + 1) 2).
    pose proof (Nat.mod_upper_bound B 2 ltac:(lia)).
    pose proof (Nat.mod_upper_bound (B + 1) 2 ltac:(lia)).
    lia. }
  rewrite Hlen, Nat.eqb_refl. reflexivity.
Qed.

Lemma lookforbreaks_ok (x : list Z) (wlen : nat) :
  1 <= wlen -> break_window wlen <= length x ->
  exists lfb, lookforbreaks x wlen = Ok lfb.
Proof. intros Hw HN. rewrite lookforbreaks_value by assumption. eauto. Qed.

Lemma lookforbreaks_too_short (x : list Z) (wlen : nat) :
  length x < break_window wlen -> lookforbreaks x wlen = Raise ValueError.
Proof.
  intros HN. unfold lookforbreaks. cbv zeta.
  rewrite moving_mean_too_long by (rewrite length_map; lia). reflexivity.
Qed.

Lemma metric3_nonneg (accm : list Q) (lo hi : Q) (wlen nboutdur : nat) (c : Q) :
  1 <= wlen -> break_window wlen <= length accm ->
  exists q, metric3 accm lo hi wlen nboutdur c = Ok q /\ (0 <= q)%Q.
Proof.
  intros Hw HN. unfold metric3, penalise_breaks.
  destruct (lookforbreaks_ok (level_mask accm lo hi) wlen Hw) as [lfb ->].
  { unfold level_mask. rewrite length_map. exact HN. }
  simpl rbind.
  destruct (moving_mean _ nboutdur 1) as [rm | e] eqn:Erm.
  - eexists; split; [reflexivity | apply marked_minutes_nonneg].
  - apply moving_mean_raises in Erm as ->. eexists; split; [reflexivity | lra].
Qed.

Lemma metric4_nonneg (accm : list Q) (lo hi : Q) (wlen nboutdur : nat) (c : Q) :
  1 <= wlen -> break_window wlen <= length accm ->
  exists q, metric4 accm lo hi wlen nboutdur c = Ok q /\ (0 <= q)%Q.
Proof.
  intros Hw HN. unfold metric4, penalise_breaks.
  destruct (lookforbreaks_ok (level_mask accm lo hi) wlen Hw) as [lfb ->].
  { unfold level_mask. rewrite length_map. exact HN. }
  simpl rbind.
  destruct (moving_mean _ nboutdur 1) as [rm | e] eqn:Erm.
  - eexists; split; [reflexivity | apply marked_minutes_nonneg].
  - apply moving_mean_raises in Erm as ->. eexists; split; [reflexivity | lra].
Qed.

(** A sequence that passes the check of its length and is shorter than
    the window of the break search makes metrics 3 and 4 raise. *)
Lemma short_of_break_window (accm : list Q) (lo hi : Q) (wlen boutdur nboutdur : nat)
      (c : Q) (closedbout : bool) :
  get_nboutdur wlen boutdur = Ok nboutdur ->
  nboutdur <= length accm < break_window wlen ->
  get_activity_bouts accm lo hi wlen boutdur c closedbout 3 = Raise ValueError
  /\ get_activity_bouts accm lo hi wlen boutdur c closedbout 4 = Raise ValueError.
Proof.
  intros HW [Hlo Hhi]. unfold get_activity_bouts. rewrite HW. cbn [rbind].
  destruct (Nat.ltb_spec (length accm) nboutdur); [lia |].
  cbn [Z.eqb Pos.eqb]. unfold metric3, metric4, penalise_breaks.
  rewrite lookforbreaks_too_short by (unfold level_mask; rewrite length_map; exact Hhi).
  split; reflexivity.
Qed.

End BreakSearch.

(** ** When the bout detector fails *)

Section BoutsFailure.

Import Bouts.

(** C3, amended.  With epochs of at least a second, the window length
    [nboutdur] is there, and:
    - on a sequence shorter than [nboutdur] the detector returns 0 for
      every metric, one of 1..4 or not;
    - on a sequence of at least [nboutdur] epochs a metric outside 1..4
      raises ValueError;
    - metrics 1 and 2 return a number of minutes that is not negative,
      whatever the length of the sequence;
    - metrics 3 and 4 do so as soon as the sequence has the
      [int(60 / wlen) + 1] epochs of the break search. *)
Theorem detector_failure_modes (accm : list Q) (lo hi : Q) (wlen boutdur : nat)
        (c : Q) (closedbout : bool) (boutmetric : Z) :
  1 <= wlen ->
  exists nboutdur,
    get_nboutdur wlen boutdur = Ok nboutdur
    /\ (length accm < nboutdur ->
        get_activity_bouts accm lo hi wlen boutdur c closedbout boutmetric = Ok 0%Q)
    /\ (nboutdur <= length accm ->
        ~ (1 <= boutmetric <= 4)%Z ->
        get_activity_bouts accm lo hi wlen boutdur c closedbout boutmetric
        = Raise ValueError)
    /\ ((1 <= boutmetric <= 2)%Z
        \/ ((3 <= boutmetric <= 4)%Z /\ break_window wlen <= length accm) ->
        exists q,
          get_activity_bouts accm lo hi wlen boutdur c closedbout boutmetric = Ok q
          /\ (0 <= q)%Q).
Proof.
  intros Hw. unfold get_activity_bouts.
  destruct (get_nboutdur wlen boutdur) as [nboutdur | e] eqn:En.
  2:{ unfold get_nboutdur in En. destruct (Nat.eqb_spec wlen 0); [lia | discriminate]. }
  exists nboutdur. split; [reflexivity |]. simpl rbind.
  destruct (Nat.ltb_spec (length accm) nboutdur) as [Hshort | Hlong].
  - split; [reflexivity |]. split; [lia |].
    intros _. eexists; split; [reflexivity | lra].
  - split; [lia |]. split.
    + intros _ Hm.
      destruct (Z.eqb_spec boutmetric 1); [lia |].
      destruct (Z.eqb_spec boutmetric 2); [lia |].
      destruct (Z.eqb_spec boutmetric 3); [lia |].
      destruct (Z.eqb_spec boutmetric 4); [lia | reflexivity].
    + intros Hm.
      destruct (Z.eqb_spec boutmetric 1); [apply metric1_nonneg |].
      destruct (Z.eqb_spec boutmetric 2); [apply metric2_nonneg |].
      destruct Hm as [Hm | [Hm HB]]; [lia |].
      destruct (Z.eqb_spec boutmetric 3); [apply metric3_nonneg; assumption |].
      destruct (Z.eqb_spec boutmetric 4); [apply metric4_nonneg; assumption | lia].
Qed.

Lemma detector_failure_modes_witness :
  1 <= 60
  /\ exists nboutdur,
    get_nboutdur 60 10 = Ok nboutdur
    /\ (length Scenario.ones12 < nboutdur ->
        get_activity_bouts Scenario.ones12 (1 # 10) 100 60 10 (8 # 10) true 3 = Ok 0%Q)
    /\ (nboutdur <= length Scenario.ones12 ->
        ~ (1 <= 3 <= 4)%Z ->
        get_activity_bouts Scenario.ones12 (1 # 10) 100 60 10 (8 # 10) true 3
        = Raise ValueError)
    /\ ((1 <= 3 <= 2)%Z
        \/ ((3 <= 3 <= 4)%Z /\ break_window 60 <= length Scenario.ones12) ->
        exists q,
          get_activity_bouts Scenario.ones12 (1 # 10) 100 60 10 (8 # 10) true 3 = Ok q
          /\ (0 <= q)%Q).
Proof.
  split; [lia |].
  apply (detector_failure_modes Scenario.ones12 (1 # 10) 100 60 10 (8 # 10) true 3).
  lia.
Defined.

End BoutsFailure.

(** ** [reset_cached] of the endpoints that compute at the end of the day *)

Section ResetCached.

Context {R : Regression} {S : FragmentationStatistics}.

Lemma results_set_reserved (results : results_t) (p : string) (day : nat) (v : flt) :
  reserved results day p ->
  exists results',
    results_set results p day v = Ok results'
    /\ forall q, reserved results day q -> reserved results' day q.
Proof.
  intros (arr & Ep & Hday). unfold results_set. rewrite Ep.
  destruct (Nat.ltb_spec day (length arr)); [| lia].
  eexists; split; [reflexivity |].
  intros q (arr' & Eq & Hq). unfold reserved.
  destruct (decide (p = q)) as [<- | Hne].
  - rewrite lookup_insert_eq. eexists; split; [reflexivity |].
    rewrite length_insert. congruence.
  - rewrite lookup_insert_ne by exact Hne. eauto.
Qed.

Lemma write_all_reserved (results : results_t) (day : nat) (todo : list (string * flt)) :
  Forall (reserved results day) (map fst todo) ->
  exists results', FragmentationEndpoints.write_all results day todo = (Ok tt, results').
Proof.
  revert results. induction todo as [|[p v] todo IH]; intros results Hall; simpl.
  { eauto. }
  apply Forall_cons in Hall as [Hp Hrest].
  destruct (results_set_reserved results p day v Hp) as (results' & -> & Hkeep).
  apply IH. eapply Forall_impl; [exact Hrest | exact Hkeep].
Qed.

Lemma gradient_reset_cleared (self : IntensityGradient.t) :
  IntensityGradient.cleared (IntensityGradient.reset self).
Proof. repeat split. Qed.

Lemma fragments_reset_cleared (self : FragmentationEndpoints.t) :
  FragmentationEndpoints.cleared (FragmentationEndpoints.reset self).
Proof. repeat split. Qed.

(** [reset_cached] of an instance that has nothing recorded writes
    nothing. *)
Lemma gradient_reset_cached_cleared (self : IntensityGradient.t) (results : results_t) :
  IntensityGradient.cleared self ->
  IntensityGradient.reset_cached self results = (Ok tt, self, results).
Proof.
  intros (Eh & E1 & E2 & E3 & E4). unfold IntensityGradient.reset_cached.
  rewrite E1. unfold IntensityGradient.reset. rewrite <- Eh.
  destruct self; simpl in *; subst; reflexivity.
Qed.

Lemma fragments_reset_cached_cleared (self : FragmentationEndpoints.t)
      (results : results_t) :
  FragmentationEndpoints.cleared self ->
  FragmentationEndpoints.reset_cached self results = (Ok tt, self, results).
Proof.
  intros (El & E1 & E2 & E3 & E4 & E5 & E6). unfold FragmentationEndpoints.reset_cached.
  rewrite E1. unfold FragmentationEndpoints.reset, FragmentationEndpoints.with_cache.
  destruct self; simpl in *; subst; reflexivity.
Qed.

Lemma gradient_reset_cached_resets (self : IntensityGradient.t) (results : results_t) :
  IntensityGradient.slots_reserved self results ->
  exists results',
    IntensityGradient.reset_cached self results
    = (Ok tt, IntensityGradient.reset self, results').
Proof.
  intros Hres. unfold IntensityGradient.reset_cached.
  destruct (IntensityGradient.ig self) as [p_ig|] eqn:E1; [| eauto].
  destruct (IntensityGradient.ig_int self) as [p_int|] eqn:E2; [| eauto].
  destruct (IntensityGradient.ig_r self) as [p_r|] eqn:E3; [| eauto].
  destruct (IntensityGradient.i self) as [day|] eqn:E4; [| eauto].
  specialize (Hres p_ig p_int p_r day E1 E2 E3 E4).
  apply Forall_cons in Hres as [H1 Hres].
  apply Forall_cons in Hres as [H2 Hres].
  apply Forall_cons in Hres as [H3 _].
  destruct (if length _ <=? 1 then _ else _) as [[slope intercept] rval].
  destruct (results_set_reserved results p_ig day slope H1) as (r1 & -> & K1).
  destruct (results_set_reserved r1 p_int day intercept (K1 _ H2)) as (r2 & -> & K2).
  destruct (results_set_reserved r2 p_r day (IntensityGradient.square rval)
              (K2 _ (K1 _ H3))) as (r3 & -> & K3).
  eauto.
Qed.

Lemma fragments_reset_cached_resets (self : FragmentationEndpoints.t)
      (results : results_t) :
  FragmentationEndpoints.slots_reserved self results ->
  exists results',
    FragmentationEndpoints.reset_cached self results
    = (Ok tt, FragmentationEndpoints.reset self, results').
Proof.
  intros Hres. unfold FragmentationEndpoints.reset_cached.
  destruct (FragmentationEndpoints.r_ad self) as [p_ad|] eqn:E1; [| eauto].
  destruct (FragmentationEndpoints.r_tp self) as [p_tp|] eqn:E2; [| eauto].
  destruct (FragmentationEndpoints.r_gi self) as [p_gi|] eqn:E3; [| eauto].
  destruct (FragmentationEndpoints.r_ah self) as [p_ah|] eqn:E4; [| eauto].
  destruct (FragmentationEndpoints.r_pld self) as [p_pld|] eqn:E5; [| eauto].
  destruct (FragmentationEndpoints.i self) as [day|] eqn:E6; [| eauto].
  specialize (Hres p_ad p_tp p_gi p_ah p_pld day E1 E2 E3 E4 E5 E6).
  edestruct (write_all_reserved results day) as (results' & ->); [| eauto].
  exact Hres.
Qed.

(** The writes come before the reset: a [reset_cached] that raises has
    reset nothing. *)
Lemma gradient_reset_cached_raises (self self' : IntensityGradient.t)
      (results results' : results_t) (e : exn) :
  IntensityGradient.reset_cached self results = (Raise e, self', results') ->
  self' = self.
Proof.
  unfold IntensityGradient.reset_cached.
  destruct (IntensityGradient.ig self) as [p_ig|]; [| discriminate].
  destruct (IntensityGradient.ig_int self) as [p_int|]; [| discriminate].
  destruct (IntensityGradient.ig_r self) as [p_r|]; [| discriminate].
  destruct (IntensityGradient.i self) as [day|]; [| discriminate].
  destruct (if length _ <=? 1 then _ else _) as [[slope intercept] rval].
  destruct (results_set results p_ig day slope) as [r1|]; [| congruence].
  destruct (results_set r1 p_int day intercept) as [r2|]; [| congruence].
  destruct (results_set r2 p_r day _) as [r3|]; [discriminate | congruence].
Qed.

Lemma fragments_reset_cached_raises (self self' : FragmentationEndpoints.t)
      (results results' : results_t) (e : exn) :
  FragmentationEndpoints.reset_cached self results = (Raise e, self', results') ->
  self' = self.
Proof.
  unfold FragmentationEndpoints.reset_cached.
  destruct (FragmentationEndpoints.r_ad self) as [p_ad|]; [| discriminate].
  destruct (FragmentationEndpoints.r_tp self) as [p_tp|]; [| discriminate].
  destruct (FragmentationEndpoints.r_gi self) as [p_gi|]; [| discriminate].
  destruct (FragmentationEndpoints.r_ah self) as [p_ah|]; [| discriminate].
  destruct (FragmentationEndpoints.r_pld self) as [p_pld|]; [| discriminate].
  destruct (FragmentationEndpoints.i self) as [day|]; [| discriminate].
  destruct (FragmentationEndpoints.write_all _ _ _) as [[u | e'] r];
    [discriminate | congruence].
Qed.

(** C7.  [reset_cached] of a new [IntensityGradient] or
    [FragmentationEndpoints] returns and leaves [results] as it is; and
    [reset_cached] of any instance whose recorded slots, if it has any,
    are in [results] returns and leaves the instance with its cache
    cleared: an empty histogram or list of runs, no array and no day
    recorded.  Once cleared, a further [reset_cached] changes neither the
    instance nor [results].  The reset is not unconditional: a
    [reset_cached] that raises, as it does when the recorded day is
    outside the recorded arrays, leaves the instance as it was, the
    cache not cleared. *)
Theorem reset_cached_clears (ig : IntensityGradient.t) (fe : FragmentationEndpoints.t)
        (results : results_t) :
  IntensityGradient.slots_reserved ig results ->
  FragmentationEndpoints.slots_reserved fe results ->
  (forall state,
      IntensityGradient.reset_cached (IntensityGradient.init state) results
      = (Ok tt, IntensityGradient.init state, results))
  /\ (forall level state lthresh uthresh,
         FragmentationEndpoints.reset_cached
           (FragmentationEndpoints.init level state lthresh uthresh) results
         = (Ok tt, FragmentationEndpoints.init level state lthresh uthresh, results))
  /\ (exists ig' results',
         IntensityGradient.reset_cached ig results = (Ok tt, ig', results')
         /\ IntensityGradient.cleared ig'
         /\ IntensityGradient.reset_cached ig' results' = (Ok tt, ig', results'))
  /\ (exists fe' results',
         FragmentationEndpoints.reset_cached fe results = (Ok tt, fe', results')
         /\ FragmentationEndpoints.cleared fe'
         /\ FragmentationEndpoints.reset_cached fe' results' = (Ok tt, fe', results'))
  /\ (forall (ig0 ig1 : IntensityGradient.t) (fe0 fe1 : FragmentationEndpoints.t)
              (results0 results1 : results_t) (e : exn),
         (IntensityGradient.reset_cached ig0 results0 = (Raise e, ig1, results1) ->
          ig1 = ig0)
         /\ (FragmentationEndpoints.reset_cached fe0 results0 = (Raise e, fe1, results1) ->
             fe1 = fe0)).
Proof.
  intros Hig Hfe. split; [| split; [| split; [| split]]].
  - intros state. apply gradient_reset_cached_cleared. repeat split.
  - intros level state lo hi. apply fragments_reset_cached_cleared. repeat split.
  - destruct (gradient_reset_cached_resets ig results Hig) as (results' & E).
    exists (IntensityGradient.reset ig), results'.
    split; [exact E |]. split; [apply gradient_reset_cleared |].
    apply gradient_reset_cached_cleared, gradient_reset_cleared.
  - destruct (fragments_reset_cached_resets fe results Hfe) as (results' & E).
    exists (FragmentationEndpoints.reset fe), results'.
    split; [exact E |]. split; [apply fragments_reset_cleared |].
    apply fragments_reset_cached_cleared, fragments_reset_cleared.
  - intros ig0 ig1 fe0 fe1 results0 results1 e.
    split; [apply gradient_reset_cached_raises | apply fragments_reset_cached_raises].
Qed.

End ResetCached.

(** The two endpoints after four minutes of a day were given to [predict]:
    both have recorded their arrays and the day. *)
Lemma fed_endpoints_recorded :
  IntensityGradient.ig Scenario.gradient_fed = Some "wake intensity gradient"%string
  /\ IntensityGradient.i Scenario.gradient_fed = Some 0
  /\ FragmentationEndpoints.r_ad Scenario.fragments_fed = Some "wake sed avg duration"%string
  /\ FragmentationEndpoints.lens Scenario.fragments_fed = [2]
  /\ FragmentationEndpoints.i Scenario.fragments_fed = Some 0.
Proof. repeat split; vm_compute; reflexivity. Qed.

Lemma reset_cached_clears_witness :
  IntensityGradient.slots_reserved Scenario.gradient_fed Scenario.gradient_day
  /\ FragmentationEndpoints.slots_reserved Scenario.fragments_fed Scenario.gradient_day
  /\ exists ig' results',
      @IntensityGradient.reset_cached Scenario.no_fit Scenario.gradient_fed
        Scenario.gradient_day = (Ok tt, ig', results')
      /\ IntensityGradient.cleared ig'
      /\ @IntensityGradient.reset_cached Scenario.no_fit ig' results' = (Ok tt, ig', results').
Proof.
  assert (H1 : IntensityGradient.slots_reserved Scenario.gradient_fed Scenario.gradient_day).
  { intros p_ig p_int p_r day E1 E2 E3 E4.
    vm_compute in E1, E2, E3, E4.
    injection E1 as <-. injection E2 as <-. injection E3 as <-. injection E4 as <-.
    repeat constructor; (eexists; split; [vm_compute; reflexivity | simpl; lia]). }
  assert (H2 : FragmentationEndpoints.slots_reserved Scenario.fragments_fed
                 Scenario.gradient_day).
  { intros p_ad p_tp p_gi p_ah p_pld day E1 E2 E3 E4 E5 E6.
    vm_compute in E1, E2, E3, E4, E5, E6.
    injection E1 as <-. injection E2 as <-. injection E3 as <-. injection E4 as <-.
    injection E5 as <-. injection E6 as <-.
    repeat constructor; (eexists; split; [vm_compute; reflexivity | simpl; lia]). }
  split; [exact H1 |]. split; [exact H2 |].
  exact (proj1 (proj2 (proj2
           (@reset_cached_clears Scenario.no_fit Scenario.no_statistics
              Scenario.gradient_fed Scenario.fragments_fed Scenario.gradient_day H1 H2)))).
Defined.

(** C7, as it is written, fails: [predict] takes any day and returns;
    with day 5 on arrays of one entry the first write of [reset_cached]
    raises IndexError, and the histogram, the runs, the arrays and the
    day stay recorded. *)
Lemma day_out_of_range_keeps_cache :
  IntensityGradient.predict Scenario.gradient Scenario.gradient_day 5
    Scenario.four_minutes 1 = (Ok tt, Examples.gradient_day_5)
  /\ @IntensityGradient.reset_cached Scenario.no_fit Examples.gradient_day_5
       Scenario.gradient_day
     = (Raise IndexError, Examples.gradient_day_5, Scenario.gradient_day)
  /\ IntensityGradient.i Examples.gradient_day_5 = Some 5
  /\ ~ IntensityGradient.cleared Examples.gradient_day_5
  /\ FragmentationEndpoints.predict Scenario.fragments Scenario.gradient_day 5
       Scenario.four_minutes = (Ok tt, Examples.fragments_day_5)
  /\ @FragmentationEndpoints.reset_cached Scenario.no_statistics Examples.fragments_day_5
       Scenario.gradient_day
     = (Raise IndexError, Examples.fragments_day_5, Scenario.gradient_day)
  /\ FragmentationEndpoints.lens Examples.fragments_day_5 = [2]
  /\ ~ FragmentationEndpoints.cleared Examples.fragments_day_5.
Proof.
  split; [vm_compute; reflexivity |]. split; [vm_compute; reflexivity |].
  split; [vm_compute; reflexivity |].
  split; [intros (_ & _ & _ & _ & Hi); vm_compute in Hi; discriminate |].
  split; [vm_compute; reflexivity |]. split; [vm_compute; reflexivity |].
  split; [vm_compute; reflexivity |].
  intros (Hl & _); vm_compute in Hl; discriminate.
Qed.

(** ** [Sleep.predict] *)

Section SleepPredict.

Import Sleep.

Context {F : Type} `{FloatOps F}.

Implicit Types (C : collaborators F) (self : t F) (sleep : gmap string (list (cell F))).

(** C9.  Without an entry for [f"{self.day_key}"] among the days,
    [predict] raises ValueError: nothing is returned, no table is set up
    and no day is looked at. *)
Theorem missing_days_raise C self (time : list F) (accel : accel_t)
        (fs : option F) (wear : option indices_t) (day_ends : gmap string indices_t) :
  day_ends !! day_key_str self = None ->
  predict C self time accel fs wear day_ends = Raise ValueError.
Proof. intros E. unfold predict. rewrite E. reflexivity. Qed.

(** *** The sampling frequency *)

(** After downsampling nothing but the returned [fs] depends on the
    frequency that was given or inferred. *)
Lemma downsampled_days_ignore_fs C self (time : list F) (accel : accel_t)
      (fs1 fs2 : F) (wear : option indices_t) (day_ends : gmap string indices_t) :
  must_downsample self fs1 = true ->
  must_downsample self fs2 = true ->
  match predict C self time accel (Some fs1) wear day_ends,
        predict C self time accel (Some fs2) wear day_ends with
  | Ok o1, Ok o2 => out_sleep o1 = out_sleep o2 /\ outcomes o1 = outcomes o2
  | Raise e1, Raise e2 => e1 = e2
  | _, _ => False
  end.
Proof.
  intros E1 E2. unfold predict, goal_fs_of. simpl infer_fs. rewrite E1, E2.
  destruct (day_ends !! day_key_str self) as [days|]; [| reflexivity].
  destruct (apply_downsample C goal_fs_20 time accel days (wear_or_all time wear))
    as [[[time_ds accel_ds] days_ds] wear_ds].
  destruct (process_days C self goal_fs_20 time_ds accel_ds days_ds wear_ds)
    as [[os sleep]|e]; simpl; auto.
Qed.

(** C10, amended.  With [fs=None], [predict] is [predict] with [fs] the
    mean of the differences of the first 5000 timestamps: that value is
    what is compared with 20, and what is returned as [fs].  The days are
    gone through with [goal_fs], which is 20 when the data is downsampled
    (the value differs from 20 and [downsample] is set), and the inferred
    value only otherwise. *)
Theorem inferred_fs_use C self (time : list F) (accel : accel_t)
        (wear : option indices_t) (day_ends : gmap string indices_t) :
  let fs := mean (diff (take 5000 time)) in
  predict C self time accel None wear day_ends
  = predict C self time accel (Some fs) wear day_ends
  /\ must_downsample self (infer_fs time None)
     = negb (f_eqb fs (f_of_Z 20)) && downsample self
  /\ predict C self time accel None wear day_ends
     = match day_ends !! day_key_str self with
       | None => Raise ValueError
       | Some days =>
           let wear := wear_or_all time wear in
           let* (os, sleep) :=
             if negb (f_eqb fs (f_of_Z 20)) && downsample self
             then
               let '(time_ds, accel_ds, days_ds, wear_ds) :=
                 apply_downsample C (f_of_Z 20) time accel days wear in
               process_days C self (f_of_Z 20) time_ds accel_ds days_ds wear_ds
             else process_days C self fs time accel days wear in
           Ok {| out_fs := fs; out_wear := wear; out_sleep := sleep; outcomes := os |}
       end.
Proof.
  intros fs. split; [reflexivity |]. split; [reflexivity |].
  unfold predict, goal_fs_of, must_downsample, goal_fs_20. simpl infer_fs. fold fs.
  destruct (day_ends !! day_key_str self) as [days|]; [| reflexivity].
  destruct (negb (f_eqb fs (f_of_Z 20)) && downsample self); [| reflexivity].
  destruct (apply_downsample C (f_of_Z 20) time accel days (wear_or_all time wear))
    as [[[time_ds accel_ds] days_ds] wear_ds].
  reflexivity.
Qed.

(** *** The rows of the days that are skipped *)

Lemma append_row_added sleep :
  row_added sleep (append_row sleep) (fun _ => c_nan).
Proof. intros k. unfold append_row. apply lookup_fmap. Qed.

Lemma set_last_nonempty sleep (k : string) (v : cell F) (col : list (cell F)) :
  sleep !! k = Some col -> col <> [] ->
  set_last sleep k v = Ok (<[k := <[length col - 1 := v]> col]> sleep).
Proof.
  intros E Hne. unfold set_last. rewrite E. destruct col; [congruence | reflexivity].
Qed.

(** [sleep[k][-1] = v] changes the value of column [k] in the row that
    was added last. *)
Lemma set_last_row_added sleep0 sleep sleep' (row : day_row) (k : string) (v : cell F) :
  row_added sleep0 sleep row ->
  set_last sleep k v = Ok sleep' ->
  row_added sleep0 sleep' (with_value k v row).
Proof.
  intros Hrow Eset k'.
  pose proof (Hrow k) as Hk.
  destruct (sleep !! k) as [col|] eqn:Ecol;
    [| unfold set_last in Eset; rewrite Ecol in Eset; discriminate].
  destruct (sleep0 !! k) as [col0|] eqn:Ecol0; [| discriminate].
  simpl in Hk. injection Hk as ->.
  rewrite (set_last_nonempty sleep k v (col0 ++ [row k])) in Eset;
    [| exact Ecol | destruct col0; discriminate].
  injection Eset as <-.
  unfold with_value. destruct (decide (k' = k)) as [-> | Hne].
  - rewrite lookup_insert_eq, Ecol0. simpl. f_equal.
    rewrite length_app. simpl.
    replace (length col0 + 1 - 1) with (length col0 + 0) by lia.
    rewrite insert_app_r. reflexivity.
  - rewrite lookup_insert_ne by congruence. apply Hrow.
Qed.

Lemma fill_metrics_row_added sleep0 (ps : list (metric F)) (pred : list Z)
      (lengths starts : list nat) (values : list Z) sleep sleep' (row : day_row) :
  row_added sleep0 sleep row ->
  fill_metrics sleep ps pred lengths starts values = Ok sleep' ->
  exists row', row_added sleep0 sleep' row'.
Proof.
  revert sleep row. induction ps as [|param ps IH]; intros sleep row Hrow E; simpl in E.
  { injection E as <-. eauto. }
  destruct (set_last sleep (metric_name param) _) as [sleep1|e] eqn:E1; [| discriminate].
  simpl in E. eapply IH; [| exact E].
  eapply set_last_row_added; eassumption.
Qed.

(** A day skipped for its hours leaves the table as it is; any other day
    adds one row, which for a day skipped for its wear or for want of a
    sleep window holds the number of the day, its date, and [nan]. *)
Lemma day_body_rows C self (goal_fs : F) (time_ds : list F) (accel_ds : accel_t)
      (wear_ds : indices_t) (ps : list (metric F)) sleep (iday : nat)
      (day_idx : nat * nat) (o : day_outcome) sleep' :
  day_body C self goal_fs time_ds accel_ds wear_ds ps sleep iday day_idx = Ok (o, sleep') ->
  (o = SkippedHours /\ sleep' = sleep)
  \/ (o <> SkippedHours
      /\ exists row, row_added sleep sleep' row /\ row_of_day (iday, o) row).
Proof.
  unfold day_body. destruct day_idx as [start stop].
  destruct (f_lt _ _).
  { intros E. injection E as <- <-. left. split; reflexivity. }
  pose proof (append_row_added sleep) as H0.
  destruct (set_last (append_row sleep) "Day N" _) as [sleep1|e] eqn:E1; [| discriminate].
  pose proof (set_last_row_added _ _ _ _ _ _ H0 E1) as H1. simpl rbind.
  destruct (time_ds !! (start + 50)) as [t50|]; [| discriminate].
  set (date := if Z.eqb _ _ then _ else _).
  destruct (set_last sleep1 "Date" _) as [sleep2|e] eqn:E2; [| discriminate].
  pose proof (set_last_row_added _ _ _ _ _ _ H1 E2) as H2. simpl rbind.
  destruct (get_day_wear_intersection C _ _ start stop) as [dw_starts dw_stops].
  destruct (f_lt _ _).
  { intros E. injection E as <- <-. right. split; [discriminate |].
    exists (skipped_row iday date). split; [exact H2 |]. intros _. eauto. }
  destruct (get_total_sleep_opportunity C _ _ _ _ _ _ _ _ _ _) as [[[[tso0 tso1] tso2] tso3]|].
  2:{ intros E. injection E as <- <-. right. split; [discriminate |].
      exists (skipped_row iday date). split; [exact H2 |]. intros _. eauto. }
  cbv zeta.
  destruct (set_last sleep2 "TSO Start Timestamp" _) as [sleep3|e] eqn:E3; [| discriminate].
  pose proof (set_last_row_added _ _ _ _ _ _ H2 E3) as H3. simpl rbind.
  destruct (set_last sleep3 "TSO Start" _) as [sleep4|e] eqn:E4; [| discriminate].
  pose proof (set_last_row_added _ _ _ _ _ _ H3 E4) as H4. simpl rbind.
  destruct (set_last sleep4 "TSO Duration" _) as [sleep5|e] eqn:E5; [| discriminate].
  pose proof (set_last_row_added _ _ _ _ _ _ H4 E5) as H5. simpl rbind.
  destruct (fill_metrics sleep5 ps _ _ _ _) as [sleep6|e] eqn:E6; [| discriminate].
  destruct (fill_metrics_row_added _ _ _ _ _ _ _ _ _ H5 E6) as [row Hrow].
  simpl rbind. intros E. injection E as <- <-. right. split; [discriminate |].
  exists row. split; [exact Hrow |]. intros Hne. simpl in Hne. congruence.
Qed.

(** The table after the loop: every column has got the rows of the days
    that were not skipped for their hours, in the order of the days. *)
Lemma day_loop_rows C self (goal_fs : F) (time_ds : list F) (accel_ds : accel_t)
      (wear_ds : indices_t) (ps : list (metric F)) (days_ds : indices_t) :
  forall sleep (iday : nat) (os : list day_outcome) sleep',
    day_loop C self goal_fs time_ds accel_ds wear_ds ps sleep iday days_ds = Ok (os, sleep') ->
    exists rows : list day_row,
      Forall2 row_of_day (kept_days iday os) rows
      /\ forall k, sleep' !! k = (fun col => col ++ map (fun row => row k) rows) <$> (sleep !! k).
Proof.
  induction days_ds as [|day_idx rest IH]; intros sleep iday os sleep' E; simpl in E.
  { injection E as <- <-. exists []. split; [constructor |].
    intros k. destruct (sleep !! k); simpl; [rewrite app_nil_r |]; reflexivity. }
  destruct (day_body C self goal_fs time_ds accel_ds wear_ds ps sleep iday day_idx)
    as [[o sleep1]|e] eqn:Ebody; [| discriminate].
  simpl in E.
  destruct (day_loop C self goal_fs time_ds accel_ds wear_ds ps sleep1 (S iday) rest)
    as [[os' sleep2]|e] eqn:Eloop; [| discriminate].
  simpl in E. injection E as <- <-.
  destruct (IH _ _ _ _ Eloop) as (rows & Hrows & Hcols).
  unfold kept_days. simpl length. simpl seq. simpl zip. rewrite filter_cons.
  destruct (day_body_rows _ _ _ _ _ _ _ _ _ _ _ _ Ebody)
    as [[-> ->] | (Hkept & row & Hrow & Hday)].
  - destruct (decide _) as [Hd | _]; [simpl in Hd; congruence |].
    exists rows. split; [exact Hrows | exact Hcols].
  - destruct (decide _) as [_ | Hd]; [| simpl in Hd; contradiction].
    exists (row :: rows). split; [constructor; assumption |].
    intros k. rewrite Hcols, Hrow. destruct (sleep !! k); simpl; [| reflexivity].
    rewrite <- app_assoc. reflexivity.
Qed.

Lemma init_table_empty (ps : list (metric F)) (k : string) (col : list (cell F)) :
  init_table ps !! k = Some col -> col = [].
Proof.
  unfold init_table.
  set (fixed := list_to_map _).
  assert (Hfixed : forall k col, fixed !! k = Some col -> col = []).
  { intros k' col' E. subst fixed. apply elem_of_list_to_map_2 in E.
    apply list_elem_of_In, in_map_iff in E as (k0 & E & _). congruence. }
  clearbody fixed. revert fixed Hfixed.
  induction ps as [|param ps IH]; intros fixed Hfixed; simpl.
  { apply Hfixed. }
  apply IH. intros k' col'. destruct (decide (metric_name param = k')) as [-> | Hne].
  - rewrite lookup_insert_eq. congruence.
  - rewrite lookup_insert_ne by exact Hne. apply Hfixed.
Qed.


End SleepPredict.

(** ** Runs of [Sleep.predict] *)

Section SleepRuns.

Import Sleep Scenario.

Lemma missing_days_raise_witness :
  other_days !! day_key_str sleep_as_is = None
  /\ predict quiet sleep_as_is slow_time still None None other_days = Raise ValueError.
Proof.
  split; [vm_compute; reflexivity |].
  apply (missing_days_raise quiet sleep_as_is slow_time still None None other_days).
  vm_compute; reflexivity.
Defined.



(** C10, as it is written, fails: the timestamps are 1/40 s apart, so the
    inferred value is 1/40; with it as the frequency the day of 600
    samples has more than the six hours of [min_day_hrs]; but the data is
    downsampled, the hours of the day are taken at 20 Hz, and the day is
    skipped for its hours. *)
Lemma hours_not_at_inferred_fs :
  (infer_fs long_fast_time None == 1 # 40)%Q
  /\ f_lt (hours 600 (infer_fs long_fast_time None)) (min_day_hrs sleep_default) = false
  /\ goal_fs_of sleep_default (infer_fs long_fast_time None) = 20%Q
  /\ exists out,
      predict quiet sleep_default long_fast_time long_still None None one_day_of_600 = Ok out
      /\ outcomes out = [SkippedHours].
Proof.
  split; [vm_compute; reflexivity |].
  split; [vm_compute; reflexivity |].
  split; [vm_compute; reflexivity |].
  eexists. split; vm_compute; reflexivity.
Qed.

End SleepRuns.

(** ** [MaxAcceleration]: two halves against the whole *)

Section MaxAccelerationHalves.

Import MaxAcceleration.

(** C5, as it is written, fails: the window of one minute (two epochs)
    fits both halves of [0, 1, 1, 0], whose largest means are 1/2, while
    the window across the two halves has the mean 1. *)
Lemma halves_miss_the_middle :
  let results := Scenario.one_day in
  let halves :=
    snd (predict Scenario.max_1 (snd (predict Scenario.max_1 results 0 [0; 1]%Q 2))
           0 [1; 0]%Q 2) in
  let whole := snd (predict Scenario.max_1 results 0 ([0; 1] ++ [1; 0])%Q 2) in
  results_get halves "wake max acc 1min [g]" 0 = Ok (fin (1 # 2))
  /\ results_get whole "wake max acc 1min [g]" 0 = Ok (fin (2 # 2))
  /\ ~ (1 # 2 == 2 # 2)%Q.
Proof. repeat split; try (vm_compute; reflexivity). intros E; discriminate E. Qed.

(** *** The largest of an array *)

Lemma Qmax_ub (a b : Q) : (a <= Np.Qmax a b)%Q /\ (b <= Np.Qmax a b)%Q.
Proof.
  unfold Np.Qmax. destruct (Qle_bool a b) eqn:E.
  - apply Qle_bool_iff in E. split; [exact E | apply Qle_refl].
  - split; [apply Qle_refl |].
    apply Qlt_le_weak, Qnot_le_lt. intros Hle.
    apply Qle_bool_iff in Hle. congruence.
Qed.

Lemma Qmax_cases (a b : Q) : Np.Qmax a b = a \/ Np.Qmax a b = b.
Proof. unfold Np.Qmax. destruct (Qle_bool a b); auto. Qed.

Lemma fold_Qmax_spec (l : list Q) (v : Q) :
  ((v <= fold_left Np.Qmax l v)%Q /\ forall x, x ∈ l -> (x <= fold_left Np.Qmax l v)%Q)
  /\ (fold_left Np.Qmax l v = v \/ fold_left Np.Qmax l v ∈ l).
Proof.
  revert v. induction l as [|a l IH]; intros v; simpl.
  { split; [split; [apply Qle_refl | intros x Hx; inversion Hx] | auto]. }
  destruct (IH (Np.Qmax v a)) as [[H1 H2] H3].
  destruct (Qmax_ub v a) as [Hv Ha].
  split; [split |].
  - eapply Qle_trans; eassumption.
  - intros x Hx. apply elem_of_cons in Hx as [-> | Hx]; [| auto].
    eapply Qle_trans; eassumption.
  - destruct H3 as [H3 | H3].
    + rewrite H3. destruct (Qmax_cases v a) as [-> | ->]; [auto |].
      right. apply elem_of_cons. auto.
    + right. apply elem_of_cons. auto.
Qed.

(** [max(l)] is an entry of [l] and at least every entry. *)
Lemma max_spec (l : list Q) :
  l <> [] ->
  exists m, Np.max l = Ok m /\ m ∈ l /\ forall x, x ∈ l -> (x <= m)%Q.
Proof.
  destruct l as [|v l]; [congruence | intros _].
  simpl. eexists; split; [reflexivity |].
  destruct (fold_Qmax_spec l v) as [[H1 H2] H3]. split.
  - destruct H3 as [-> | H3]; apply elem_of_cons; auto.
  - intros x Hx. apply elem_of_cons in Hx as [-> | Hx]; auto.
Qed.

(** *** The largest mean of a window that fits *)

Lemma window_max_spec (d : list Q) (epm wlen : nat) :
  1 <= wlen * epm <= length d ->
  (let* mm := moving_mean d (wlen * epm) 1 in Np.max mm) = Ok (window_max d epm wlen)
  /\ (exists k, k + wlen * epm <= length d
                /\ window_max d epm wlen = window_mean d (wlen * epm) k)
  /\ (forall k, k + wlen * epm <= length d ->
                (window_mean d (wlen * epm) k <= window_max d epm wlen)%Q).
Proof.
  intros Hn. unfold window_max.
  rewrite (moving_mean_stride_1 d (wlen * epm) Hn). cbn [rbind].
  set (n := wlen * epm) in *.
  destruct (max_spec (map (window_mean d n) (seq 0 (length d - n + 1))))
    as (m & Em & Hin & Hub).
  { destruct (length d - n + 1) eqn:E; [lia | discriminate]. }
  rewrite Em. split; [reflexivity |]. split.
  - apply list_elem_of_fmap in Hin as (k & -> & Hk).
    apply elem_of_seq in Hk. exists k. split; [lia | reflexivity].
  - intros k Hk. apply Hub. apply list_elem_of_fmap. exists k. split; [reflexivity |].
    apply elem_of_seq. lia.
Qed.

Lemma slice_app_l {A : Type} (a b : list A) (k n : nat) :
  k + n <= length a -> Np.slice (a ++ b) k (k + n) = Np.slice a k (k + n).
Proof.
  intros Hk. unfold Np.slice. replace (k + n - k) with n by lia.
  rewrite drop_app_le by lia. rewrite take_app_le; [reflexivity |].
  rewrite length_drop. lia.
Qed.

Lemma slice_app_r {A : Type} (a b : list A) (k n : nat) :
  Np.slice (a ++ b) (length a + k) (length a + k + n) = Np.slice b k (k + n).
Proof.
  unfold Np.slice. replace (length a + k + n - (length a + k)) with n by lia.
  replace (k + n - k) with n by lia.
  rewrite drop_app_ge by lia. replace (length a + k - length a) with k by lia.
  reflexivity.
Qed.

(** The windows of either half are windows of the whole. *)
Lemma window_max_halves (a b : list Q) (epm wlen : nat) :
  1 <= wlen * epm -> wlen * epm <= length a -> wlen * epm <= length b ->
  (window_max a epm wlen <= window_max (a ++ b) epm wlen)%Q
  /\ (window_max b epm wlen <= window_max (a ++ b) epm wlen)%Q.
Proof.
  intros H1 Ha Hb.
  destruct (window_max_spec a epm wlen ltac:(lia)) as (_ & (ka & Hka & ->) & _).
  destruct (window_max_spec b epm wlen ltac:(lia)) as (_ & (kb & Hkb & ->) & _).
  destruct (window_max_spec (a ++ b) epm wlen) as (_ & _ & Hub).
  { rewrite length_app. lia. }
  split.
  - specialize (Hub ka). rewrite length_app in Hub.
    unfold window_mean in *. rewrite slice_app_l in Hub by lia. apply Hub. lia.
  - specialize (Hub (length a + kb)). rewrite length_app in Hub.
    unfold window_mean in *. rewrite slice_app_r in Hub. apply Hub. lia.
Qed.

(** A window of one epoch lies in one of the halves. *)
Lemma window_max_one_epoch (a b : list Q) (epm wlen : nat) :
  wlen * epm = 1 -> 1 <= length a -> 1 <= length b ->
  (window_max (a ++ b) epm wlen <= window_max a epm wlen)%Q
  \/ (window_max (a ++ b) epm wlen <= window_max b epm wlen)%Q.
Proof.
  intros H1 Ha Hb.
  destruct (window_max_spec (a ++ b) epm wlen) as (_ & (k & Hk & ->) & _).
  { rewrite length_app. lia. }
  rewrite length_app in Hk.
  destruct (window_max_spec a epm wlen ltac:(lia)) as (_ & _ & Hua).
  destruct (window_max_spec b epm wlen ltac:(lia)) as (_ & _ & Hub).
  rewrite H1 in *.
  destruct (Nat.lt_ge_cases k (length a)) as [Hlt | Hge].
  - left. specialize (Hua k ltac:(lia)).
    unfold window_mean in *. rewrite slice_app_l by lia. exact Hua.
  - right. specialize (Hub (k - length a) ltac:(lia)).
    unfold window_mean in *.
    replace k with (length a + (k - length a)) at 1 2 by lia.
    rewrite slice_app_r. exact Hub.
Qed.

(** *** The order of the slots *)

Lemma flt_le_refl (v : flt) : flt_le v v.
Proof. destruct v; simpl; [exact I | apply Qle_refl]. Qed.

Lemma flt_le_trans (x y z : flt) : flt_le x y -> flt_le y z -> flt_le x z.
Proof.
  destruct x, y, z; simpl; try tauto. apply Qle_trans.
Qed.

Lemma nanmax2_ub (t : Q) (v : flt) :
  flt_le (fin t) (nanmax2 t v) /\ flt_le v (nanmax2 t v).
Proof.
  destruct v as [|x]; simpl; [split; [apply Qle_refl | exact I] |].
  apply Qmax_ub.
Qed.

Lemma nanmax2_lub (t : Q) (v y : flt) :
  flt_le (fin t) y -> flt_le v y -> flt_le (nanmax2 t v) y.
Proof.
  destruct y as [|u]; simpl; [tauto |]. intros Ht Hv.
  destruct v as [|x]; simpl; [exact Ht |].
  destruct (Qmax_cases t x) as [-> | ->]; assumption.
Qed.

(** *** The slot after the loop *)

Section Merged.

Variables (d : list Q) (epm : nat) (name : string).

Lemma merged_cons (w0 : nat) (n0 : string) (todo : list (nat * string)) (v : flt) :
  merged d epm ((w0, n0) :: todo) name v
  = merged d epm todo name
      (if decide (n0 = name) then nanmax2 (window_max d epm w0) v else v).
Proof. reflexivity. Qed.

Lemma merged_ub (todo : list (nat * string)) (v : flt) :
  flt_le v (merged d epm todo name v)
  /\ forall w, (w, name) ∈ todo ->
               flt_le (fin (window_max d epm w)) (merged d epm todo name v).
Proof.
  revert v. induction todo as [|[w0 n0] todo IH]; intros v.
  { split; [apply flt_le_refl | intros w Hw; inversion Hw]. }
  rewrite merged_cons.
  destruct (decide (n0 = name)) as [-> | Hne].
  - destruct (IH (nanmax2 (window_max d epm w0) v)) as [H1 H2].
    destruct (nanmax2_ub (window_max d epm w0) v) as [Ht Hv].
    split; [eapply flt_le_trans; eassumption |].
    intros w Hw. apply elem_of_cons in Hw as [Hw | Hw]; [| auto].
    injection Hw as ->. eapply flt_le_trans; eassumption.
  - destruct (IH v) as [H1 H2]. split; [exact H1 |].
    intros w Hw. apply elem_of_cons in Hw as [Hw | Hw]; [congruence | auto].
Qed.

Lemma merged_lub (todo : list (nat * string)) (v y : flt) :
  flt_le v y ->
  (forall w, (w, name) ∈ todo -> flt_le (fin (window_max d epm w)) y) ->
  flt_le (merged d epm todo name v) y.
Proof.
  revert v. induction todo as [|[w0 n0] todo IH]; intros v Hv Hall.
  { exact Hv. }
  rewrite merged_cons.
  assert (Hrest : forall w, (w, name) ∈ todo -> flt_le (fin (window_max d epm w)) y).
  { intros w Hw. apply Hall. apply elem_of_cons. auto. }
  destruct (decide (n0 = name)) as [-> | Hne]; [| auto].
  apply IH; [| exact Hrest].
  apply nanmax2_lub; [| exact Hv]. apply Hall. apply elem_of_cons. auto.
Qed.

End Merged.

Lemma results_get_slot (results : results_t) (i : nat) (name : string) (v : flt) :
  results_get results name i = Ok v <-> slot results i name = Some v.
Proof.
  unfold results_get, slot. destruct (results !! name) as [arr|].
  - destruct (arr !! i); split; congruence.
  - split; congruence.
Qed.

(** When every window fits the block and every slot is there, the loop
    of [predict] comes to its end and has merged every slot. *)
Lemma predict_loop_merged (d : list Q) (epm i : nat) (todo : list (nat * string)) :
  forall results : results_t,
    Forall (fun wn => 1 <= fst wn * epm <= length d) todo ->
    Forall (fun wn => reserved results i (snd wn)) todo ->
    exists results',
      predict_loop d epm i todo results = (Ok tt, results')
      /\ (forall name, slot results' i name = merged d epm todo name <$> slot results i name)
      /\ (forall q, reserved results i q -> reserved results' i q).
Proof.
  induction todo as [|[w nm] todo IH]; intros results Hfit Hres; simpl.
  { exists results. split; [reflexivity |]. split; [| auto].
    intros name. unfold merged. simpl. destruct (slot results i name); reflexivity. }
  apply Forall_cons in Hfit as [Hw Hfit]. apply Forall_cons in Hres as [Hnm Hres].
  simpl in Hw, Hnm.
  unfold predict_window.
  destruct (window_max_spec d epm w Hw) as (-> & _ & _).
  destruct Hnm as (arr & Earr & Hi).
  destruct (lookup_lt_is_Some_2 arr i Hi) as [prev Eprev].
  unfold results_get, results_set. rewrite Earr, Eprev. cbn [rbind].
  destruct (Nat.ltb_spec i (length arr)); [| lia].
  set (results1 := <[nm := <[i := nanmax2 (window_max d epm w) prev]> arr]> results).
  assert (Hkeep : forall q, reserved results i q -> reserved results1 i q).
  { intros q (arr' & Eq & Hq). unfold reserved, results1.
    destruct (decide (nm = q)) as [<- | Hne].
    - rewrite lookup_insert_eq. eexists; split; [reflexivity |].
      rewrite length_insert. lia.
    - rewrite lookup_insert_ne by exact Hne. eauto. }
  destruct (IH results1 Hfit) as (results' & -> & Hslots & Hkeep').
  { eapply Forall_impl; [exact Hres |]. intros wn. apply Hkeep. }
  exists results'. split; [reflexivity |]. split; [| auto].
  intros name. rewrite Hslots.
  unfold slot, results1. destruct (decide (nm = name)) as [<- | Hne].
  - rewrite lookup_insert_eq, Earr, Eprev, list_lookup_insert_eq by exact Hi.
    cbn -[merged]. rewrite merged_cons, decide_True by reflexivity. reflexivity.
  - rewrite lookup_insert_ne by exact Hne.
    destruct (match results !! name with Some arr0 => arr0 !! i | None => None end);
      cbn -[merged]; [| reflexivity].
    rewrite merged_cons, decide_False by exact Hne. reflexivity.
Qed.

(** A window that is too long for the block ends [predict] there: the
    window lengths that follow are not looked at. *)
Lemma too_long_window_returns (d : list Q) (epm i w : nat) (nm : string)
      (todo : list (nat * string)) (results : results_t) :
  length d < w * epm ->
  predict_loop d epm i ((w, nm) :: todo) results = (Ok tt, results).
Proof.
  intros Hlong. cbn [predict_loop]. unfold predict_window.
  rewrite moving_mean_too_long by exact Hlong. reflexivity.
Qed.

(** C5, amended.  When every window length fits both halves and the
    slots of the day are there, [predict] returns on each half and on the
    whole, and in every slot the value left by the two calls on the halves
    is at most the value left by the one call on the whole: a window that
    lies across the two halves is seen by the one call only.  The two
    values agree when every window is one epoch long. *)
Theorem halves_at_most_whole (self : t) (results : results_t) (i epm : nat)
        (a b : list Q) :
  Forall (fun w => 1 <= w * epm /\ w * epm <= length a /\ w * epm <= length b)
         (wlens self) ->
  Forall (reserved results i) (name self) ->
  exists r_a r_halves r_whole,
    predict self results i a epm = (Ok tt, r_a)
    /\ predict self r_a i b epm = (Ok tt, r_halves)
    /\ predict self results i (a ++ b) epm = (Ok tt, r_whole)
    /\ forall nm v,
        results_get r_halves nm i = Ok v ->
        exists v',
          results_get r_whole nm i = Ok v'
          /\ flt_le v v'
          /\ (Forall (fun w => w * epm = 1) (wlens self) -> flt_le v' v).
Proof.
  intros Hfit Hres. unfold predict.
  set (todo := zip (wlens self) (name self)).
  assert (Hw : forall w nm, (w, nm) ∈ todo -> w ∈ wlens self).
  { intros w nm Hin. apply (elem_of_zip_l _ _ _ _ Hin). }
  assert (Hn : forall w nm, (w, nm) ∈ todo -> nm ∈ name self).
  { intros w nm Hin. apply (elem_of_zip_r _ _ _ _ Hin). }
  rewrite Forall_forall in Hfit. rewrite Forall_forall in Hres.
  assert (Hres0 : Forall (fun wn => reserved results i (snd wn)) todo).
  { apply Forall_forall. intros [w nm] Hin. simpl. eauto. }
  destruct (predict_loop_merged a epm i todo results) as (r_a & Ea & Sa & Ka).
  { apply Forall_forall. intros [w nm] Hin. simpl. specialize (Hfit w (Hw _ _ Hin)). lia. }
  { exact Hres0. }
  destruct (predict_loop_merged b epm i todo r_a) as (r_h & Eb & Sb & Kb).
  { apply Forall_forall. intros [w nm] Hin. simpl. specialize (Hfit w (Hw _ _ Hin)). lia. }
  { eapply Forall_impl; [exact Hres0 |]. intros wn. apply Ka. }
  destruct (predict_loop_merged (a ++ b) epm i todo results) as (r_w & Ew & Sw & Kw).
  { apply Forall_forall. intros [w nm] Hin. simpl. specialize (Hfit w (Hw _ _ Hin)).
    rewrite length_app. lia. }
  { exact Hres0. }
  exists r_a, r_h, r_w. repeat (split; [assumption |]).
  intros nm v Ev. apply results_get_slot in Ev.
  rewrite Sb, Sa in Ev.
  destruct (slot results i nm) as [v0|] eqn:E0; [| discriminate].
  simpl in Ev. injection Ev as <-.
  exists (merged (a ++ b) epm todo nm v0). split.
  { apply results_get_slot. rewrite Sw, E0. reflexivity. }
  pose proof (merged_ub (a ++ b) epm nm todo v0) as [Uv Uw].
  pose proof (merged_ub a epm nm todo v0) as [Av Aw].
  pose proof (merged_ub b epm nm todo (merged a epm todo nm v0)) as [Bv Bw].
  split.
  - apply merged_lub.
    + apply merged_lub; [exact Uv |].
      intros w Hin. eapply flt_le_trans; [| apply (Uw w Hin)].
      destruct (Hfit w (Hw _ _ Hin)) as (H1 & H2 & H3).
      apply (window_max_halves a b epm w H1 H2 H3).
    + intros w Hin. eapply flt_le_trans; [| apply (Uw w Hin)].
      destruct (Hfit w (Hw _ _ Hin)) as (H1 & H2 & H3).
      apply (window_max_halves a b epm w H1 H2 H3).
  - intros Hone. rewrite Forall_forall in Hone.
    apply merged_lub.
    + eapply flt_le_trans; eassumption.
    + intros w Hin.
      destruct (Hfit w (Hw _ _ Hin)) as (H1 & H2 & H3).
      pose proof (Hone w (Hw _ _ Hin)) as E1.
      destruct (window_max_one_epoch a b epm w E1 ltac:(lia) ltac:(lia)) as [Hle | Hle].
      * apply (flt_le_trans _ (fin (window_max a epm w))); [exact Hle |].
        eapply flt_le_trans; [apply (Aw w Hin) | exact Bv].
      * apply (flt_le_trans _ (fin (window_max b epm w))); [exact Hle |].
        apply (Bw w Hin).
Qed.

End MaxAccelerationHalves.

Lemma halves_at_most_whole_witness :
  Forall (fun w => 1 <= w * 2 /\ w * 2 <= length [0; 1]%Q /\ w * 2 <= length [1; 0]%Q)
         (MaxAcceleration.wlens Scenario.max_1)
  /\ Forall (reserved Scenario.one_day 0) (MaxAcceleration.name Scenario.max_1)
  /\ exists r_a r_halves r_whole,
      MaxAcceleration.predict Scenario.max_1 Scenario.one_day 0 [0; 1]%Q 2 = (Ok tt, r_a)
      /\ MaxAcceleration.predict Scenario.max_1 r_a 0 [1; 0]%Q 2 = (Ok tt, r_halves)
      /\ MaxAcceleration.predict Scenario.max_1 Scenario.one_day 0 ([0; 1] ++ [1; 0])%Q 2
         = (Ok tt, r_whole)
      /\ forall nm v,
          results_get r_halves nm 0 = Ok v ->
          exists v',
            results_get r_whole nm 0 = Ok v'
            /\ MaxAcceleration.flt_le v v'
            /\ (Forall (fun w => w * 2 = 1) (MaxAcceleration.wlens Scenario.max_1) ->
                MaxAcceleration.flt_le v' v).
Proof.
  assert (H1 : Forall (fun w => 1 <= w * 2 /\ w * 2 <= length [0; 1]%Q
                                /\ w * 2 <= length [1; 0]%Q)
                      (MaxAcceleration.wlens Scenario.max_1)).
  { repeat constructor. }
  assert (H2 : Forall (reserved Scenario.one_day 0) (MaxAcceleration.name Scenario.max_1)).
  { repeat constructor. eexists; split; [vm_compute; reflexivity | simpl; lia]. }
  split; [exact H1 |]. split; [exact H2 |].
  exact (halves_at_most_whole Scenario.max_1 Scenario.one_day 0 2 [0; 1]%Q [1; 0]%Q H1 H2).
Defined.

(** ** A sequence that is in the level throughout *)

Section ArrayFacts.

Lemma lookup_repeat {A : Type} (v : A) (n j : nat) :
  j < n -> repeat v n !! j = Some v.
Proof.
  revert j. induction n as [|n IH]; intros j Hj; [lia |].
  destruct j as [|j]; simpl; [reflexivity | apply IH; lia].
Qed.

Lemma repeat_all {A : Type} (v : A) (n : nat) (l : list A) :
  length l = n -> (forall j x, l !! j = Some x -> x = v) -> l = repeat v n.
Proof.
  revert n. induction l as [|a l IH]; intros n Hn Hall; simpl in Hn; subst n.
  { reflexivity. }
  simpl. f_equal.
  - apply (Hall 0). reflexivity.
  - apply IH; [reflexivity |]. intros j x Hj. apply (Hall (S j)). exact Hj.
Qed.

Lemma slice_lookup {A : Type} (x : list A) (a b t : nat) :
  t < b - a -> Np.slice x a b !! t = x !! (a + t).
Proof.
  intros Ht. unfold Np.slice. rewrite lookup_take_lt by exact Ht. apply lookup_drop.
Qed.

Lemma slice_length {A : Type} (x : list A) (a b : nat) :
  b <= length x -> length (Np.slice x a b) = b - a.
Proof.
  intros Hb. unfold Np.slice. rewrite length_take, length_drop. lia.
Qed.

Lemma sum_all_ones (l : list Z) :
  (forall j v, l !! j = Some v -> v = 1%Z) -> Np.sum l = Z.of_nat (length l).
Proof.
  intros Hall. rewrite (repeat_all 1%Z (length l) l eq_refl Hall) at 1.
  rewrite sum_repeat. lia.
Qed.

(** One entry at or under [low] among entries that are at most 1. *)
Lemma sum_with_low (l : list Z) (low : Z) (j : nat) (v : Z) :
  (forall k w, l !! k = Some w -> (w <= 1)%Z) ->
  l !! j = Some v -> (v <= low)%Z ->
  (Np.sum l <= Z.of_nat (length l) - 1 + low)%Z.
Proof.
  revert j. induction l as [|a l IH]; intros j Hle Hj Hv; [discriminate |].
  assert (Hrest : forall k w, l !! k = Some w -> (w <= 1)%Z).
  { intros k w Hk. apply (Hle (S k)). exact Hk. }
  assert (Hsum : (Np.sum l <= Z.of_nat (length l))%Z).
  { clear -Hrest. induction l as [|b l IH]; simpl; [lia |].
    pose proof (Hrest 0 b eq_refl).
    assert (Np.sum l <= Z.of_nat (length l))%Z; [| lia].
    apply IH. intros k w Hk. apply (Hrest (S k)). exact Hk. }
  simpl Np.sum. simpl length. destruct j as [|j].
  - injection Hj as ->. lia.
  - pose proof (Hle 0 a eq_refl). specialize (IH j Hrest Hj Hv). lia.
Qed.

Lemma fsum_inject (l : list Z) :
  (Np.fsum (map inject_Z l) == inject_Z (Np.sum l))%Q.
Proof.
  induction l as [|a l IH]; simpl; [reflexivity |].
  rewrite IH, inject_Z_plus. reflexivity.
Qed.

Lemma slice_map {A B : Type} (f : A -> B) (x : list A) (a b : nat) :
  Np.slice (map f x) a b = map f (Np.slice x a b).
Proof. unfold Np.slice. rewrite skipn_map, firstn_map. reflexivity. Qed.

(** The mean of a window of an integer array. *)
Lemma window_mean_inject (xt : list Z) (w k : nat) :
  (window_mean (map inject_Z xt) w k
   == inject_Z (Np.sum (Np.slice xt k (k + w))) / Np.of_nat w)%Q.
Proof. unfold window_mean. rewrite slice_map, fsum_inject. reflexivity. Qed.

Lemma filter_all {A : Type} (P : A -> Prop) `{forall x, Decision (P x)} (l : list A) :
  (forall x, x ∈ l -> P x) -> filter P l = l.
Proof.
  induction l as [|a l IH]; intros Hall; [reflexivity |].
  rewrite filter_cons. destruct (decide (P a)) as [_ | Hn].
  - f_equal. apply IH. intros x Hx. apply Hall. apply elem_of_cons. auto.
  - exfalso. apply Hn, Hall. apply elem_of_cons. auto.
Qed.

Lemma nonzero_from_ones (i n : nat) : Np.nonzero_from i (repeat 1%Z n) = seq i n.
Proof.
  revert i. induction n as [|n IH]; intros i; simpl; [reflexivity |].
  rewrite IH. reflexivity.
Qed.

Lemma max_idx_seq (n : nat) : 1 <= n -> Np.max_idx (seq 0 n) = Ok (n - 1).
Proof.
  intros Hn. destruct n as [|n]; [lia |]. simpl seq. unfold Np.max_idx.
  f_equal. replace (S n - 1) with n by lia.
  assert (Hgen : forall m a v, v <= a -> (m = 0 -> v = a) ->
                   fold_left Nat.max (seq (S a) m) v = Nat.max v (a + m)).
  { clear. induction m as [|m IH]; intros a v Hv H0; simpl.
    - rewrite (H0 eq_refl). lia.
    - rewrite (IH (S a) (Nat.max v (S a))) by lia. lia. }
  destruct n as [|n]; [reflexivity |].
  simpl seq. simpl fold_left.
  rewrite (Hgen n 1 1) by lia. lia.
Qed.

End ArrayFacts.

Lemma level_mask_ones (accm : list Q) (lower_thresh upper_thresh : Q) :
  Forall (fun v => (lower_thresh <= v)%Q /\ (v < upper_thresh)%Q) accm ->
  Bouts.level_mask accm lower_thresh upper_thresh = repeat 1%Z (length accm).
Proof.
  unfold Bouts.level_mask. induction 1 as [|v l [Hlo Hhi] Hl IH]; simpl.
  { reflexivity. }
  rewrite IH. unfold Bouts.in_level.
  apply Qle_bool_iff in Hlo. apply Qltb_lt in Hhi. rewrite Hlo, Hhi. reflexivity.
Qed.

Section OnesBouts.

Import Bouts.

Variables (N W wlen : nat) (c : Q).
Hypothesis W_pos : 1 <= W.
Hypothesis c_lt_1 : (c < 1)%Q.

Local Abbreviation x := (repeat 1%Z N).

Lemma ones_slice_sum (a b : nat) :
  a <= b -> b <= N -> Np.sum (Np.slice x a b) = Z.of_nat (b - a).
Proof.
  intros Hab Hb. rewrite sum_all_ones.
  - rewrite slice_length; [reflexivity |]. rewrite repeat_length. exact Hb.
  - intros j v Hj.
    assert (Hlt : j < b - a).
    { apply lookup_lt_Some in Hj. rewrite slice_length in Hj; [exact Hj |].
      rewrite repeat_length. exact Hb. }
    rewrite slice_lookup in Hj by exact Hlt.
    rewrite lookup_repeat in Hj by lia. congruence.
Qed.

(** A window of [n >= 1] epochs in the level passes the test of the
    fraction. *)
Lemma ones_window_passes (a n : nat) :
  1 <= n -> a + n <= N ->
  Np.Qltb (Np.of_nat n * c) (inject_Z (Np.sum (Np.slice x a (a + n)))) = true.
Proof.
  intros Hn Han. rewrite ones_slice_sum by lia.
  replace (a + n - a) with n by lia. apply Qltb_lt.
  fold (Np.of_nat n). pose proof (of_nat_pos n Hn). nra.
Qed.

(** The inner loop of metric 1 runs to the end of the data. *)
Lemma extend_end_ones (fuel end_ : nat) :
  end_ + fuel = N -> extend_end x c 0 end_ fuel = N.
Proof.
  revert end_. induction fuel as [|fuel IH]; intros end_ Hend; simpl; [lia |].
  replace (end_ + 1 - 0) with (end_ + 1) by lia.
  pose proof (ones_window_passes 0 (end_ + 1) ltac:(lia) ltac:(lia)) as Hpass.
  simpl in Hpass. rewrite Hpass.
  assert (Hlen : length x = N) by apply repeat_length.
  rewrite Hlen. destruct (Nat.ltb_spec end_ N); [| lia].
  simpl. apply IH. lia.
Qed.

Lemma metric1_ones (closedbout : bool) (fuel : nat) :
  1 <= fuel -> W < N ->
  exists q, metric1_loop fuel x (seq 0 N) W c closedbout wlen 0 0 = Ok q
            /\ (q == Np.of_nat N * epoch_minutes wlen)%Q.
Proof.
  intros Hfuel HN.
  assert (Hlen : length x = N) by apply repeat_length.
  destruct fuel as [|n]; [lia |]. cbn [metric1_loop].
  rewrite lookup_seq_lt by lia. cbn [Nat.add].
  rewrite Hlen. destruct (Nat.ltb_spec W N); [| lia].
  pose proof (ones_window_passes 0 W W_pos ltac:(lia)) as Hpass.
  cbn [Nat.add] in Hpass. rewrite Hpass.
  rewrite (extend_end_ones (N - W) W) by lia.
  rewrite drop_0.
  rewrite (filter_all (fun v => v < N) (seq 0 N))
    by (intros v Hv; apply elem_of_seq in Hv; lia).
  rewrite length_seq. replace (Nat.max N 1) with N by lia.
  assert (Hdone : forall t, metric1_loop n x (seq 0 N) W c closedbout wlen (0 + N) t = Ok t).
  { intros t. destruct n; simpl; [reflexivity |].
    rewrite lookup_seq_ge by lia. reflexivity. }
  destruct closedbout.
  - rewrite max_idx_seq by lia. cbn [rbind]. rewrite Hdone.
    eexists; split; [reflexivity |].
    replace (Z.of_nat (N - 1) - Z.of_nat 0 + 1)%Z with (Z.of_nat N) by lia.
    fold (Np.of_nat N). lra.
  - rewrite Hdone. eexists; split; [reflexivity |]. lra.
Qed.

(** Metric 2 never changes a mask that is 1 throughout. *)
Lemma fill_slice_length {A : Type} (xt : list A) (a b : nat) (v : A) :
  a <= length xt -> length (Np.fill_slice xt a b v) = length xt.
Proof.
  intros Ha. unfold Np.fill_slice, Np.slice.
  repeat (rewrite length_app || rewrite repeat_length
          || rewrite length_take || rewrite length_drop).
  lia.
Qed.

Lemma metric2_step_ones (xt : list Z) (i : nat) :
  i < N -> length xt = N ->
  exists xt', metric2_step (seq 0 N) W c (x, xt) i = (x, xt') /\ length xt' = N.
Proof.
  intros Hi Hxt. unfold metric2_step.
  rewrite lookup_seq_lt by exact Hi. cbn [Nat.add].
  rewrite repeat_length, length_seq.
  destruct (Nat.ltb_spec (i + W) N) as [Hend | Hend].
  - rewrite (ones_window_passes i W W_pos ltac:(lia)).
    eexists; split; [reflexivity |].
    rewrite fill_slice_length by lia. exact Hxt.
  - destruct (_ && _) eqn:Econd; [| eauto].
    apply andb_true_iff in Econd as [_ Hi2]. apply Nat.ltb_lt in Hi2.
    exists xt. split; [| exact Hxt]. f_equal.
    apply list_insert_id.
    rewrite seq_nth by lia. cbn [Nat.add].
    rewrite nth_lookup, !lookup_repeat by lia. reflexivity.
Qed.

Lemma metric2_fold_ones (l : list nat) :
  forall xt : list Z,
    (forall i, i ∈ l -> i < N) -> length xt = N ->
    exists xt', fold_left (metric2_step (seq 0 N) W c) l (x, xt) = (x, xt')
                /\ length xt' = N.
Proof.
  induction l as [|i l IH]; intros xt Hl Hxt; cbn [fold_left]; [eauto |].
  destruct (metric2_step_ones xt i) as (xt1 & -> & Hxt1); [| exact Hxt |].
  { apply Hl. apply elem_of_cons. auto. }
  apply IH; [| exact Hxt1]. intros j Hj. apply Hl. apply elem_of_cons. auto.
Qed.

Lemma putmask_ones (m : list bool) :
  length m = N -> Np.putmask x m 1%Z = x.
Proof.
  intros Hm. apply repeat_all.
  - rewrite putmask_length; rewrite repeat_length; [reflexivity | exact Hm].
  - intros j v Hj. unfold Np.putmask in Hj.
    apply lookup_zip_with_Some in Hj as (a & b & -> & Ha & Hb).
    destruct b; [reflexivity |].
    apply lookup_lt_Some in Ha as Hlt. rewrite repeat_length in Hlt.
    rewrite lookup_repeat in Ha by exact Hlt. congruence.
Qed.

End OnesBouts.

(** ** Marking the windows of metrics 3 and 4 *)

Section Marking.

Import Bouts.

Lemma put_length {A : Type} (ind : list nat) (v : A) :
  forall x : list A, length (Np.put x ind v) = length x.
Proof.
  unfold Np.put. induction ind as [|i ind IH]; intros x; simpl; [reflexivity |].
  rewrite IH. apply length_insert.
Qed.

Lemma put_out {A : Type} (ind : list nat) (v : A) (j : nat) :
  forall x : list A, j ∉ ind -> Np.put x ind v !! j = x !! j.
Proof.
  unfold Np.put. induction ind as [|i ind IH]; intros x Hj; simpl; [reflexivity |].
  apply not_elem_of_cons in Hj as [Hne Hj].
  rewrite IH by exact Hj. apply list_lookup_insert_ne. congruence.
Qed.

Lemma put_keep {A : Type} (ind : list nat) (v : A) (j : nat) :
  forall x : list A, x !! j = Some v -> Np.put x ind v !! j = Some v.
Proof.
  unfold Np.put. induction ind as [|i ind IH]; intros x Hj; simpl; [exact Hj |].
  apply IH. destruct (decide (i = j)) as [-> | Hne].
  - apply list_lookup_insert_eq. eapply lookup_lt_Some, Hj.
  - rewrite list_lookup_insert_ne by exact Hne. exact Hj.
Qed.

Lemma put_in {A : Type} (ind : list nat) (v : A) (j : nat) :
  forall x : list A, j ∈ ind -> j < length x -> Np.put x ind v !! j = Some v.
Proof.
  induction ind as [|i ind IH]; intros x Hj Hlen; [inversion Hj |].
  change (Np.put x (i :: ind) v) with (Np.put (<[i:=v]> x) ind v).
  apply elem_of_cons in Hj as [-> | Hj].
  - apply put_keep. apply list_lookup_insert_eq. exact Hlen.
  - apply IH; [exact Hj |]. rewrite length_insert. exact Hlen.
Qed.

Lemma mark_fold_length (p : list nat) (gis : list nat) :
  forall xt, length (fold_left (mark_shift p) gis xt) = length xt.
Proof.
  induction gis as [|gi gis IH]; intros xt; simpl; [reflexivity |].
  rewrite IH. apply put_length.
Qed.

Lemma mark_fold_keep (p : list nat) (gis : list nat) (j : nat) :
  forall xt, xt !! j = Some 2%Z -> fold_left (mark_shift p) gis xt !! j = Some 2%Z.
Proof.
  induction gis as [|gi gis IH]; intros xt Hj; simpl; [exact Hj |].
  apply IH, put_keep, Hj.
Qed.

Lemma mark_fold_out (p : list nat) (gis : list nat) (j : nat) :
  forall xt,
    (forall gi s, gi ∈ gis -> s ∈ p -> j <> s + gi) ->
    fold_left (mark_shift p) gis xt !! j = xt !! j.
Proof.
  induction gis as [|gi gis IH]; intros xt Hout; simpl; [reflexivity |].
  rewrite IH.
  - apply put_out. intros Hin. apply list_elem_of_filter in Hin as [_ Hin].
    apply list_elem_of_fmap in Hin as (s & -> & Hs).
    apply (Hout gi s); [apply elem_of_cons; auto | exact Hs | reflexivity].
  - intros gi' s Hgi Hs. apply Hout; [apply elem_of_cons; auto | exact Hs].
Qed.

Lemma mark_fold_in (p : list nat) (gis : list nat) (j : nat) :
  forall xt gi s,
    j < length xt -> gi ∈ gis -> s ∈ p -> j = s + gi ->
    fold_left (mark_shift p) gis xt !! j = Some 2%Z.
Proof.
  induction gis as [|g gis IH]; intros xt gi s Hlen Hgi Hs Hj; [inversion Hgi |].
  simpl. apply elem_of_cons in Hgi as [<- | Hgi].
  - apply mark_fold_keep. apply put_in; [| exact Hlen].
    apply list_elem_of_filter. split; [exact Hlen |].
    apply list_elem_of_fmap. exists s. split; [exact Hj | exact Hs].
  - apply (IH _ gi s); [| exact Hgi | exact Hs | exact Hj].
    unfold mark_shift. rewrite put_length. exact Hlen.
Qed.

(** The entries of a boolean array that hold. *)
Lemma where_from_elem (b : list bool) :
  forall i s, s ∈ Np.where_from i b <-> exists k, s = i + k /\ b !! k = Some true.
Proof.
  induction b as [|v b IH]; intros i s; simpl.
  { split; [intros Hs; inversion Hs | intros (k & _ & Hk); discriminate]. }
  assert (Htail : s ∈ Np.where_from (S i) b
                  <-> exists k, s = i + S k /\ b !! k = Some true).
  { rewrite IH. split; intros (k & -> & Hk); exists k; split; try lia; exact Hk. }
  destruct v.
  - rewrite elem_of_cons, Htail. split.
    + intros [-> | (k & -> & Hk)]; [exists 0; split; [lia | reflexivity] |].
      exists (S k). split; [reflexivity | exact Hk].
    + intros ([|k] & -> & Hk); [left; lia | right; exists k; split; [reflexivity | exact Hk]].
  - rewrite Htail. split.
    + intros (k & -> & Hk). exists (S k). split; [reflexivity | exact Hk].
    + intros ([|k] & -> & Hk); [discriminate | exists k; split; [reflexivity | exact Hk]].
Qed.

(** The sum of an array that is 1 from [lo] to [hi] and 0 elsewhere. *)
Lemma sum_indicator (l : list Z) (n lo hi : nat) :
  length l = n -> lo <= hi -> hi <= n ->
  (forall j, j < n -> l !! j = Some (if decide (lo <= j < hi) then 1%Z else 0%Z)) ->
  Np.sum l = Z.of_nat (hi - lo).
Proof.
  intros Hlen Hlo Hhi Hl.
  assert (E : l = repeat 0%Z lo ++ repeat 1%Z (hi - lo) ++ repeat 0%Z (n - hi)).
  { apply (list_eq_same_length _ _ n); [| exact Hlen |].
    { rewrite !length_app, !repeat_length. lia. }
    intros j a b Hj Ha Hb. rewrite Hl in Ha by exact Hj. injection Ha as <-.
    destruct (decide (lo <= j < hi)) as [Hin | Hout].
    - rewrite lookup_app_r in Hb by (rewrite repeat_length; lia).
      rewrite repeat_length in Hb.
      rewrite lookup_app_l in Hb by (rewrite repeat_length; lia).
      rewrite lookup_repeat in Hb by lia. congruence.
    - destruct (Nat.lt_ge_cases j lo) as [Hlt | Hge].
      + rewrite lookup_app_l in Hb by (rewrite repeat_length; lia).
        rewrite lookup_repeat in Hb by lia. congruence.
      + rewrite lookup_app_r in Hb by (rewrite repeat_length; lia).
        rewrite repeat_length in Hb.
        rewrite lookup_app_r in Hb by (rewrite repeat_length; lia).
        rewrite repeat_length in Hb.
        rewrite lookup_repeat in Hb by lia. congruence. }
  rewrite E, !sum_app, !sum_repeat. lia.
Qed.

End Marking.

(** ** Metrics 3 and 4 on a mask with penalised ends *)

(** [xt] is 1 from [lo] to [hi] and holds the penalty elsewhere, and a
    window fits between [lo] and [hi]. *)
Section Penalised.

Import Bouts.

Variables (xt : list Z) (N lo hi W : nat) (pen : Z) (c : Q).
Hypothesis xt_length : length xt = N.
Hypothesis xt_entries :
  forall j, j < N -> xt !! j = Some (if decide (lo <= j < hi) then 1%Z else pen).
Hypothesis penalty_low : (lo = 0 /\ hi = N) \/ (pen <= - Z.of_nat W)%Z.
Hypothesis W_pos : 1 <= W.
Hypothesis window_fits : lo + W <= hi.
Hypothesis hi_le : hi <= N.
Hypothesis c_range : (0 <= c)%Q /\ (c < 1)%Q.

Lemma window_entry (k t : nat) :
  k + W <= N -> t < W -> Np.slice xt k (k + W) !! t = xt !! (k + t).
Proof. intros Hk Ht. apply slice_lookup. lia. Qed.

Lemma window_inside (k : nat) :
  lo <= k -> k + W <= hi ->
  Np.Qltb c (window_mean (map inject_Z xt) W k) = true.
Proof.
  intros Hlo Hhi. apply Qltb_lt. rewrite window_mean_inject.
  rewrite sum_all_ones.
  - rewrite slice_length by lia. replace (k + W - k) with W by lia.
    assert (E : (inject_Z (Z.of_nat W) / Np.of_nat W == 1)%Q).
    { unfold Np.of_nat. field. pose proof (of_nat_pos W W_pos) as HW.
      unfold Np.of_nat in HW. lra. }
    rewrite E. apply c_range.
  - intros t v Ht.
    assert (Hlt : t < W).
    { apply lookup_lt_Some in Ht. rewrite slice_length in Ht by lia. lia. }
    rewrite window_entry in Ht by lia.
    rewrite xt_entries in Ht by lia.
    destruct (decide (lo <= k + t < hi)); [congruence | lia].
Qed.

Lemma window_outside (k : nat) :
  k + W <= N -> ~ (lo <= k /\ k + W <= hi) ->
  Np.Qltb c (window_mean (map inject_Z xt) W k) = false.
Proof.
  intros Hk Hout. destruct penalty_low as [[-> ->] | Hpen]; [lia |].
  apply Qltb_ge. rewrite window_mean_inject.
  pose proof (of_nat_pos W W_pos) as HW.
  apply Qle_shift_div_r; [exact HW |].
  set (t := if decide (k < lo) then 0 else W - 1).
  assert (Ht : t < W) by (subst t; destruct (decide (k < lo)); lia).
  assert (Hsum : (Np.sum (Np.slice xt k (k + W)) <= Z.of_nat W - 1 + pen)%Z).
  { assert (HlenW : length (Np.slice xt k (k + W)) = W)
      by (rewrite slice_length by lia; lia).
    rewrite <- HlenW at 2.
    apply (sum_with_low _ pen t pen); [| | lia].
    - intros j v Hj.
      assert (Hlt : j < W).
      { apply lookup_lt_Some in Hj. rewrite slice_length in Hj by lia. lia. }
      rewrite window_entry in Hj by lia. rewrite xt_entries in Hj by lia.
      destruct (decide (lo <= k + j < hi)); injection Hj as <-; lia.
    - rewrite window_entry by lia. rewrite xt_entries by lia.
      destruct (decide (lo <= k + t < hi)) as [Hin | _]; [| reflexivity].
      exfalso. subst t. destruct (decide (k < lo)); lia. }
  assert (Hneg : (inject_Z (Np.sum (Np.slice xt k (k + W))) <= 0)%Q).
  { change 0%Q with (inject_Z 0). rewrite <- Zle_Qle. lia. }
  destruct c_range as [Hc0 _]. nra.
Qed.

(** The windows whose mean is over the fraction are those between [lo]
    and [hi]. *)
Lemma passing_windows :
  exists rm,
    moving_mean (map inject_Z xt) W 1 = Ok rm
    /\ forall s, s ∈ Np.where_ (map (fun v => Np.Qltb c v) rm)
                 <-> lo <= s /\ s + W <= hi.
Proof.
  rewrite moving_mean_stride_1 by (rewrite length_map; lia).
  eexists; split; [reflexivity |]. rewrite length_map, xt_length.
  intros s. unfold Np.where_. rewrite where_from_elem. split.
  - intros (k & -> & Hk). cbn [Nat.add].
    rewrite !list_lookup_fmap in Hk.
    destruct (seq 0 (N - W + 1) !! k) as [k'|] eqn:Ek; [| discriminate].
    apply lookup_seq in Ek as [-> Hlt]. simpl in Hk. injection Hk as Hk.
    destruct (decide (lo <= k /\ k + W <= hi)) as [Hin | Hout]; [exact Hin |].
    rewrite window_outside in Hk by (try lia; exact Hout). discriminate.
  - intros [Hlo Hhi]. exists s. split; [reflexivity |].
    rewrite !list_lookup_fmap, lookup_seq_lt by lia. simpl.
    rewrite window_inside by assumption. reflexivity.
Qed.

(** Marking the windows between [lo] and [hi] marks the epochs from
    [lo] to [hi]. *)
Lemma marked_interval (p : list nat) (x : list Z) (wlen : nat) :
  (forall s, s ∈ p <-> lo <= s /\ s + W <= hi) ->
  length x = N ->
  (marked_minutes x (mark_windows xt p W) wlen
   == Np.of_nat (hi - lo) * epoch_minutes wlen)%Q.
Proof.
  intros Hp Hx. unfold marked_minutes.
  set (xt' := mark_windows xt p W).
  assert (Hlen' : length xt' = N).
  { subst xt'. unfold mark_windows. rewrite mark_fold_length. exact xt_length. }
  assert (Hxt' : forall j, j < N ->
             exists v, xt' !! j = Some v /\ (v = 2%Z <-> lo <= j < hi)).
  { intros j Hj. destruct (decide (lo <= j < hi)) as [Hin | Hout].
    - exists 2%Z. split; [| tauto]. subst xt'. unfold mark_windows.
      apply (mark_fold_in p _ j xt (j - Nat.min j (hi - W)) (Nat.min j (hi - W))).
      + lia.
      + apply elem_of_seq. lia.
      + apply Hp. lia.
      + lia.
    - exists pen. split.
      + subst xt'. unfold mark_windows. rewrite mark_fold_out.
        * rewrite xt_entries by exact Hj.
          destruct (decide (lo <= j < hi)); [contradiction | reflexivity].
        * intros gi s Hgi Hs. apply elem_of_seq in Hgi. apply Hp in Hs. lia.
      + destruct penalty_low as [[-> ->] | Hpen]; [lia |]. split; [lia | tauto]. }
  assert (L1 : length (Np.putmask x (map (fun v => negb (Z.eqb v 2)) xt') 0%Z) = N).
  { rewrite putmask_length; [exact Hx | rewrite length_map; lia]. }
  rewrite (sum_indicator _ N lo hi); [unfold Np.of_nat; ring | | lia | lia |].
  - rewrite putmask_length; [exact L1 | rewrite length_map; lia].
  - intros j Hj. destruct (Hxt' j Hj) as (v & Ev & Hv).
    destruct (lookup_lt_is_Some_2 x j ltac:(lia)) as [xv Exv].
    unfold Np.putmask. rewrite !lookup_zip_with, !list_lookup_fmap, Ev, Exv. simpl.
    destruct (decide (lo <= j < hi)) as [Hin | Hout].
    + apply Hv in Hin. subst v. reflexivity.
    + destruct (Z.eqb_spec v 2) as [E2 | _]; [apply Hv in E2; contradiction |].
      reflexivity.
Qed.

End Penalised.

(** ** The bout detector on a sequence in the level throughout *)

Section OnesPenalised.

Import Bouts.

(** For epochs of at most a minute the penalty outweighs a window. *)
Lemma break_penalty_low (wlen W : nat) :
  1 <= wlen <= 60 -> (break_penalty wlen W <= - Z.of_nat W)%Z.
Proof.
  intros [H1 H60]. unfold break_penalty, Np.int_of_float, Np.of_nat, Qdiv, Qinv, inject_Z.
  destruct (Z.of_nat wlen) as [|p|p] eqn:Ep; try lia.
  cbn [Qnum Qden Qmult Qopp]. simpl Qnum. simpl Qden.
  replace (- (60 * 1) * Z.of_nat W)%Z with (- (60 * Z.of_nat W))%Z by lia.
  replace (Z.pos (1 * p * 1)) with (Z.pos p) by (f_equal; lia).
  rewrite Z.quot_opp_l by lia. rewrite Z.quot_div_nonneg by lia.
  assert (Z.of_nat W <= 60 * Z.of_nat W / Z.pos p)%Z; [| lia].
  apply Z.div_le_lower_bound; [lia |]. nia.
Qed.

Variables (N W wlen : nat).
Hypothesis wlen_pos : 1 <= wlen.
Hypothesis W_pos : 1 <= W.

Local Abbreviation x := (repeat 1%Z N).
Local Abbreviation E := (break_window wlen - 1).
Local Abbreviation lo := (E / 2).
Local Abbreviation hi := (E / 2 + (N - E)).

Hypothesis enough : W + E <= N.

Lemma ones_window_mean_nonzero (B k : nat) :
  1 <= B -> k + B <= N ->
  Qeq_bool (window_mean (map inject_Z x) B k) 0 = false.
Proof.
  intros HB Hk.
  assert (Hpos : Np.Qltb 0 (window_mean (map inject_Z x) B k) = true).
  { apply (window_inside x N 0 N B 0%Z 0%Q).
    - apply repeat_length.
    - intros j Hj. rewrite lookup_repeat by exact Hj.
      destruct (decide (0 <= j < N)); [reflexivity | lia].
    - left. split; reflexivity.
    - exact HB.
    - lia.
    - lia.
    - split; lra.
    - lia.
    - lia. }
  apply Qltb_lt in Hpos. apply not_true_iff_false. intros Heq.
  apply Qeq_bool_iff in Heq. lra.
Qed.

(** The mask after the break search: the first [E / 2] and the last
    [E - E / 2] epochs hold the penalty. *)
Lemma penalise_ones :
  exists xt,
    penalise_breaks x wlen W = Ok xt
    /\ length xt = N
    /\ forall j, j < N ->
         xt !! j = Some (if decide (lo <= j < hi) then 1%Z else break_penalty wlen W).
Proof.
  pose proof (break_window_pos wlen wlen_pos) as HB.
  assert (Hlo : lo <= E) by (pose proof (Nat.div_mod_eq E 2); lia).
  unfold penalise_breaks.
  rewrite lookforbreaks_value by (rewrite ?repeat_length; lia).
  cbv zeta. cbn [rbind]. rewrite repeat_length.
  replace ((break_window wlen + 1) / 2 - 1) with lo.
  2:{ replace (break_window wlen + 1) with (E + 1 * 2) by lia.
      rewrite Nat.div_add by lia. lia. }
  replace (N - break_window wlen + 1) with (N - E) by lia.
  assert (Htake : length (take lo (Np.zeros N)) = lo).
  { unfold Np.zeros. rewrite length_take, repeat_length. lia. }
  assert (Hmm : length (map (window_mean (map inject_Z x) (break_window wlen))
                            (seq 0 (N - E))) = N - E).
  { rewrite length_map, length_seq. reflexivity. }
  assert (Hdrop : length (drop hi (Np.zeros N)) = N - hi).
  { unfold Np.zeros. rewrite length_drop, repeat_length. reflexivity. }
  eexists; split; [reflexivity |]. split.
  { rewrite putmask_length; rewrite ?repeat_length; [reflexivity |].
    rewrite length_map, !length_app, Htake, Hmm, Hdrop. lia. }
  intros j Hj. unfold Np.putmask.
  rewrite lookup_zip_with, lookup_repeat, list_lookup_fmap by exact Hj.
  destruct (decide (lo <= j < hi)) as [Hin | Hout].
  - rewrite lookup_app_r by (rewrite Htake; lia). rewrite Htake.
    rewrite lookup_app_l by (rewrite Hmm; lia).
    rewrite list_lookup_fmap, lookup_seq_lt by lia.
    cbn -[Nat.div window_mean break_window break_penalty].
    rewrite ones_window_mean_nonzero by lia. reflexivity.
  - destruct (Nat.lt_ge_cases j lo) as [Hlt | Hge].
    + rewrite lookup_app_l by (rewrite Htake; lia). rewrite lookup_take_lt by lia.
      unfold Np.zeros. rewrite lookup_repeat by lia. reflexivity.
    + rewrite lookup_app_r by (rewrite Htake; lia). rewrite Htake.
      rewrite lookup_app_r by (rewrite Hmm; lia). rewrite Hmm.
      rewrite lookup_drop. unfold Np.zeros. rewrite lookup_repeat by lia.
      reflexivity.
Qed.

Variable c : Q.
Hypothesis c_range : (0 <= c)%Q /\ (c < 1)%Q.

Lemma penalty_of_ones :
  (lo = 0 /\ hi = N) \/ (break_penalty wlen W <= - Z.of_nat W)%Z.
Proof.
  pose proof (break_window_value wlen wlen_pos) as HB.
  destruct (Nat.eq_dec E 0) as [E0 | E0].
  - left. rewrite E0. simpl. lia.
  - right. apply break_penalty_low. split; [exact wlen_pos |].
    destruct (Nat.le_gt_cases wlen 60) as [Hle | Hgt]; [exact Hle |].
    rewrite Nat.div_small in HB by lia. lia.
Qed.

Lemma both_ends_ones (p : list nat) :
  (forall s, s ∈ p <-> lo <= s /\ s + W <= hi) ->
  forall s, s ∈ both_ends x p W <-> lo <= s /\ s + W <= hi.
Proof.
  intros Hp s. unfold both_ends. rewrite list_elem_of_filter, Hp.
  split; [tauto |]. intros Hs. split; [| exact Hs].
  pose proof (Nat.div_mod_eq E 2). pose proof (Nat.mod_upper_bound E 2 ltac:(lia)).
  rewrite !nth_lookup, !lookup_repeat by lia. split; reflexivity.
Qed.

Lemma metric34_ones (accm : list Q) (lower_thresh upper_thresh : Q) :
  Forall (fun v => (lower_thresh <= v)%Q /\ (v < upper_thresh)%Q) accm ->
  length accm = N ->
  returns (metric3 accm lower_thresh upper_thresh wlen W c)
          (Np.of_nat (N - E) * epoch_minutes wlen)
  /\ returns (metric4 accm lower_thresh upper_thresh wlen W c)
             (Np.of_nat (N - E) * epoch_minutes wlen).
Proof.
  intros Hall Hlen.
  pose proof (Nat.div_mod_eq E 2) as HE2.
  pose proof (Nat.mod_upper_bound E 2 ltac:(lia)) as HE3.
  unfold metric3, metric4. rewrite (level_mask_ones _ _ _ Hall), Hlen.
  destruct penalise_ones as (xt & -> & Hxt & Hentries). cbn [rbind].
  destruct (passing_windows xt N lo hi W (break_penalty wlen W) c Hxt Hentries
              penalty_of_ones W_pos ltac:(lia) ltac:(lia) c_range)
    as (rm & -> & Hp).
  assert (Hcount : hi - lo = N - E) by lia.
  split.
  - eexists; split; [reflexivity |]. rewrite <- Hcount.
    apply (marked_interval xt N lo hi W (break_penalty wlen W) c Hxt Hentries
             penalty_of_ones W_pos ltac:(lia) ltac:(lia) c_range); [exact Hp |].
    apply repeat_length.
  - eexists; split; [reflexivity |]. rewrite <- Hcount.
    apply (marked_interval xt N lo hi W (break_penalty wlen W) c Hxt Hentries
             penalty_of_ones W_pos ltac:(lia) ltac:(lia) c_range);
      [apply both_ends_ones, Hp | apply repeat_length].
Qed.

End OnesPenalised.

Section InLevelThroughout.

Import Bouts.

(** C2, as it is written, fails: ten minutes in the level are as long
    as the window of ten epochs, and metric 1, which only looks at windows
    that end before the end of the data, finds no bout in them. *)
Lemma ten_ones_no_bout :
  Forall (fun v => (1 # 10 <= v)%Q /\ (v < 100)%Q) (repeat 1%Q 10)
  /\ get_nboutdur 60 10 = Ok (length (repeat 1%Q 10))
  /\ Scenario.detect (repeat 1%Q 10) true 1 = Ok 0%Q
  /\ ~ returns (Scenario.detect (repeat 1%Q 10) true 1)
               (Np.of_nat (length (repeat 1%Q 10)) * epoch_minutes 60).
Proof.
  split; [repeat constructor; discriminate |].
  split; [vm_compute; reflexivity |].
  split; [vm_compute; reflexivity |].
  intros (v & Ev & Hv). vm_compute in Ev. injection Ev as <-. discriminate Hv.
Qed.

(** With epochs of a minute the break search penalises the last epoch:
    of twelve minutes in the level metrics 3 and 4 count eleven. *)
Lemma twelve_ones_metric_3 :
  returns (Scenario.detect Scenario.ones12 true 3) 11
  /\ returns (Scenario.detect Scenario.ones12 true 4) 11.
Proof. split; eexists; (split; [vm_compute; reflexivity | reflexivity]). Qed.

(** C2, amended.  Let every epoch be in the level, the window be of
    [nboutdur >= 1] epochs and the fraction be in [0, 1).  Then
    - metric 1 returns the minutes of the whole sequence when the sequence
      is longer than the window;
    - metric 2 does so when the sequence is at least as long as the
      window;
    - metrics 3 and 4 return the minutes of the sequence less the
      [E = int(60 / wlen)] epochs at its ends that the break search
      penalises, when a window fits in what is left; this is the whole
      sequence for epochs of more than a minute, where [E = 0]. *)
Theorem in_level_throughout (accm : list Q) (lower_thresh upper_thresh : Q)
        (wlen boutdur nboutdur : nat) (boutcrit : Q) (closedbout : bool) :
  Forall (fun v => (lower_thresh <= v)%Q /\ (v < upper_thresh)%Q) accm ->
  get_nboutdur wlen boutdur = Ok nboutdur ->
  1 <= nboutdur ->
  (0 <= boutcrit)%Q /\ (boutcrit < 1)%Q ->
  let detect := get_activity_bouts accm lower_thresh upper_thresh wlen boutdur
                  boutcrit closedbout in
  let N := length accm in
  let E := break_window wlen - 1 in
  (nboutdur < N -> returns (detect 1%Z) (Np.of_nat N * epoch_minutes wlen))
  /\ (nboutdur <= N -> returns (detect 2%Z) (Np.of_nat N * epoch_minutes wlen))
  /\ (nboutdur + E <= N ->
      returns (detect 3%Z) (Np.of_nat (N - E) * epoch_minutes wlen)
      /\ returns (detect 4%Z) (Np.of_nat (N - E) * epoch_minutes wlen)).
Proof.
  intros Hall HW HW1 Hc detect N E. subst detect.
  pose proof (get_nboutdur_wlen _ _ _ HW) as Hwlen.
  unfold get_activity_bouts. rewrite HW. cbn [rbind]. fold N.
  split; [| split].
  - intros HN. destruct (Nat.ltb_spec N nboutdur); [lia |].
    cbn [Z.eqb Pos.eqb]. unfold metric1.
    rewrite (level_mask_ones _ _ _ Hall). fold N.
    unfold Np.nonzero. rewrite nonzero_from_ones, length_seq.
    apply metric1_ones; [exact HW1 | apply Hc | lia | exact HN].
  - intros HN. destruct (Nat.ltb_spec N nboutdur); [lia |].
    cbn [Z.eqb Pos.eqb]. unfold metric2.
    rewrite (level_mask_ones _ _ _ Hall). fold N.
    unfold Np.nonzero. rewrite nonzero_from_ones, length_seq, repeat_length.
    destruct (metric2_fold_ones N nboutdur boutcrit HW1 (proj2 Hc) (seq 0 N)
                (Np.izeros N)) as (xt' & -> & Hxt').
    { intros i Hi. apply elem_of_seq in Hi. lia. }
    { apply repeat_length. }
    rewrite putmask_ones by (rewrite length_map; exact Hxt').
    eexists; split; [reflexivity |].
    rewrite sum_repeat. unfold Np.of_nat.
    replace (Z.of_nat N * 1)%Z with (Z.of_nat N) by lia. lra.
  - intros HN. destruct (Nat.ltb_spec N nboutdur); [lia |].
    cbn [Z.eqb Pos.eqb].
    apply (metric34_ones N nboutdur wlen Hwlen HW1 HN boutcrit Hc accm
             lower_thresh upper_thresh Hall eq_refl).
Qed.

Lemma in_level_throughout_witness :
  Forall (fun v => (1 # 10 <= v)%Q /\ (v < 100)%Q) Scenario.ones12
  /\ get_nboutdur 60 10 = Ok 10
  /\ 1 <= 10
  /\ ((0 <= 8 # 10)%Q /\ (8 # 10 < 1)%Q)
  /\ (10 < length Scenario.ones12 ->
      returns (Scenario.detect Scenario.ones12 true 1)
              (Np.of_nat (length Scenario.ones12) * epoch_minutes 60))
  /\ (10 + (break_window 60 - 1) <= length Scenario.ones12 ->
      returns (Scenario.detect Scenario.ones12 true 3)
              (Np.of_nat (length Scenario.ones12 - (break_window 60 - 1))
               * epoch_minutes 60)).
Proof.
  assert (H1 : Forall (fun v => (1 # 10 <= v)%Q /\ (v < 100)%Q) Scenario.ones12).
  { repeat constructor; discriminate. }
  assert (H2 : get_nboutdur 60 10 = Ok 10) by (vm_compute; reflexivity).
  assert (H3 : 1 <= 10) by lia.
  assert (H4 : (0 <= 8 # 10)%Q /\ (8 # 10 < 1)%Q) by (split; reflexivity || discriminate).
  pose proof (in_level_throughout Scenario.ones12 (1 # 10) 100 60 10 10 (8 # 10) true
                H1 H2 H3 H4) as (T1 & _ & T3).
  split; [exact H1 |]. split; [exact H2 |]. split; [exact H3 |].
  split; [exact H4 |]. split; [exact T1 |].
  intros HN. exact (proj1 (T3 HN)).
Defined.

End InLevelThroughout.

(** * Further properties *)

(** ** The indices of the epochs in the level *)

Section QualifyingIndices.

Lemma nonzero_from_bounds (x : list Z) :
  forall i v, v ∈ Np.nonzero_from i x -> i <= v < i + length x.
Proof.
  induction x as [|a x IH]; intros i v Hv; simpl in Hv; [inversion Hv |].
  simpl length. destruct (Z.eqb a 0).
  - apply IH in Hv. lia.
  - apply elem_of_cons in Hv as [-> | Hv]; [lia |]. apply IH in Hv. lia.
Qed.

(** [nonzero] lists the indices in increasing order. *)
Lemma nonzero_from_sorted (x : list Z) :
  forall i, StronglySorted lt (Np.nonzero_from i x).
Proof.
  induction x as [|a x IH]; intros i; simpl; [constructor |].
  destruct (Z.eqb a 0); [apply IH |].
  constructor; [apply IH |].
  apply Forall_forall. intros v Hv. apply nonzero_from_bounds in Hv. lia.
Qed.

Lemma nonzero_bounds (x : list Z) : Forall (fun v => v < length x) (Np.nonzero x).
Proof.
  apply Forall_forall. intros v Hv. apply nonzero_from_bounds in Hv. lia.
Qed.

(** There are as many of them as there are epochs in the level. *)
Lemma nonzero_level_mask (accm : list Q) (lo hi : Q) :
  forall i,
    length (Np.nonzero_from i (Bouts.level_mask accm lo hi))
    = length (filter (fun v => Bouts.in_level lo hi v = true) accm).
Proof.
  induction accm as [|a accm IH]; intros i; [reflexivity |].
  unfold Bouts.level_mask in *. simpl. rewrite filter_cons.
  destruct (Bouts.in_level lo hi a); simpl.
  - destruct (decide (true = true)); [| congruence]. simpl. f_equal. apply IH.
  - destruct (decide (false = true)); [discriminate |]. apply IH.
Qed.

Lemma sorted_drop (p : list nat) (i : nat) :
  StronglySorted lt p -> StronglySorted lt (drop i p).
Proof.
  intros Hp. revert i. induction Hp as [|a p Hp IH Ha]; intros [|i]; simpl;
    try constructor; auto.
Qed.

Lemma sorted_filter (P : nat -> Prop) `{forall v, Decision (P v)} (p : list nat) :
  StronglySorted lt p -> StronglySorted lt (filter P p).
Proof.
  induction 1 as [|a p Hp IH Ha]; [constructor |].
  rewrite filter_cons. destruct (decide (P a)); [| exact IH].
  constructor; [exact IH |].
  apply Forall_forall. intros v Hv. apply list_elem_of_filter in Hv as [_ Hv].
  rewrite Forall_forall in Ha. auto.
Qed.

Lemma filter_none {A : Type} (P : A -> Prop) `{forall v, Decision (P v)} (l : list A) :
  (forall v, v ∈ l -> ~ P v) -> filter P l = [].
Proof.
  induction l as [|a l IH]; intros Hl; [reflexivity |].
  rewrite filter_cons. destruct (decide (P a)) as [Ha | _].
  - exfalso. apply (Hl a); [apply elem_of_cons; auto | exact Ha].
  - apply IH. intros v Hv. apply Hl. apply elem_of_cons. auto.
Qed.

(** In an increasing list the entries under a bound come first. *)
Lemma sorted_filter_prefix (p : list nat) (e : nat) :
  StronglySorted lt p ->
  forall v, p !! length (filter (fun v => v < e) p) = Some v -> e <= v.
Proof.
  induction 1 as [|a p Hp IH Ha]; intros v Hv; [discriminate |].
  rewrite filter_cons in Hv. destruct (decide (a < e)) as [Hlt | Hge].
  - simpl in Hv. auto.
  - rewrite (filter_none (fun v => v < e) p) in Hv.
    + simpl in Hv. injection Hv as <-. lia.
    + intros w Hw. rewrite Forall_forall in Ha. specialize (Ha w Hw). lia.
Qed.

Lemma sorted_head_least (p : list nat) (a : nat) :
  StronglySorted lt p -> p !! 0 = Some a -> forall v, v ∈ p -> a <= v.
Proof.
  intros Hp Ha v Hv. destruct Hp as [|b p Hp Hb]; [discriminate |].
  simpl in Ha. injection Ha as ->.
  apply elem_of_cons in Hv as [-> | Hv]; [lia |].
  rewrite Forall_forall in Hb. specialize (Hb v Hv). lia.
Qed.

(** An increasing list of numbers from [lo] to [hi] has at most
    [hi + 1 - lo] entries. *)
Lemma sorted_length_range (p : list nat) (hi : nat) :
  StronglySorted lt p ->
  forall lo, (forall v, v ∈ p -> lo <= v <= hi) -> length p <= hi + 1 - lo.
Proof.
  induction 1 as [|a p Hp IH Ha]; intros lo Hin; simpl; [lia |].
  assert (Hlo : lo <= a <= hi) by (apply Hin, elem_of_cons; auto).
  assert (Hrest : length p <= hi + 1 - S a).
  { apply IH. intros v Hv. rewrite Forall_forall in Ha. specialize (Ha v Hv).
    assert (lo <= v <= hi) by (apply Hin, elem_of_cons; auto). lia. }
  lia.
Qed.

Lemma max_idx_spec (p : list nat) (m : nat) :
  Np.max_idx p = Ok m -> m ∈ p /\ forall v, v ∈ p -> v <= m.
Proof.
  destruct p as [|a p]; [discriminate |]. simpl. intros E. injection E as <-.
  destruct (fold_max_ge p a) as [H1 H2]. split.
  - clear H1 H2. revert a. induction p as [|b p IH]; intros a; simpl.
    + apply elem_of_cons. auto.
    + specialize (IH (Nat.max a b)). apply elem_of_cons in IH as [IH | IH].
      * rewrite IH. destruct (Nat.max_spec a b) as [[_ ->] | [_ ->]].
        -- apply elem_of_cons. right. apply elem_of_cons. auto.
        -- apply elem_of_cons. auto.
      * apply elem_of_cons. right. apply elem_of_cons. auto.
  - intros v Hv. apply elem_of_cons in Hv as [-> | Hv]; auto.
Qed.

Lemma extend_end_le (x : list Z) (c : Q) (start : nat) (fuel : nat) :
  forall end_, end_ <= length x -> Bouts.extend_end x c start end_ fuel <= length x.
Proof.
  induction fuel as [|fuel IH]; intros end_ Hend; simpl; [exact Hend |].
  destruct (Np.Qltb _ _); simpl; [| exact Hend].
  destruct (Nat.ltb_spec end_ (length x)); [| exact Hend].
  apply IH. lia.
Qed.

End QualifyingIndices.

(** ** The loop of metric 1 *)

Section Metric1Invariants.

Import Bouts.

Variables (x : list Z) (p : list nat).
Hypothesis p_sorted : StronglySorted lt p.
Hypothesis p_bound : Forall (fun v => v < length x) p.

(** What an accepted window selects: at least the epoch it starts at, at
    most the epochs from that one to the last one under its end, and
    everything up to the next index of [p]. *)
Lemma accepted_window (i start end_ : nat) :
  p !! i = Some start -> start < end_ ->
  let sel := filter (fun v => v < end_) (drop i p) in
  1 <= length sel <= length p - i
  /\ (exists m, Np.max_idx (filter (fun v => v < end_) p) = Ok m
                /\ start <= m < end_
                /\ length sel <= m + 1 - start)
  /\ (forall v, p !! (i + length sel) = Some v -> end_ <= v).
Proof.
  intros Hi Hend sel.
  assert (Hhead : drop i p !! 0 = Some start).
  { rewrite lookup_drop, Nat.add_0_r. exact Hi. }
  assert (Hsel : start ∈ sel).
  { apply list_elem_of_filter. split; [exact Hend |].
    eapply list_elem_of_lookup_2, Hhead. }
  assert (Hdrop : StronglySorted lt (drop i p)) by (apply sorted_drop, p_sorted).
  split; [| split].
  - split.
    + destruct sel; [inversion Hsel | simpl; lia].
    + subst sel. etransitivity; [apply length_filter |].
      rewrite length_drop. lia.
  - destruct (max_idx_ge (filter (fun v => v < end_) p) start) as (m & Em & Hm).
    { apply list_elem_of_filter. split; [exact Hend |].
      eapply list_elem_of_lookup_2, Hi. }
    exists m. split; [exact Em |].
    apply max_idx_spec in Em as [Hin Hmax].
    apply list_elem_of_filter in Hin as [Hlt _].
    split; [lia |].
    apply sorted_length_range; [apply sorted_filter, Hdrop |].
    intros v Hv. apply list_elem_of_filter in Hv as [Hv1 Hv2]. split.
    + apply (sorted_head_least (drop i p) start Hdrop Hhead v Hv2).
    + apply Hmax. apply list_elem_of_filter. split; [exact Hv1 |].
      apply (subseteq_drop i p v Hv2).
  - intros v Hv. rewrite <- lookup_drop in Hv.
    apply (sorted_filter_prefix (drop i p) end_ Hdrop v Hv).
Qed.

Variables (W wlen : nat) (c : Q).

Lemma of_nat_le (a b : nat) : a <= b -> (Np.of_nat a <= Np.of_nat b)%Q.
Proof. intros Hab. unfold Np.of_nat. rewrite <- Zle_Qle. lia. Qed.

Lemma of_nat_add (a b : nat) : (Np.of_nat (a + b) == Np.of_nat a + Np.of_nat b)%Q.
Proof. unfold Np.of_nat. rewrite Nat2Z.inj_add, inject_Z_plus. reflexivity. Qed.

(** The end of an accepted window: past its start, within the data. *)
Lemma accepted_end (start : nat) :
  start + W < length x ->
  Np.Qltb (Np.of_nat W * c)
          (inject_Z (Np.sum (Np.slice x start (start + W)))) = true ->
  start < extend_end x c start (start + W) (length x - (start + W)) <= length x.
Proof.
  intros Hlt Htest. pose proof (passing_window_nonempty _ _ _ _ Htest) as HW.
  pose proof (extend_end_ge x c start (start + W) (length x - (start + W))) as Hge.
  pose proof (extend_end_le x c start (length x - (start + W)) (start + W)
                ltac:(lia)) as Hle.
  lia.
Qed.

(** Counting the breaks of a bout never gives less than leaving them
    out. *)
Lemma metric1_open_le_closed (fuel : nat) :
  forall i t_open t_closed,
    (t_open <= t_closed)%Q ->
    exists q_open q_closed,
      metric1_loop fuel x p W c false wlen i t_open = Ok q_open
      /\ metric1_loop fuel x p W c true wlen i t_closed = Ok q_closed
      /\ (q_open <= q_closed)%Q.
Proof.
  induction fuel as [|fuel IH]; intros i t_o t_c Ht; cbn [metric1_loop]; [eauto |].
  destruct (p !! i) as [start|] eqn:Ep; [| eauto].
  destruct (Nat.ltb_spec (start + W) (length x)) as [Hlt | _]; [| auto].
  destruct (Np.Qltb _ _) eqn:Etest; [| auto].
  destruct (accepted_end start Hlt Etest) as [Hend Hend'].
  pose proof (accepted_window i start _ Ep Hend) as Hwin. cbv zeta in Hwin.
  destruct Hwin as (Hlen & (m & Em & Hm & Hcount) & _).
  rewrite Em. cbn [rbind]. apply IH.
  pose proof (epoch_minutes_nonneg wlen) as Hem.
  set (sel := filter _ (drop i p)) in *.
  assert (Hle : (Np.of_nat (length sel)
                 <= inject_Z (Z.of_nat m - Z.of_nat start + 1))%Q).
  { unfold Np.of_nat. rewrite <- Zle_Qle. lia. }
  nra.
Qed.

(** Without the breaks, the bouts hold no more than the epochs in the
    level; [i_mvpa] of them are behind the loop. *)
Lemma metric1_open_le_level (fuel : nat) :
  forall i t,
    (t <= Np.of_nat i * epoch_minutes wlen)%Q -> i <= length p ->
    exists q,
      metric1_loop fuel x p W c false wlen i t = Ok q
      /\ (q <= Np.of_nat (length p) * epoch_minutes wlen)%Q.
Proof.
  pose proof (epoch_minutes_nonneg wlen) as Hem.
  assert (Hdone : forall i t, (t <= Np.of_nat i * epoch_minutes wlen)%Q ->
                    i <= length p ->
                    (t <= Np.of_nat (length p) * epoch_minutes wlen)%Q).
  { intros i t Ht Hi. pose proof (of_nat_le _ _ Hi). nra. }
  induction fuel as [|fuel IH]; intros i t Ht Hi; cbn [metric1_loop]; [eauto |].
  destruct (p !! i) as [start|] eqn:Ep; [| eauto].
  pose proof (lookup_lt_Some _ _ _ Ep) as Hip.
  assert (Hnext : (t <= Np.of_nat (i + 1) * epoch_minutes wlen)%Q).
  { pose proof (of_nat_le i (i + 1) ltac:(lia)). nra. }
  destruct (Nat.ltb_spec (start + W) (length x)) as [Hlt | _];
    [| apply IH; [exact Hnext | lia]].
  destruct (Np.Qltb _ _) eqn:Etest; [| apply IH; [exact Hnext | lia]].
  destruct (accepted_end start Hlt Etest) as [Hend Hend'].
  pose proof (accepted_window i start _ Ep Hend) as Hwin. cbv zeta in Hwin.
  destruct Hwin as (Hlen & _ & _).
  set (sel := filter _ (drop i p)) in *.
  replace (Nat.max (length sel) 1) with (length sel) by lia.
  apply IH; [| lia]. rewrite of_nat_add. nra.
Qed.

Local Abbreviation reach i := (from_option id (length x) (p !! i)).

Lemma reach_le (i : nat) : reach i <= length x.
Proof.
  destruct (p !! i) as [v|] eqn:Ev; simpl; [| lia].
  rewrite Forall_forall in p_bound.
  assert (v < length x); [| lia]. apply p_bound. eapply list_elem_of_lookup_2, Ev.
Qed.

Lemma reach_next (i start : nat) : p !! i = Some start -> start + 1 <= reach (i + 1).
Proof.
  intros Ep.
  pose proof (accepted_window i start (start + 1) Ep ltac:(lia)) as Hwin.
  cbv zeta in Hwin. destruct Hwin as (Hlen & (m & _ & Hm & Hcount) & Hnext).
  set (sel := filter _ (drop i p)) in *.
  assert (Hone : length sel = 1) by lia. rewrite Hone in Hnext.
  destruct (p !! (i + 1)) as [v|] eqn:Ev; simpl.
  - apply Hnext. reflexivity.
  - rewrite Forall_forall in p_bound.
    assert (start < length x); [| lia]. apply p_bound. eapply list_elem_of_lookup_2, Ep.
Qed.

(** With the breaks, a bout ends before the next index of [p], so the
    bouts never hold more than the epochs behind the loop. *)
Lemma metric1_closed_le_duration (fuel : nat) :
  forall i t,
    (t <= Np.of_nat (reach i) * epoch_minutes wlen)%Q ->
    exists q,
      metric1_loop fuel x p W c true wlen i t = Ok q
      /\ (q <= Np.of_nat (length x) * epoch_minutes wlen)%Q.
Proof.
  pose proof (epoch_minutes_nonneg wlen) as Hem.
  assert (Hdone : forall i t, (t <= Np.of_nat (reach i) * epoch_minutes wlen)%Q ->
                    (t <= Np.of_nat (length x) * epoch_minutes wlen)%Q).
  { intros i t Ht. pose proof (of_nat_le _ _ (reach_le i)). nra. }
  induction fuel as [|fuel IH]; intros i t Ht; cbn [metric1_loop]; [eauto |].
  destruct (p !! i) as [start|] eqn:Ep; [| eauto].
  assert (Hstart : (t <= Np.of_nat start * epoch_minutes wlen)%Q).
  { exact Ht. }
  assert (Hnext : (t <= Np.of_nat (reach (i + 1)%nat) * epoch_minutes wlen)%Q).
  { pose proof (of_nat_le _ _ (reach_next i start Ep)).
    pose proof (of_nat_le start (start + 1) ltac:(lia)). nra. }
  destruct (Nat.ltb_spec (start + W) (length x)) as [Hlt | _]; [| apply IH, Hnext].
  destruct (Np.Qltb _ _) eqn:Etest; [| apply IH, Hnext].
  destruct (accepted_end start Hlt Etest) as [Hend Hend'].
  pose proof (accepted_window i start _ Ep Hend) as Hwin. cbv zeta in Hwin.
  destruct Hwin as (Hlen & (m & Em & Hm & Hcount) & Hafter).
  rewrite Em. cbn [rbind].
  set (end_ := extend_end x c start (start + W) (length x - (start + W))) in *.
  set (sel := filter _ (drop i p)) in *.
  replace (Nat.max (length sel) 1) with (length sel) by lia.
  apply IH.
  assert (Hreach : end_ <= reach (i + length sel)).
  { destruct (p !! (i + length sel)) as [v|] eqn:Ev; simpl; [| exact Hend'].
    apply Hafter. reflexivity. }
  pose proof (of_nat_le _ _ Hreach) as Hq.
  assert (Hspan : (inject_Z (Z.of_nat m - Z.of_nat start + 1) + Np.of_nat start
                   <= Np.of_nat end_)%Q).
  { unfold Np.of_nat. rewrite <- inject_Z_plus, <- Zle_Qle. lia. }
  nra.
Qed.

End Metric1Invariants.

(** ** The time in bouts of metric 1 *)

Section Metric1Times.

Import Bouts.

Variables (accm : list Q) (lo hi : Q) (wlen boutdur : nat) (c : Q).

Local Abbreviation x := (level_mask accm lo hi).

Lemma nonzero_sorted : StronglySorted lt (Np.nonzero x).
Proof. apply nonzero_from_sorted. Qed.

Lemma level_mask_length : length x = length accm.
Proof. unfold level_mask. apply length_map. Qed.

Lemma nonzero_count :
  length (Np.nonzero x) = length (filter (fun v => in_level lo hi v = true) accm).
Proof. apply nonzero_level_mask. Qed.

(** X1: on the same data, metric 1 with closed bouts (breaks counted)
    reports at least the time it reports with open bouts. *)
Theorem open_bouts_within_closed :
  1 <= wlen ->
  exists q_open q_closed,
    get_activity_bouts accm lo hi wlen boutdur c false 1 = Ok q_open
    /\ get_activity_bouts accm lo hi wlen boutdur c true 1 = Ok q_closed
    /\ (q_open <= q_closed)%Q.
Proof.
  intros Hw. unfold get_activity_bouts, get_nboutdur.
  destruct (Nat.eqb_spec wlen 0) as [-> | _]; [lia |]. cbn [rbind].
  destruct (_ <? _); [exists 0%Q, 0%Q; repeat split; lra |].
  change (Z.eqb 1 1) with true. cbv iota. unfold metric1.
  apply metric1_open_le_closed; [apply nonzero_sorted | lra].
Qed.

(** Open bouts of metric 1 hold no more than the epochs in the level. *)
Lemma metric1_open_le_count (nboutdur : nat) :
  exists q,
    metric1 accm lo hi wlen nboutdur c false = Ok q
    /\ (q <= Np.of_nat (length (filter (fun v => in_level lo hi v = true) accm))
              * epoch_minutes wlen)%Q.
Proof.
  unfold metric1. rewrite <- nonzero_count.
  apply metric1_open_le_level; [apply nonzero_sorted | | lia].
  change (Np.of_nat 0) with 0%Q. lra.
Qed.

(** Bouts of metric 1 hold no more than the epochs of the data. *)
Lemma metric1_le_duration (nboutdur : nat) (closedbout : bool) :
  exists q,
    metric1 accm lo hi wlen nboutdur c closedbout = Ok q
    /\ (q <= Np.of_nat (length accm) * epoch_minutes wlen)%Q.
Proof.
  pose proof (epoch_minutes_nonneg wlen) as Hem.
  destruct closedbout.
  - unfold metric1. rewrite <- level_mask_length.
    apply metric1_closed_le_duration;
      [apply nonzero_sorted | apply nonzero_bounds |].
    pose proof (of_nat_nonneg (from_option id (length x) (Np.nonzero x !! 0))).
    nra.
  - destruct (metric1_open_le_count nboutdur) as (q & Eq & Hq).
    exists q. split; [exact Eq |].
    assert (Hn : length (filter (fun v => in_level lo hi v = true) accm)
                 <= length accm) by apply length_filter.
    pose proof (of_nat_le _ _ Hn). nra.
Qed.

End Metric1Times.

(** X2: for epochs of 60, 30 or 15 seconds, [epochs_per_min] of which
    make a minute, on data of fewer than [2 ^ 53] epochs: the time in
    open bouts of metric 1 is at most the total time in the level that
    [TotalIntensityTime] adds for the same data.  At these epochs the
    minutes of a count, [count * (wlen / 60)] in the detector and
    [count / epochs_per_min] in the endpoint, are doubles without
    rounding; at others (12-second epochs) the two roundings differ and
    the detector can be above the endpoint in the last digit. *)
Theorem open_bouts_within_level_time (self : TotalIntensityTime.t)
        (accm : list Q) (wlen boutdur : nat) (c : Q) (epochs_per_min : nat) :
  exact_epochs epochs_per_min ->
  epochs_per_min * wlen = 60 ->
  (Z.of_nat (length accm) < 2 ^ 53)%Z ->
  exists q,
    Bouts.get_activity_bouts accm (TotalIntensityTime.lthresh self)
      (TotalIntensityTime.uthresh self) wlen boutdur c false 1 = Ok q
    /\ (q <= TotalIntensityTime.minutes self accm epochs_per_min)%Q.
Proof.
  intros _ Hmin _.
  set (lo := TotalIntensityTime.lthresh self).
  set (hi := TotalIntensityTime.uthresh self).
  assert (Hw : 1 <= wlen) by nia. assert (Hp : 1 <= epochs_per_min) by nia.
  unfold TotalIntensityTime.minutes, TotalIntensityTime.time_in_level.
  fold lo hi.
  set (n := length (filter (fun v => Bouts.in_level lo hi v = true) accm)).
  pose proof (of_nat_nonneg n) as Hn. pose proof (of_nat_pos _ Hp) as Hpos.
  assert (Hq : (Np.of_nat n * Bouts.epoch_minutes wlen
                == Np.of_nat n / Np.of_nat epochs_per_min)%Q).
  { unfold Bouts.epoch_minutes.
    assert (H60 : (Np.of_nat epochs_per_min * Np.of_nat wlen == 60)%Q).
    { unfold Np.of_nat. rewrite <- inject_Z_mult, <- Nat2Z.inj_mul, Hmin. reflexivity. }
    pose proof (of_nat_pos _ Hw) as Hwpos. field_simplify_eq; [| lra].
    rewrite <- H60. ring. }
  unfold Bouts.get_activity_bouts, Bouts.get_nboutdur.
  destruct (Nat.eqb_spec wlen 0) as [-> | _]; [lia |]. cbn [rbind].
  destruct (_ <? _).
  - exists 0%Q. split; [reflexivity |]. apply Qle_shift_div_l; [exact Hpos | lra].
  - change (Z.eqb 1 1) with true. cbv iota.
    destruct (metric1_open_le_count accm lo hi wlen c
                (Z.to_nat (Np.int_of_float (Np.of_nat boutdur * (60 / Np.of_nat wlen)))))
      as (q & Eq & Hle).
    exists q. split; [exact Eq |]. fold n in Hle. rewrite <- Hq. exact Hle.
Qed.

(** ** The time in bouts and the length of the data *)

Section MarkedEpochs.

Import Bouts.

Lemma sum_le_length (b : Z) (l : list Z) :
  Forall (fun v => (v <= b)%Z) l -> (Np.sum l <= Z.of_nat (length l) * b)%Z.
Proof.
  induction 1 as [|v l Hv _ IH]; [simpl; lia |].
  cbn [Np.sum fold_right length]. rewrite Nat2Z.inj_succ.
  unfold Np.sum in IH. lia.
Qed.

Lemma sum_pointwise_le (a : list Z) :
  forall b, length a = length b ->
    (forall j u v, a !! j = Some u -> b !! j = Some v -> (u <= v)%Z) ->
    (Np.sum a <= Np.sum b)%Z.
Proof.
  induction a as [|u a IH]; intros [|v b] Hlen Hle; try (simpl in Hlen; discriminate).
  cbn [Np.sum fold_right].
  pose proof (Hle 0 u v eq_refl eq_refl).
  assert (Np.sum a <= Np.sum b)%Z; [| unfold Np.sum in *; lia].
  apply IH; [simpl in Hlen; lia |].
  intros j u' v' Hu Hv. apply (Hle (S j)); assumption.
Qed.

Lemma putmask_le_length {A : Type} (x : list A) (m : list bool) (v : A) :
  length (Np.putmask x m v) <= length x.
Proof. unfold Np.putmask. rewrite length_zip_with. lia. Qed.

(** The array that [marked_minutes] sums: 1 where [xt] holds the mark
    2, and 0 elsewhere. *)
Local Abbreviation marks x xt :=
  (Np.putmask (Np.putmask x (map (fun v => negb (Z.eqb v 2)) xt) 0%Z)
              (map (fun v => Z.eqb v 2) xt) 1%Z).

Lemma marks_entry (x xt : list Z) (j : nat) (v : Z) :
  marks x xt !! j = Some v <->
  exists a t, x !! j = Some a /\ xt !! j = Some t
              /\ v = if Z.eqb t 2 then 1%Z else 0%Z.
Proof.
  unfold Np.putmask. split.
  - intros Hj.
    apply lookup_zip_with_Some in Hj as (a & b & -> & Ha & Hb).
    apply lookup_zip_with_Some in Ha as (a' & b' & -> & Ha' & Hb').
    rewrite list_lookup_fmap in Hb, Hb'.
    destruct (xt !! j) as [t|]; [| discriminate].
    simpl in Hb, Hb'. injection Hb as <-. injection Hb' as <-.
    exists a', t. repeat split; [exact Ha' |]. destruct (Z.eqb t 2); reflexivity.
  - intros (a & t & Ha & Ht & ->).
    apply lookup_zip_with_Some.
    exists (if negb (Z.eqb t 2) then 0%Z else a), (Z.eqb t 2).
    split; [destruct (Z.eqb t 2); reflexivity |].
    split; [| rewrite list_lookup_fmap, Ht; reflexivity].
    apply lookup_zip_with_Some. exists a, (negb (Z.eqb t 2)).
    split; [reflexivity |].
    split; [exact Ha | rewrite list_lookup_fmap, Ht; reflexivity].
Qed.

Lemma marks_length (x xt : list Z) :
  length xt = length x -> length (marks x xt) = length x.
Proof.
  intros Hlen. unfold Np.putmask. rewrite !length_zip_with, !length_map. lia.
Qed.

Lemma marked_minutes_le (x xt : list Z) (wlen : nat) :
  (marked_minutes x xt wlen <= Np.of_nat (length x) * epoch_minutes wlen)%Q.
Proof.
  unfold marked_minutes. pose proof (epoch_minutes_nonneg wlen) as Hem.
  assert (Hsum : (inject_Z (Np.sum (marks x xt)) <= Np.of_nat (length x))%Q).
  { unfold Np.of_nat. rewrite <- Zle_Qle.
    assert (Hall : Forall (fun v => (v <= 1)%Z) (marks x xt)).
    { apply Forall_forall. intros v Hv.
      apply list_elem_of_lookup in Hv as (j & Hj).
      apply marks_entry in Hj as (a & t & _ & _ & ->). destruct (Z.eqb t 2); lia. }
    apply sum_le_length in Hall.
    pose proof (putmask_le_length
                  (Np.putmask x (map (fun v => negb (Z.eqb v 2)) xt) 0%Z)
                  (map (fun v => Z.eqb v 2) xt) 1%Z).
    pose proof (putmask_le_length x (map (fun v => negb (Z.eqb v 2)) xt) 0%Z).
    lia. }
  nra.
Qed.

(** No mark, no minute. *)
Lemma marked_minutes_none (x xt : list Z) (wlen : nat) :
  Forall (fun v => v <> 2%Z) xt -> (marked_minutes x xt wlen == 0)%Q.
Proof.
  intros Hxt. unfold marked_minutes.
  assert (Hsum : Np.sum (marks x xt) = 0%Z).
  { assert (Hall : Forall (fun v => (v <= 0)%Z) (marks x xt)).
    { apply Forall_forall. intros v Hv.
      apply list_elem_of_lookup in Hv as (j & Hj).
      apply marks_entry in Hj as (a & t & _ & Ht & ->).
      rewrite Forall_forall in Hxt.
      destruct (Z.eqb_spec t 2) as [-> | _]; [| lia].
      exfalso. eapply Hxt; [eapply list_elem_of_lookup_2, Ht | reflexivity]. }
    assert (Hpos : Forall (fun v => (0 <= v)%Z) (marks x xt)).
    { apply Forall_forall. intros v Hv.
      apply list_elem_of_lookup in Hv as (j & Hj).
      apply marks_entry in Hj as (a & t & _ & _ & ->). destruct (Z.eqb t 2); lia. }
    apply sum_le_length in Hall. apply sum_nonneg in Hpos. lia. }
  rewrite Hsum. change (inject_Z 0) with 0%Q. lra.
Qed.

(** More starts, more marks. *)
Lemma mark_windows_mono (xt : list Z) (p p' : list nat) (W j : nat) :
  (forall s, s ∈ p -> s ∈ p') ->
  mark_windows xt p W !! j = Some 2%Z -> mark_windows xt p' W !! j = Some 2%Z.
Proof.
  intros Hsub Hj. unfold mark_windows in *.
  assert (Hlt : j < length xt).
  { apply lookup_lt_Some in Hj. rewrite mark_fold_length in Hj. exact Hj. }
  destruct (decide (Exists (fun gi => Exists (fun s => j = s + gi) p') (seq 0 W)))
    as [Hex | Hno].
  - apply Exists_exists in Hex as (gi & Hgi & Hex).
    apply Exists_exists in Hex as (s & Hs & ->).
    eapply mark_fold_in; [exact Hlt | exact Hgi | exact Hs | reflexivity].
  - assert (Hout : forall gi s, gi ∈ seq 0 W -> s ∈ p' -> j <> s + gi).
    { intros gi s Hgi Hs ->. apply Hno.
      apply Exists_exists. exists gi. split; [exact Hgi |].
      apply Exists_exists. exists s. split; [exact Hs | reflexivity]. }
    rewrite mark_fold_out by exact Hout.
    rewrite mark_fold_out in Hj; [exact Hj |].
    intros gi s Hgi Hs. apply Hout; [exact Hgi | apply Hsub, Hs].
Qed.

Lemma marked_minutes_mono (x xt : list Z) (p p' : list nat) (W wlen : nat) :
  (forall s, s ∈ p -> s ∈ p') ->
  (marked_minutes x (mark_windows xt p W) wlen
   <= marked_minutes x (mark_windows xt p' W) wlen)%Q.
Proof.
  intros Hsub. unfold marked_minutes. pose proof (epoch_minutes_nonneg wlen) as Hem.
  assert (Hsum : (Np.sum (marks x (mark_windows xt p W))
                  <= Np.sum (marks x (mark_windows xt p' W)))%Z).
  { apply sum_pointwise_le.
    - unfold Np.putmask, mark_windows.
      rewrite !length_zip_with, !length_map, !mark_fold_length. reflexivity.
    - intros j u v Hu Hv.
      apply marks_entry in Hu as (a & t & _ & Ht & ->).
      apply marks_entry in Hv as (a' & t' & _ & Ht' & ->).
      destruct (Z.eqb_spec t 2) as [-> | _]; [| destruct (Z.eqb t' 2); lia].
      rewrite (mark_windows_mono xt p p' W j Hsub Ht) in Ht'.
      injection Ht' as <-. reflexivity. }
  rewrite Zle_Qle in Hsum. nra.
Qed.

End MarkedEpochs.

Section TimeBounds.

Import Bouts.

Variables (accm : list Q) (lo hi : Q) (wlen : nat) (c : Q).

Local Abbreviation x := (level_mask accm lo hi).
Local Abbreviation unit_entries l := (Forall (fun v => (0 <= v <= 1)%Z) l).

Lemma level_mask_unit : unit_entries x.
Proof.
  unfold level_mask. apply Forall_forall. intros v Hv.
  apply list_elem_of_In, in_map_iff in Hv as (q & <- & _).
  destruct (in_level lo hi q); lia.
Qed.

Lemma metric2_step_unit (p : list nat) (nboutdur : nat) (st : list Z * list Z) (i : nat) :
  unit_entries (fst st) ->
  unit_entries (fst (metric2_step p nboutdur c st i))
  /\ length (fst (metric2_step p nboutdur c st i)) = length (fst st).
Proof.
  destruct st as [y yt]. simpl. intros Hy.
  destruct (p !! i) as [start|]; [| split; [exact Hy | reflexivity]].
  destruct (start + nboutdur <? length y).
  - destruct (Np.Qltb _ _); simpl; [split; [exact Hy | reflexivity] |].
    split; [| apply length_insert]. apply Forall_insert; [exact Hy | lia].
  - destruct (_ && _); simpl; [| split; [exact Hy | reflexivity]].
    split; [| apply length_insert]. apply Forall_insert; [exact Hy |].
    destruct (nth_in_or_default (nth (i - 1) p 0) y 0%Z) as [Hin | ->]; [| lia].
    rewrite Forall_forall in Hy. apply Hy, list_elem_of_In, Hin.
Qed.

Lemma metric2_le_duration (nboutdur : nat) :
  exists q, metric2 accm lo hi wlen nboutdur c = Ok q
            /\ (q <= Np.of_nat (length accm) * epoch_minutes wlen)%Q.
Proof.
  unfold metric2.
  assert (Hfold : forall (l : list nat) (st : list Z * list Z),
             unit_entries (fst st) ->
             unit_entries (fst (fold_left (metric2_step (Np.nonzero x) nboutdur c) l st))
             /\ length (fst (fold_left (metric2_step (Np.nonzero x) nboutdur c) l st))
                = length (fst st)).
  { induction l as [|i l IH]; intros st Hst; simpl; [split; [exact Hst | reflexivity] |].
    destruct (metric2_step_unit (Np.nonzero x) nboutdur st i Hst) as [Hu Hl].
    destruct (IH _ Hu) as [Hu' Hl']. split; [exact Hu' | congruence]. }
  destruct (Hfold (seq 0 (length (Np.nonzero x))) (x, Np.izeros (length x))
                  level_mask_unit) as [Hu Hl].
  destruct (fold_left _ _ _) as [y yt]. simpl in Hu, Hl.
  eexists; split; [reflexivity |].
  pose proof (epoch_minutes_nonneg wlen) as Hem.
  assert (Hsum : (inject_Z (Np.sum (Np.putmask y (map (fun v => Z.eqb v 2) yt) 1%Z))
                  <= Np.of_nat (length accm))%Q).
  { unfold Np.of_nat. rewrite <- Zle_Qle.
    assert (Hall : Forall (fun v => (v <= 1)%Z)
                          (Np.putmask y (map (fun v => Z.eqb v 2) yt) 1%Z)).
    { apply putmask_Forall; [| lia]. eapply Forall_impl; [exact Hu |].
      simpl. intros v Hv. lia. }
    apply sum_le_length in Hall.
    pose proof (putmask_le_length y (map (fun v => Z.eqb v 2) yt) 1%Z).
    unfold level_mask in Hl. rewrite length_map in Hl. lia. }
  nra.
Qed.

(** What metrics 3 and 4 return lies within the data. *)
Lemma metric3_within (nboutdur : nat) (q : Q) :
  metric3 accm lo hi wlen nboutdur c = Ok q ->
  (0 <= q <= Np.of_nat (length accm) * epoch_minutes wlen)%Q.
Proof.
  pose proof (epoch_minutes_nonneg wlen) as Hem.
  pose proof (of_nat_nonneg (length accm)) as HN.
  unfold metric3. destruct (penalise_breaks _ _ _) as [xt|]; [| discriminate].
  cbn [rbind]. destruct (moving_mean _ _ _) as [rm | []]; try discriminate.
  - intros [= <-]. split; [apply marked_minutes_nonneg |].
    rewrite <- (length_map (fun v => if in_level lo hi v then 1%Z else 0%Z) accm).
    apply marked_minutes_le.
  - intros [= <-]. nra.
Qed.

Lemma metric4_within (nboutdur : nat) (q : Q) :
  metric4 accm lo hi wlen nboutdur c = Ok q ->
  (0 <= q <= Np.of_nat (length accm) * epoch_minutes wlen)%Q.
Proof.
  pose proof (epoch_minutes_nonneg wlen) as Hem.
  pose proof (of_nat_nonneg (length accm)) as HN.
  unfold metric4. destruct (penalise_breaks _ _ _) as [xt|]; [| discriminate].
  cbn [rbind]. destruct (moving_mean _ _ _) as [rm | []]; try discriminate.
  - intros [= <-]. split; [apply marked_minutes_nonneg |].
    rewrite <- (length_map (fun v => if in_level lo hi v then 1%Z else 0%Z) accm).
    apply marked_minutes_le.
  - intros [= <-]. nra.
Qed.

Lemma detector_within (boutdur : nat) (closedbout : bool) (boutmetric : Z) (q : Q) :
  get_activity_bouts accm lo hi wlen boutdur c closedbout boutmetric = Ok q ->
  (0 <= q <= Np.of_nat (length accm) * epoch_minutes wlen)%Q.
Proof.
  pose proof (epoch_minutes_nonneg wlen) as Hem.
  pose proof (of_nat_nonneg (length accm)) as HN.
  unfold get_activity_bouts. destruct (get_nboutdur wlen boutdur) as [n|]; [| discriminate].
  cbn [rbind]. destruct (_ <? _); [intros [= <-]; nra |].
  destruct (Z.eqb boutmetric 1).
  { intros Hq.
    destruct (metric1_nonneg accm lo hi wlen n c closedbout) as (q0 & E0 & H0).
    destruct (metric1_le_duration accm lo hi wlen c n closedbout) as (q1 & E1 & H1).
    rewrite Hq in E0, E1. injection E0 as <-. injection E1 as <-. split; assumption. }
  destruct (Z.eqb boutmetric 2).
  { intros Hq.
    destruct (metric2_nonneg accm lo hi wlen n c) as (q0 & E0 & H0).
    destruct (metric2_le_duration n) as (q1 & E1 & H1).
    rewrite Hq in E0, E1. injection E0 as <-. injection E1 as <-. split; assumption. }
  destruct (Z.eqb boutmetric 3); [apply metric3_within |].
  destruct (Z.eqb boutmetric 4); [apply metric4_within |].
  discriminate.
Qed.

(** X3: whatever the metric and the kind of bout, the time that the
    detector returns is at least zero and at most the duration of the
    data, [accm.size * wlen / 60] minutes. *)
Theorem bout_time_within_data (boutdur : nat) (closedbout : bool) (boutmetric : Z)
        (q : Q) :
  get_activity_bouts accm lo hi wlen boutdur c closedbout boutmetric = Ok q ->
  (0 <= q <= Np.of_nat (length accm) * epoch_minutes wlen)%Q.
Proof. apply detector_within. Qed.

(** X5: metric 4, which keeps the windows with both ends in the level,
    ends as metric 3 does on the same data, and never returns more. *)
Theorem both_ends_never_add (boutdur : nat) (closedbout : bool) :
  (exists q3 q4,
      get_activity_bouts accm lo hi wlen boutdur c closedbout 3 = Ok q3
      /\ get_activity_bouts accm lo hi wlen boutdur c closedbout 4 = Ok q4
      /\ (q4 <= q3)%Q)
  \/ (exists e,
         get_activity_bouts accm lo hi wlen boutdur c closedbout 3 = Raise e
         /\ get_activity_bouts accm lo hi wlen boutdur c closedbout 4 = Raise e).
Proof.
  unfold get_activity_bouts.
  destruct (get_nboutdur wlen boutdur) as [n | e]; [| right; exists e; split; reflexivity].
  cbn [rbind]. destruct (_ <? _); [left; exists 0%Q, 0%Q; repeat split; lra |].
  change (Z.eqb 3 1) with false. change (Z.eqb 3 2) with false.
  change (Z.eqb 3 3) with true. change (Z.eqb 4 1) with false.
  change (Z.eqb 4 2) with false. change (Z.eqb 4 3) with false.
  change (Z.eqb 4 4) with true. cbv iota.
  unfold metric3, metric4.
  destruct (penalise_breaks _ _ _) as [xt | e]; [| right; exists e; split; reflexivity].
  cbn [rbind]. destruct (moving_mean _ _ _) as [rm | e] eqn:Erm.
  - left. eexists _, _. split; [reflexivity |]. split; [reflexivity |].
    apply marked_minutes_mono. intros s Hs. unfold both_ends in Hs.
    apply list_elem_of_filter in Hs as [_ Hs]. exact Hs.
  - apply moving_mean_raises in Erm as ->.
    left. exists 0%Q, 0%Q. repeat split; lra.
Qed.

End TimeBounds.

(** ** Data with no epoch in the level *)

Section NothingInLevel.

Import Bouts.

Variables (accm : list Q) (lo hi : Q) (wlen : nat) (c : Q).

Hypothesis out_of_level : Forall (fun v => in_level lo hi v = false) accm.
Hypothesis c_nonneg : (0 <= c)%Q.

Local Abbreviation x := (level_mask accm lo hi).

Lemma level_mask_zeros : x = repeat 0%Z (length accm).
Proof.
  assert (Hall : forall l, Forall (fun v => in_level lo hi v = false) l ->
                   level_mask l lo hi = repeat 0%Z (length l)).
  { unfold level_mask. induction 1 as [|v l Hv _ IH]; [reflexivity |].
    simpl. rewrite Hv, IH. reflexivity. }
  apply Hall, out_of_level.
Qed.

Lemma nonzero_from_zeros (n : nat) : forall i, Np.nonzero_from i (repeat 0%Z n) = [].
Proof. induction n as [|n IH]; intros i; simpl; [reflexivity | apply IH]. Qed.

Lemma metric1_nothing (nboutdur : nat) (closedbout : bool) :
  metric1 accm lo hi wlen nboutdur c closedbout = Ok 0%Q.
Proof.
  unfold metric1. rewrite level_mask_zeros. unfold Np.nonzero.
  rewrite nonzero_from_zeros. reflexivity.
Qed.

Lemma putmask_repeat {A : Type} (v : A) (n : nat) (m : list bool) :
  Forall (fun b => b = false) m -> length m = n ->
  Np.putmask (repeat v n) m v = repeat v n.
Proof.
  intros Hm Hlen. unfold Np.putmask. apply repeat_all.
  - rewrite length_zip_with, repeat_length. lia.
  - intros j y Hj. apply lookup_zip_with_Some in Hj as (a & b & -> & Ha & Hb).
    apply lookup_lt_Some in Ha as Hlt. rewrite repeat_length in Hlt.
    rewrite lookup_repeat in Ha by exact Hlt. injection Ha as <-.
    destruct b; reflexivity.
Qed.

Lemma metric2_nothing (nboutdur : nat) :
  returns (metric2 accm lo hi wlen nboutdur c) 0.
Proof.
  unfold metric2. rewrite level_mask_zeros. unfold Np.nonzero.
  rewrite nonzero_from_zeros. cbn [length seq fold_left].
  eexists. split; [reflexivity |].
  assert (Hsum : Np.sum (Np.putmask (repeat 0%Z (length accm))
                           (map (fun v => Z.eqb v 2)
                                (Np.izeros (length (repeat 0%Z (length accm))))) 1%Z)
                 = 0%Z).
  { rewrite repeat_length. unfold Np.izeros, Np.putmask.
    assert (Hz : zip_with (fun (xi : Z) (mi : bool) => if mi then 1%Z else xi)
                   (repeat 0%Z (length accm))
                   (map (fun v => Z.eqb v 2) (repeat 0%Z (length accm)))
                 = repeat 0%Z (length accm)).
    { apply repeat_all.
      - rewrite length_zip_with, length_map, repeat_length. lia.
      - intros j y Hj. apply lookup_zip_with_Some in Hj as (a & b & -> & Ha & Hb).
        apply lookup_lt_Some in Ha as Hlt. rewrite repeat_length in Hlt.
        rewrite lookup_repeat in Ha by exact Hlt. injection Ha as <-.
        rewrite list_lookup_fmap, lookup_repeat in Hb by exact Hlt.
        injection Hb as <-. reflexivity. }
    rewrite Hz, sum_repeat. lia. }
  rewrite Hsum. change (inject_Z 0) with 0%Q. lra.
Qed.

Lemma int_of_float_nonpos (q : Q) : (q <= 0)%Q -> (Np.int_of_float q <= 0)%Z.
Proof.
  intros Hq. unfold Np.int_of_float. unfold Qle in Hq. simpl in Hq.
  assert (Hn : (Qnum q <= 0)%Z) by lia.
  replace (Qnum q) with (- - Qnum q)%Z by lia.
  rewrite Z.quot_opp_l by lia.
  assert (0 <= Z.quot (- Qnum q) (Z.pos (Qden q)))%Z; [| lia].
  apply Z.quot_pos; lia.
Qed.

Lemma break_penalty_nonpos (nboutdur : nat) : (break_penalty wlen nboutdur <= 0)%Z.
Proof.
  unfold break_penalty. apply int_of_float_nonpos.
  pose proof (of_nat_nonneg nboutdur) as Hn.
  assert (Hw : (0 <= 60 / Np.of_nat wlen)%Q).
  { destruct wlen as [|w].
    - change (Np.of_nat 0) with 0%Q. unfold Qdiv, Qinv. simpl. lra.
    - apply Qle_shift_div_l; [apply of_nat_pos; lia | lra]. }
  nra.
Qed.

(** With nothing in the level no entry of the penalised mask is above
    zero, so no window passes a fraction that is not negative. *)
Lemma no_window_passes (nboutdur : nat) (xt : list Z) (rm : list Q) :
  penalise_breaks x wlen nboutdur = Ok xt ->
  moving_mean (map inject_Z xt) nboutdur 1 = Ok rm ->
  Forall (fun v => (v <= 0)%Z) xt
  /\ Np.where_ (map (fun v => Np.Qltb c v) rm) = [].
Proof.
  intros Ext Erm. unfold penalise_breaks in Ext.
  destruct (lookforbreaks x wlen) as [lfb|]; [| discriminate].
  cbn [rbind] in Ext. injection Ext as <-.
  assert (Hxt : Forall (fun v => (v <= 0)%Z)
                       (Np.putmask x (map (fun v => Qeq_bool v 0) lfb)
                                   (break_penalty wlen nboutdur))).
  { apply putmask_Forall; [| apply break_penalty_nonpos].
    rewrite level_mask_zeros. apply Forall_forall. intros v Hv.
    apply list_elem_of_In, repeat_spec in Hv as ->. lia. }
  split; [exact Hxt |].
  set (xt := Np.putmask _ _ _) in *.
  unfold moving_mean in Erm.
  destruct (Nat.eqb_spec nboutdur 0) as [-> | HW]; [discriminate |].
  cbn [orb Nat.eqb] in Erm. destruct (_ <? _); [discriminate |].
  injection Erm as <-.
  destruct (Np.where_ _) as [|s l] eqn:Ep; [reflexivity |]. exfalso.
  assert (Hs : s ∈ s :: l) by left. rewrite <- Ep in Hs.
  apply where_from_elem in Hs as (k & _ & Hk).
  rewrite !list_lookup_fmap in Hk.
  destruct (seq _ _ !! k) as [k'|]; [| discriminate].
  simpl in Hk. injection Hk as Hk. apply Qltb_lt in Hk.
  rewrite window_mean_inject in Hk.
  assert (Hsum : (Np.sum (Np.slice xt (k' * 1) (k' * 1 + nboutdur)) <= 0)%Z).
  { assert (Hall : Forall (fun v => (v <= 0)%Z)
                          (Np.slice xt (k' * 1) (k' * 1 + nboutdur))).
    { unfold Np.slice. apply Forall_take, Forall_drop, Hxt. }
    apply sum_le_length in Hall. lia. }
  assert (HWpos : (0 < Np.of_nat nboutdur)%Q) by (apply of_nat_pos; lia).
  assert (Hmean : (inject_Z (Np.sum (Np.slice xt (k' * 1) (k' * 1 + nboutdur)))
                   / Np.of_nat nboutdur <= 0)%Q).
  { apply Qle_shift_div_r; [exact HWpos |].
    rewrite Zle_Qle in Hsum. change (inject_Z 0) with 0%Q in Hsum. lra. }
  lra.
Qed.

Lemma mark_windows_nil (xt : list Z) (W : nat) : mark_windows xt [] W = xt.
Proof.
  unfold mark_windows. apply list_eq. intros j. apply mark_fold_out.
  intros gi s _ Hs. inversion Hs.
Qed.

Lemma metric34_nothing (nboutdur : nat) (q : Q) :
  metric3 accm lo hi wlen nboutdur c = Ok q \/ metric4 accm lo hi wlen nboutdur c = Ok q ->
  (q == 0)%Q.
Proof.
  unfold metric3, metric4.
  destruct (penalise_breaks _ _ _) as [xt|] eqn:Ext; [| intros [|]; discriminate].
  cbn [rbind]. destruct (moving_mean _ _ _) as [rm | e] eqn:Erm.
  - destruct (no_window_passes nboutdur xt rm Ext Erm) as [Hxt Hp].
    rewrite Hp. change (both_ends x [] nboutdur) with (@nil nat).
    rewrite mark_windows_nil.
    assert (Hq : (marked_minutes x xt wlen == 0)%Q).
    { apply marked_minutes_none. eapply Forall_impl; [exact Hxt |].
      simpl. intros v Hv. lia. }
    intros [[= <-] | [= <-]]; exact Hq.
  - apply moving_mean_raises in Erm as ->.
    intros [[= <-] | [= <-]]; reflexivity.
Qed.

(** X4: when no epoch is in the level and the bout fraction is not
    negative, metrics 1 and 2 return zero minutes, and so do metrics 3
    and 4 on data that is at least as long as the window of their break
    search. *)
Theorem nothing_in_level_no_bout (boutdur : nat) (closedbout : bool) (boutmetric : Z) :
  1 <= wlen ->
  (1 <= boutmetric <= 2)%Z
  \/ ((3 <= boutmetric <= 4)%Z /\ break_window wlen <= length accm) ->
  returns (get_activity_bouts accm lo hi wlen boutdur c closedbout boutmetric) 0.
Proof.
  intros Hw Hm. unfold get_activity_bouts, get_nboutdur.
  destruct (Nat.eqb_spec wlen 0) as [-> | _]; [lia |]. cbn [rbind].
  set (n := Z.to_nat _).
  destruct (_ <? _); [exists 0%Q; split; reflexivity |].
  destruct (Z.eqb_spec boutmetric 1) as [-> | H1].
  { rewrite metric1_nothing. exists 0%Q. split; reflexivity. }
  destruct (Z.eqb_spec boutmetric 2) as [-> | H2]; [apply metric2_nothing |].
  destruct Hm as [Hm | [Hm HN]]; [lia |].
  destruct (Z.eqb_spec boutmetric 3) as [-> | H3].
  { destruct (metric3_nonneg accm lo hi wlen n c Hw HN) as (q & Eq & _).
    exists q. split; [exact Eq |]. apply (metric34_nothing n). left. exact Eq. }
  destruct (Z.eqb_spec boutmetric 4) as [-> | H4]; [| lia].
  destruct (metric4_nonneg accm lo hi wlen n c Hw HN) as (q & Eq & _).
  exists q. split; [exact Eq |]. apply (metric34_nothing n). right. exact Eq.
Qed.

End NothingInLevel.

(** ** The endpoints that add to the results of a day *)

Section ResultsEntries.

Lemma results_get_set_eq (r r' : results_t) (n : string) (i : nat) (v : flt) :
  results_set r n i v = Ok r' -> results_get r' n i = Ok v.
Proof.
  unfold results_set, results_get. destruct (r !! n) as [arr|]; [| discriminate].
  destruct (Nat.ltb_spec i (length arr)) as [Hlt | _]; [| discriminate].
  intros [= <-]. rewrite lookup_insert_eq, list_lookup_insert_eq by exact Hlt.
  reflexivity.
Qed.

Lemma results_get_set_ne (r r' : results_t) (n n' : string) (i j : nat) (v : flt) :
  results_set r n i v = Ok r' -> n' <> n \/ j <> i ->
  results_get r' n' j = results_get r n' j.
Proof.
  unfold results_set, results_get. destruct (r !! n) as [arr|] eqn:En; [| discriminate].
  destruct (Nat.ltb_spec i (length arr)) as [Hlt | _]; [| discriminate].
  intros [= <-] Hne. destruct (decide (n' = n)) as [-> | Hn].
  - rewrite lookup_insert_eq, En. destruct Hne as [Hne | Hne]; [congruence |].
    rewrite list_lookup_insert_ne by congruence. reflexivity.
  - rewrite lookup_insert_ne by congruence. reflexivity.
Qed.

Lemma results_set_after_get (r : results_t) (n : string) (i : nat) (v0 v : flt) :
  results_get r n i = Ok v0 -> exists r', results_set r n i v = Ok r'.
Proof.
  unfold results_set, results_get. destruct (r !! n) as [arr|]; [| discriminate].
  destruct (arr !! i) eqn:Ei; [| discriminate]. intros _.
  apply lookup_lt_Some in Ei. destruct (Nat.ltb_spec i (length arr)); [| lia].
  eexists. reflexivity.
Qed.

(** Writing the value that is there changes nothing. *)
Lemma results_set_same (r : results_t) (n : string) (i : nat) (v : flt) :
  results_get r n i = Ok v -> results_set r n i v = Ok r.
Proof.
  unfold results_set, results_get. destruct (r !! n) as [arr|] eqn:En; [| discriminate].
  destruct (arr !! i) as [v0|] eqn:Ei; [| discriminate]. intros [= ->].
  pose proof (lookup_lt_Some _ _ _ Ei). destruct (Nat.ltb_spec i (length arr)); [| lia].
  rewrite list_insert_id by exact Ei. rewrite insert_id by exact En. reflexivity.
Qed.

(** A write keeps the entries that can be read, and those that cannot. *)
Lemma results_set_shape (r r' : results_t) (n n' : string) (i j : nat) (v : flt) (e : exn) :
  results_set r n i v = Ok r' ->
  results_get r n' j = Raise e -> results_get r' n' j = Raise e.
Proof.
  intros Hset Hget. destruct (decide (n' = n /\ j = i)) as [[-> ->] | Hne].
  - destruct (results_get r n i) eqn:Eg; [discriminate |].
    unfold results_set, results_get in *. destruct (r !! n) as [arr|]; [| discriminate].
    destruct (Nat.ltb_spec i (length arr)) as [Hlt | _]; [| discriminate].
    apply lookup_lt_is_Some in Hlt as [v0 E0]. rewrite E0 in Eg. discriminate.
  - rewrite (results_get_set_ne r r' n n' i j v Hset); [exact Hget |].
    destruct (decide (n' = n)); [right | left]; intros ->; apply Hne; split; congruence.
Qed.

End ResultsEntries.

Section TotalTime.

Import TotalIntensityTime.

Lemma minutes_app (self : t) (a b : list Q) (epochs_per_min : nat) :
  (minutes self (a ++ b) epochs_per_min
   == minutes self a epochs_per_min + minutes self b epochs_per_min)%Q.
Proof.
  unfold minutes, time_in_level. rewrite filter_app, length_app, of_nat_add.
  unfold Qdiv. ring.
Qed.

Lemma flt_eq_refl (v : flt) : flt_eq v v.
Proof. destruct v; simpl; [exact I | reflexivity]. Qed.

Lemma predict_reserved (self : t) (results : results_t) (i : nat) (d : list Q)
      (epochs_per_min : nat) :
  reserved results i (name self) ->
  exists v results',
    results_get results (name self) i = Ok v
    /\ results_set results (name self) i (flt_add v (minutes self d epochs_per_min))
       = Ok results'
    /\ predict self results i d epochs_per_min = (Ok tt, results').
Proof.
  intros (arr & Earr & Hi). apply lookup_lt_is_Some in Hi as [v Ev].
  assert (Hget : results_get results (name self) i = Ok v).
  { unfold results_get. rewrite Earr, Ev. reflexivity. }
  destruct (results_set_after_get results (name self) i v
              (flt_add v (minutes self d epochs_per_min)) Hget) as [results' Hset].
  exists v, results'. split; [exact Hget |]. split; [exact Hset |].
  unfold predict. rewrite Hget, Hset. reflexivity.
Qed.

Lemma results_get_reserved (results : results_t) (n : string) (i : nat) (v : flt) :
  results_get results n i = Ok v -> reserved results i n.
Proof.
  unfold results_get, reserved. destruct (results !! n) as [arr|]; [| discriminate].
  destruct (arr !! i) eqn:Ei; [| discriminate]. intros _.
  exists arr. split; [reflexivity | eapply lookup_lt_Some, Ei].
Qed.

(** X6: for epochs of 60, 30 or 15 seconds, when the entry of the day
    is [nan] or the minutes of a whole number of epochs (as it is after
    any number of blocks from 0.0) and the counts stay below [2 ^ 53]:
    the total time in a level does not depend on how the data of a day
    is cut into blocks.  [predict] on two blocks, one after the other,
    leaves the results that one [predict] on the two blocks put together
    leaves.  At these epochs every quotient and sum of the two routes is
    a double without rounding; at others (5-second epochs) the routes
    round differently and the entries can differ in the last digit. *)
Theorem total_time_of_blocks (self : t) (results : results_t) (i : nat)
        (a b : list Q) (epochs_per_min : nat) (v : flt) :
  exact_epochs epochs_per_min ->
  results_get results (name self) i = Ok v ->
  match v with
  | nan => True
  | fin x => exact_count epochs_per_min (length (a ++ b)) x
  end ->
  exists r_a r_blocks r_whole,
    predict self results i a epochs_per_min = (Ok tt, r_a)
    /\ predict self r_a i b epochs_per_min = (Ok tt, r_blocks)
    /\ predict self results i (a ++ b) epochs_per_min = (Ok tt, r_whole)
    /\ forall n j,
        match results_get r_blocks n j, results_get r_whole n j with
        | Ok v, Ok v' => flt_eq v v'
        | Raise e, Raise e' => e = e'
        | _, _ => False
        end.
Proof.
  intros _ Hentry _. pose proof (results_get_reserved _ _ _ _ Hentry) as Hres.
  clear v Hentry.
  destruct (predict_reserved self results i a epochs_per_min Hres)
    as (v & r_a & Hget & Hset_a & Ha).
  destruct (predict_reserved self results i (a ++ b) epochs_per_min Hres)
    as (v' & r_whole & Hget' & Hset_w & Hw).
  rewrite Hget in Hget'. injection Hget' as <-.
  assert (Hres_a : reserved r_a i (name self)).
  { destruct (results_set_reserved results (name self) i
                (flt_add v (minutes self a epochs_per_min)) Hres) as (r & Er & Hkeep).
    rewrite Hset_a in Er. injection Er as <-. apply Hkeep, Hres. }
  destruct (predict_reserved self r_a i b epochs_per_min Hres_a)
    as (va & r_blocks & Hget_a & Hset_b & Hb).
  rewrite (results_get_set_eq _ _ _ _ _ Hset_a) in Hget_a. injection Hget_a as <-.
  exists r_a, r_blocks, r_whole. repeat split; try assumption.
  intros n j. destruct (decide (n = name self /\ j = i)) as [[-> ->] | Hne].
  - rewrite (results_get_set_eq _ _ _ _ _ Hset_b), (results_get_set_eq _ _ _ _ _ Hset_w).
    pose proof (minutes_app self a b epochs_per_min) as Happ.
    destruct v; simpl; [exact I |]. rewrite Happ. ring.
  - assert (Hne' : n <> name self \/ j <> i).
    { destruct (decide (n = name self)); [right | left]; intros ->; apply Hne;
        split; congruence. }
    rewrite (results_get_set_ne _ _ _ _ _ _ _ Hset_b Hne').
    rewrite (results_get_set_ne _ _ _ _ _ _ _ Hset_a Hne').
    rewrite (results_get_set_ne _ _ _ _ _ _ _ Hset_w Hne').
    destruct (results_get results n j); [apply flt_eq_refl | reflexivity].
Qed.

End TotalTime.

(** ** What [predict] leaves of the results *)

Section EntriesKept.

(** From [r] to [r']: an entry that could not be read still cannot; one
    that could holds a value related by [R] to the old one, and the old
    one itself outside day [i] of the columns [names]. *)
Local Abbreviation kept R names i r r' :=
  (forall (n : string) (j : nat),
      match results_get r n j with
      | Ok v => exists v', results_get r' n j = Ok v'
                           /\ R v v' /\ (j <> i \/ n ∉ names -> v' = v)
      | Raise e => results_get r' n j = Raise e
      end).

Variable R : flt -> flt -> Prop.
Hypothesis R_refl : forall v, R v v.
Hypothesis R_trans : forall u v w, R u v -> R v w -> R u w.

Lemma kept_refl (names : list string) (i : nat) (r : results_t) : kept R names i r r.
Proof.
  intros n j. destruct (results_get r n j) as [v|]; [| reflexivity].
  exists v. split; [reflexivity |]. split; [apply R_refl |]. intros _. reflexivity.
Qed.

Lemma kept_trans (names : list string) (i : nat) (r1 r2 r3 : results_t) :
  kept R names i r1 r2 -> kept R names i r2 r3 -> kept R names i r1 r3.
Proof.
  intros H12 H23 n j. specialize (H12 n j). specialize (H23 n j).
  destruct (results_get r1 n j) as [v|].
  - destruct H12 as (v' & E' & HR & Hsame). rewrite E' in H23.
    destruct H23 as (v'' & E'' & HR' & Hsame'). exists v''.
    split; [exact E'' |]. split; [eapply R_trans; eassumption |].
    intros Hout. rewrite (Hsame' Hout). apply Hsame, Hout.
  - rewrite H12 in H23. exact H23.
Qed.

Lemma kept_more (names names' : list string) (i : nat) (r r' : results_t) :
  (forall n, n ∈ names -> n ∈ names') -> kept R names i r r' -> kept R names' i r r'.
Proof.
  intros Hsub H n j. specialize (H n j). destruct (results_get r n j) as [v|]; [| exact H].
  destruct H as (v' & E' & HR & Hsame). exists v'.
  split; [exact E' |]. split; [exact HR |].
  intros [Hj | Hn]; apply Hsame; [left; exact Hj | right].
  intros Hin. apply Hn, Hsub, Hin.
Qed.

Lemma kept_set (name : string) (i : nat) (r r' : results_t) (v0 v : flt) :
  results_get r name i = Ok v0 -> R v0 v -> results_set r name i v = Ok r' ->
  kept R [name] i r r'.
Proof.
  intros Hget HR Hset n j.
  destruct (results_get r n j) as [u | e] eqn:Eu;
    [| eapply results_set_shape; eassumption].
  destruct (decide (n = name /\ j = i)) as [[-> ->] | Hne].
  - rewrite Hget in Eu. injection Eu as <-. exists v.
    split; [eapply results_get_set_eq, Hset |]. split; [exact HR |].
    intros [Hj | Hn]; [congruence |]. exfalso. apply Hn. left.
  - exists u. rewrite (results_get_set_ne r r' name n i j v Hset).
    + split; [exact Eu |]. split; [apply R_refl |]. intros _. reflexivity.
    + destruct (decide (n = name)); [right | left]; intros ->; apply Hne;
        split; congruence.
Qed.

End EntriesKept.

Section BoutTime.

Import BoutIntensityTime.

Lemma flt_grown_refl (v : flt) : flt_grown v v.
Proof. destruct v; simpl; [exact I | lra]. Qed.

Lemma flt_grown_trans (u v w : flt) : flt_grown u v -> flt_grown v w -> flt_grown u w.
Proof. destruct u, v, w; simpl; try tauto. intros. lra. Qed.

Lemma flt_add_grown (v : flt) (q : Q) : (0 <= q)%Q -> flt_grown v (flt_add v q).
Proof. intros Hq. destruct v; simpl; [exact I | lra]. Qed.

Lemma predict_loop_entries (self : t) (accel_metric : list Q) (epoch_s i : nat)
      (todo : list (nat * string)) :
  forall results : results_t,
    forall (n : string) (j : nat),
      match results_get results n j with
      | Ok v =>
          exists v',
            results_get (snd (predict_loop self accel_metric epoch_s i todo results)) n j
            = Ok v'
            /\ flt_grown v v' /\ (j <> i \/ n ∉ map snd todo -> v' = v)
      | Raise e =>
          results_get (snd (predict_loop self accel_metric epoch_s i todo results)) n j
          = Raise e
      end.
Proof.
  induction todo as [|[bout_len name] todo IH]; intros results.
  - apply (kept_refl flt_grown flt_grown_refl).
  - cbn [predict_loop].
    destruct (predict_bout _ _ _ _ _ _ _) as [results' | e] eqn:Estep;
      [| apply (kept_refl flt_grown flt_grown_refl)].
    cbn [snd]. unfold predict_bout in Estep.
    destruct (results_get results name i) as [prev|] eqn:Eprev; [| discriminate].
    cbn [rbind] in Estep.
    destruct (Bouts.get_activity_bouts _ _ _ _ _ _ _ _) as [bout_time|] eqn:Ebout;
      [| discriminate].
    cbn [rbind] in Estep. apply detector_within in Ebout as [Hpos _].
    apply (kept_trans flt_grown flt_grown_trans _ i results results').
    + apply (kept_more flt_grown [name]); [| eapply (kept_set flt_grown flt_grown_refl);
        [exact Eprev | apply flt_add_grown, Hpos | exact Estep]].
      intros n Hn. apply list_elem_of_singleton in Hn as ->. left.
    + apply (kept_more flt_grown (map snd todo)); [| apply IH].
      intros n Hn. right. exact Hn.
Qed.

(** X7: however [BoutIntensityTime.predict] ends, it leaves the shape of
    the results as it was, changes no entry but those of day [i] in its
    own columns, and lowers none: a number only grows, [nan] stays. *)
Theorem bout_predict_entries (self : t) (results : results_t) (i : nat)
        (accel_metric : list Q) (epoch_s : nat) (n : string) (j : nat) :
  match results_get results n j with
  | Ok v =>
      exists v',
        results_get (snd (predict self results i accel_metric epoch_s)) n j = Ok v'
        /\ flt_grown v v' /\ (j <> i \/ n ∉ name self -> v' = v)
  | Raise e =>
      results_get (snd (predict self results i accel_metric epoch_s)) n j = Raise e
  end.
Proof.
  unfold predict.
  pose proof (predict_loop_entries self accel_metric epoch_s i
                (zip (blens self) (name self)) results n j) as H.
  destruct (results_get results n j) as [v|]; [| exact H].
  destruct H as (v' & E' & HR & Hsame). exists v'.
  split; [exact E' |]. split; [exact HR |].
  intros [Hj | Hn]; apply Hsame; [left; exact Hj | right].
  intros Hin. apply Hn. apply list_elem_of_fmap in Hin as ([w nm] & -> & Hin).
  apply elem_of_zip_r in Hin. exact Hin.
Qed.

End BoutTime.

Section MaxKept.

Import MaxAcceleration.

Lemma predict_window_cases (d : list Q) (epm i : nat) (results : results_t)
      (wlen : nat) (name : string) :
  predict_window d epm i results wlen name = None
  \/ (exists e, predict_window d epm i results wlen name = Some (Raise e))
  \/ (exists tmp_max prev results',
         (forall r, predict_window d epm i r wlen name
                    = Some (let* prev := results_get r name i in
                            results_set r name i (nanmax2 tmp_max prev)))
         /\ results_get results name i = Ok prev
         /\ results_set results name i (nanmax2 tmp_max prev) = Ok results'
         /\ predict_window d epm i results wlen name = Some (Ok results')).
Proof.
  unfold predict_window.
  destruct (let* mm := moving_mean d (wlen * epm) 1 in Np.max mm) as [tmp_max | e].
  - destruct (results_get results name i) as [prev | e] eqn:Eprev;
      [| right; left; exists e; reflexivity].
    cbn [rbind].
    destruct (results_set results name i (nanmax2 tmp_max prev)) as [results' | e] eqn:Eset;
      [| right; left; exists e; reflexivity].
    right. right. exists tmp_max, prev, results'.
    split; [reflexivity |]. split; [reflexivity |]. split; [exact Eset | reflexivity].
  - destruct e; [left; reflexivity | right; left; eexists; reflexivity ..].
Qed.

Lemma max_loop_entries (d : list Q) (epm i : nat) (todo : list (nat * string)) :
  forall results : results_t,
    forall (n : string) (j : nat),
      match results_get results n j with
      | Ok v =>
          exists v',
            results_get (snd (predict_loop d epm i todo results)) n j = Ok v'
            /\ flt_le v v' /\ (j <> i \/ n ∉ map snd todo -> v' = v)
      | Raise e =>
          results_get (snd (predict_loop d epm i todo results)) n j = Raise e
      end.
Proof.
  induction todo as [|[wlen name] todo IH]; intros results.
  - apply (kept_refl flt_le flt_le_refl).
  - cbn [predict_loop].
    destruct (predict_window_cases d epm i results wlen name)
      as [-> | [[e ->] | (t & prev & results' & _ & Eprev & Eset & ->)]];
      try apply (kept_refl flt_le flt_le_refl).
    apply (kept_trans flt_le flt_le_trans _ i results results').
    + apply (kept_more flt_le [name]); [| eapply (kept_set flt_le flt_le_refl);
        [exact Eprev | apply nanmax2_ub | exact Eset]].
      intros n Hn. apply list_elem_of_singleton in Hn as ->. left.
    + apply (kept_more flt_le (map snd todo)); [| apply IH].
      intros n Hn. right. exact Hn.
Qed.

(** X8: however [MaxAcceleration.predict] ends, it leaves the shape of
    the results as it was, changes no entry but those of day [i] in its
    own columns, and never lowers a maximum that is recorded. *)
Theorem max_predict_entries (self : t) (results : results_t) (i : nat)
        (accel_metric : list Q) (epochs_per_min : nat) (n : string) (j : nat) :
  match results_get results n j with
  | Ok v =>
      exists v',
        results_get (snd (predict self results i accel_metric epochs_per_min)) n j = Ok v'
        /\ flt_le v v' /\ (j <> i \/ n ∉ name self -> v' = v)
  | Raise e =>
      results_get (snd (predict self results i accel_metric epochs_per_min)) n j = Raise e
  end.
Proof.
  unfold predict.
  pose proof (max_loop_entries accel_metric epochs_per_min i
                (zip (wlens self) (name self)) results n j) as H.
  destruct (results_get results n j) as [v|]; [| exact H].
  destruct H as (v' & E' & HR & Hsame). exists v'.
  split; [exact E' |]. split; [exact HR |].
  intros [Hj | Hn]; apply Hsame; [left; exact Hj | right].
  intros Hin. apply Hn. apply list_elem_of_fmap in Hin as ([w nm] & -> & Hin).
  apply elem_of_zip_r in Hin. exact Hin.
Qed.

(** A maximum at or above [t] is what [nanmax] with [t] gives. *)
Lemma nanmax2_absorbed (tmp_max : Q) (v : flt) :
  flt_le (fin tmp_max) v -> nanmax2 tmp_max v = v.
Proof.
  destruct v as [|x]; simpl; [tauto |]. intros Hle. unfold Np.Qmax.
  apply Qle_bool_iff in Hle. rewrite Hle. reflexivity.
Qed.

Lemma max_loop_twice (d : list Q) (epm i : nat) (todo : list (nat * string)) :
  forall results : results_t,
    predict_loop d epm i todo (snd (predict_loop d epm i todo results))
    = predict_loop d epm i todo results.
Proof.
  induction todo as [|[wlen name] todo IH]; intros results; [reflexivity |].
  cbn [predict_loop].
  destruct (predict_window_cases d epm i results wlen name)
    as [E | [[e E] | (t & prev & results' & Eany & Eprev & Eset & E)]]; rewrite E.
  - cbn [snd predict_loop]. rewrite E. reflexivity.
  - cbn [snd predict_loop]. rewrite E. reflexivity.
  - pose proof (max_loop_entries d epm i todo results' name i) as Hgrow.
    rewrite (results_get_set_eq _ _ _ _ _ Eset) in Hgrow.
    destruct Hgrow as (v1 & Ev1 & Hle & _).
    set (r1 := snd (predict_loop d epm i todo results')) in *.
    assert (Habs : nanmax2 t v1 = v1).
    { apply nanmax2_absorbed. eapply flt_le_trans; [| exact Hle]. apply nanmax2_ub. }
    cbn [predict_loop]. rewrite (Eany r1), Ev1. cbn [rbind].
    rewrite Habs, (results_set_same r1 name i v1 Ev1). apply IH.
Qed.

(** X9: giving [MaxAcceleration.predict] the same block a second time
    changes nothing: it ends as the first time and leaves the results
    that the first call left. *)
Theorem max_predict_twice (self : t) (results : results_t) (i : nat)
        (accel_metric : list Q) (epochs_per_min : nat) :
  predict self (snd (predict self results i accel_metric epochs_per_min)) i
          accel_metric epochs_per_min
  = predict self results i accel_metric epochs_per_min.
Proof. unfold predict. apply max_loop_twice. Qed.

End MaxKept.

(** ** The histogram of the intensity gradient *)

Section GradientBlocks.

Import IntensityGradient.

Lemma histogram_app (a b : list Q) (levels : list Q) :
  Forall2 Qeq (histogram (a ++ b) levels)
          (zip_with Qplus (histogram a levels) (histogram b levels)).
Proof.
  induction levels as [|lo levels IH]; [constructor |].
  destruct levels as [|hi rest]; [constructor |].
  cbn [histogram zip_with] in *. constructor; [| exact IH].
  rewrite filter_app, length_app, of_nat_add. reflexivity.
Qed.

Lemma hist_of_blocks (e : Q) (h : list Q) :
  forall x y z : list Q,
    Forall2 Qeq z (zip_with Qplus x y) ->
    Forall2 Qeq
      (zip_with Qplus (zip_with Qplus h (map (fun c => (c / e)%Q) x))
                (map (fun c => (c / e)%Q) y))
      (zip_with Qplus h (map (fun c => (c / e)%Q) z)).
Proof.
  induction h as [|h0 h IH]; intros x y z Hz; [constructor |].
  destruct x as [|x0 x]; [inversion Hz; constructor |].
  destruct y as [|y0 y]; [inversion Hz; constructor |].
  cbn [zip_with] in Hz. inversion Hz as [|z0 ? z' ? Hz0 Hz']; subst.
  cbn [map zip_with]. constructor; [| apply IH, Hz'].
  rewrite Hz0. unfold Qdiv. ring.
Qed.

Lemma predict_columns (self : t) (results : results_t) (day : nat) (d : list Q)
      (epochs_per_min : nat) :
  (forall k, k < 3 -> is_Some (results !! nth k (name self) ""%string)) ->
  predict self results day d epochs_per_min
  = (Ok tt,
     {| name := name self; ig_levels := ig_levels self; ig_vals := ig_vals self;
        hist := zip_with Qplus (hist self)
                  (map (fun c => (c / Np.of_nat epochs_per_min)%Q)
                       (histogram d (ig_levels self)));
        ig := Some (nth 0 (name self) ""%string);
        ig_int := Some (nth 1 (name self) ""%string);
        ig_r := Some (nth 2 (name self) ""%string);
        i := Some day |}).
Proof.
  intros Hcols. unfold predict, pointer. cbn [name set_hist set_ig set_ig_int set_ig_r].
  destruct (Hcols 0 ltac:(lia)) as [c0 ->]. cbn [name set_hist set_ig set_ig_int set_ig_r].
  destruct (Hcols 1 ltac:(lia)) as [c1 ->]. cbn [name set_hist set_ig set_ig_int set_ig_r].
  destruct (Hcols 2 ltac:(lia)) as [c2 ->]. reflexivity.
Qed.

(** X10: for epochs of 60, 30 or 15 seconds, when every bin of the
    cached histogram holds the minutes of a whole number of epochs (as
    it does after any number of blocks from the zeros of a new or reset
    instance) and the counts stay below [2 ^ 53]: the histogram of the
    intensity gradient does not depend on how the data of a day is cut
    into blocks.  After [predict] on two blocks, one after the other,
    every bin holds the count that one [predict] on the two blocks put
    together leaves, and the other attributes are the same.  At these
    epochs every quotient and sum of the two routes is a double without
    rounding; at others the routes round differently. *)
Theorem gradient_of_blocks (self : t) (results : results_t) (day : nat)
        (a b : list Q) (epochs_per_min : nat) :
  exact_epochs epochs_per_min ->
  Forall (exact_count epochs_per_min (length (a ++ b))) (hist self) ->
  (forall k, k < 3 -> is_Some (results !! nth k (name self) ""%string)) ->
  exists s_a s_blocks s_whole,
    predict self results day a epochs_per_min = (Ok tt, s_a)
    /\ predict s_a results day b epochs_per_min = (Ok tt, s_blocks)
    /\ predict self results day (a ++ b) epochs_per_min = (Ok tt, s_whole)
    /\ Forall2 Qeq (hist s_blocks) (hist s_whole)
    /\ set_hist s_blocks (hist s_whole) = s_whole.
Proof.
  intros _ _ Hcols. eexists _, _, _.
  split; [apply predict_columns, Hcols |].
  split; [apply predict_columns, Hcols |].
  split; [apply predict_columns, Hcols |].
  cbn [hist ig_levels name]. split; [| reflexivity].
  apply hist_of_blocks, histogram_app.
Qed.

End GradientBlocks.

Section GradientOfOneBin.

Import IntensityGradient.

Context `{Regression}.

(** X11: when at most one bin of the histogram is populated, there is
    no line to fit: [reset_cached] writes [nan] to the three entries of
    the day, whatever [linregress] would answer, leaves every other
    entry of the results as it was, and resets the attributes. *)
Theorem gradient_of_one_bin (self : t) (results : results_t)
        (p_ig p_int p_r : string) (day : nat) :
  ig self = Some p_ig -> ig_int self = Some p_int -> ig_r self = Some p_r ->
  i self = Some day ->
  Forall (reserved results day) [p_ig; p_int; p_r] ->
  length (where_positive (hist self) (hist self)) <= 1 ->
  exists results',
    reset_cached self results = (Ok tt, reset self, results')
    /\ (forall p, p ∈ [p_ig; p_int; p_r] -> results_get results' p day = Ok nan)
    /\ (forall n j, n ∉ [p_ig; p_int; p_r] \/ j <> day ->
                    results_get results' n j = results_get results n j).
Proof.
  intros Eig Eint Er Ei Hres Hbins.
  apply Forall_cons in Hres as [H0 Hres]. apply Forall_cons in Hres as [H1 Hres].
  apply Forall_cons in Hres as [H2 _].
  unfold reset_cached. rewrite Eig, Eint, Er, Ei. rewrite length_map.
  destruct (Nat.leb_spec (length (where_positive (hist self) (hist self))) 1); [| lia].
  cbn [square].
  destruct (results_set_reserved results p_ig day nan H0) as (r1 & E1 & K1).
  destruct (results_set_reserved r1 p_int day nan (K1 _ H1)) as (r2 & E2 & K2).
  destruct (results_set_reserved r2 p_r day nan (K2 _ (K1 _ H2))) as (r3 & E3 & K3).
  rewrite E1, E2, E3. exists r3. split; [reflexivity |].
  assert (Hnan : forall r r' p q, results_set r p day nan = Ok r' ->
                   results_get r q day = Ok nan -> results_get r' q day = Ok nan).
  { intros r r' p q Hset Hget. destruct (decide (q = p)) as [-> | Hne].
    - eapply results_get_set_eq, Hset.
    - rewrite (results_get_set_ne r r' p q day day nan Hset); [exact Hget | left; exact Hne]. }
  split.
  - intros p Hp. apply elem_of_cons in Hp as [-> | Hp].
    { eapply Hnan; [exact E3 |]. eapply Hnan; [exact E2 |].
      eapply results_get_set_eq, E1. }
    apply elem_of_cons in Hp as [-> | Hp].
    { eapply Hnan; [exact E3 |]. eapply results_get_set_eq, E2. }
    apply list_elem_of_singleton in Hp as ->. eapply results_get_set_eq, E3.
  - intros n j Hout.
    assert (Hne : forall p, p ∈ [p_ig; p_int; p_r] -> n <> p \/ j <> day).
    { intros p Hp. destruct Hout as [Hn | Hj]; [left | right; exact Hj].
      intros ->. apply Hn, Hp. }
    rewrite (results_get_set_ne r2 r3 p_r n day j nan E3)
      by (apply Hne, list_elem_of_In; cbn; auto).
    rewrite (results_get_set_ne r1 r2 p_int n day j nan E2)
      by (apply Hne, list_elem_of_In; cbn; auto).
    rewrite (results_get_set_ne results r1 p_ig n day j nan E1)
      by (apply Hne, list_elem_of_In; cbn; auto).
    reflexivity.
Qed.

End GradientOfOneBin.

(** ** The table of [Sleep.predict] *)

Section SleepTable.

Import Sleep.

Context {F : Type} `{FloatOps F}.

Implicit Types (C : collaborators F) (self : t F) (sleep : gmap string (list (cell F))).

Local Abbreviation fixed_columns :=
  (["Day N"; "Date"; "TSO Start Timestamp"; "TSO Start"; "TSO Duration"]%string).

Lemma init_table_columns (ps : list (metric F)) (k : string) :
  is_Some (init_table ps !! k) <-> k ∈ fixed_columns ++ map metric_name ps.
Proof.
  unfold init_table. set (fixed := list_to_map _).
  assert (Hfixed : is_Some (fixed !! k) <-> k ∈ fixed_columns).
  { subst fixed. split.
    - intros [col Ecol]. apply elem_of_list_to_map_2 in Ecol.
      apply list_elem_of_fmap in Ecol as (k0 & [= -> _] & Hk0). exact Hk0.
    - intros Hin. repeat (apply elem_of_cons in Hin as [-> | Hin]);
        [exists []; vm_compute; reflexivity .. | inversion Hin]. }
  rewrite elem_of_app, <- Hfixed. clear Hfixed. clearbody fixed. revert fixed.
  induction ps as [|param ps IH]; intros fixed; simpl.
  { split; [left; assumption | intros [Hk | Hk]; [exact Hk | inversion Hk]]. }
  rewrite IH, elem_of_cons.
  destruct (decide (k = metric_name param)) as [-> | Hne].
  - rewrite lookup_insert_eq. split; intros _; [right; left; reflexivity | left; eauto].
  - rewrite lookup_insert_ne by congruence. tauto.
Qed.

(** X12: whatever the days, the table that [predict] returns has the
    five fixed columns and one column for the name of every metric, and
    no other. *)
Theorem sleep_table_columns C self (time : list F) (accel : accel_t)
        (fs : option F) (wear : option indices_t) (day_ends : gmap string indices_t)
        (out : output F) :
  predict C self time accel fs wear day_ends = Ok out ->
  forall k, is_Some (out_sleep out !! k)
            <-> k ∈ fixed_columns ++ map metric_name (params self).
Proof.
  intros E k. unfold predict in E.
  destruct (day_ends !! day_key_str self) as [days|]; [| discriminate].
  destruct (if must_downsample self (infer_fs time fs) then _ else _)
    as [[[time_ds accel_ds] days_ds] wear_ds].
  unfold process_days in E.
  destruct (day_loop _ _ _ _ _ _ _ _ _ _) as [[os sleep]|] eqn:Eloop; [| discriminate].
  cbn [rbind] in E. injection E as <-. cbn [out_sleep].
  destruct (day_loop_rows _ _ _ _ _ _ _ _ _ _ _ _ Eloop) as (rows & _ & Hcols).
  rewrite Hcols, fmap_is_Some. apply init_table_columns.
Qed.

(** The days at the head of the list that are skipped for their hours
    leave the table as it is. *)
Lemma day_loop_skipped C self (goal_fs : F) (time_ds : list F) (accel_ds : accel_t)
      (wear_ds : indices_t) (ps : list (metric F)) (pre : indices_t) :
  forall sleep (iday : nat) (l : indices_t),
    Forall (fun d => f_lt (hours (Z.of_nat (snd d) - Z.of_nat (fst d)) goal_fs)
                          (min_day_hrs self) = true) pre ->
    day_loop C self goal_fs time_ds accel_ds wear_ds ps sleep iday (pre ++ l)
    = match day_loop C self goal_fs time_ds accel_ds wear_ds ps sleep
              (iday + length pre) l with
      | Ok (os, sleep') => Ok (repeat SkippedHours (length pre) ++ os, sleep')
      | Raise e => Raise e
      end.
Proof.
  induction pre as [|[start stop] pre IH]; intros sleep iday l Hpre.
  - cbn [app length repeat]. rewrite Nat.add_0_r.
    destruct (day_loop _ _ _ _ _ _ _ _ _ _) as [[os s]|]; reflexivity.
  - apply Forall_cons in Hpre as [Hd Hpre]. cbn [fst snd] in Hd.
    cbn [app day_loop]. unfold day_body at 1. rewrite Hd. cbn [rbind].
    rewrite (IH sleep (S iday) l Hpre). cbn [length].
    replace (iday + S (length pre)) with (S iday + length pre) by lia.
    destruct (day_loop _ _ _ _ _ _ _ _ _ _) as [[os s]|]; reflexivity.
Qed.

(** X13: without resampling, a day that is not skipped for its hours
    and starts less than 51 samples before the end of the data, after
    days that are skipped for their hours, makes [predict] raise
    IndexError at [time_ds[start + 50]]: no table is returned. *)
Theorem day_at_the_end_raises C self (time : list F) (accel : accel_t)
        (fs : option F) (wear : option indices_t) (day_ends : gmap string indices_t)
        (skipped rest : indices_t) (start stop : nat) :
  downsample self = false ->
  day_ends !! day_key_str self = Some (skipped ++ (start, stop) :: rest) ->
  Forall (fun d => f_lt (hours (Z.of_nat (snd d) - Z.of_nat (fst d)) (infer_fs time fs))
                        (min_day_hrs self) = true) skipped ->
  f_lt (hours (Z.of_nat stop - Z.of_nat start) (infer_fs time fs)) (min_day_hrs self)
  = false ->
  length time <= start + 50 ->
  predict C self time accel fs wear day_ends = Raise IndexError.
Proof.
  intros Hds Edays Hskipped Hkept Hlen. unfold predict, indices_t in *. rewrite Edays.
  unfold goal_fs_of, must_downsample. rewrite Hds, andb_false_r.
  unfold process_days. rewrite (day_loop_skipped _ _ _ _ _ _ _ _ _ _ _ Hskipped).
  cbn [day_loop]. unfold day_body at 1. rewrite Hkept.
  destruct (init_table_columns (params self) "Day N"%string) as [_ [col Ecol]].
  { apply elem_of_app. left. left. }
  unfold set_last at 1. unfold append_row at 1. rewrite lookup_fmap, Ecol.
  cbn [fmap option_fmap option_map].
  destruct (col ++ [c_nan]) as [|c0 col'] eqn:Eapp;
    [destruct col; discriminate |].
  cbn [rbind]. rewrite (lookup_ge_None_2 time (start + 50)) by lia.
  reflexivity.
Qed.

(** X14: without resampling, when every day is skipped for its hours
    (and when there is no day), [predict] returns the table with all
    its columns and no row. *)
Theorem no_day_long_enough C self (time : list F) (accel : accel_t)
        (fs : option F) (wear : option indices_t) (day_ends : gmap string indices_t)
        (days : indices_t) :
  downsample self = false ->
  day_ends !! day_key_str self = Some days ->
  Forall (fun d => f_lt (hours (Z.of_nat (snd d) - Z.of_nat (fst d)) (infer_fs time fs))
                        (min_day_hrs self) = true) days ->
  exists out,
    predict C self time accel fs wear day_ends = Ok out
    /\ outcomes out = repeat SkippedHours (length days)
    /\ forall k, out_sleep out !! k
                 = if decide (k ∈ fixed_columns ++ map metric_name (params self))
                   then Some [] else None.
Proof.
  intros Hds Edays Hskipped. unfold predict. rewrite Edays.
  unfold goal_fs_of, must_downsample. rewrite Hds, andb_false_r.
  unfold process_days.
  pose proof (day_loop_skipped C self (infer_fs time fs) time accel
                (wear_or_all time wear) (params self) days
                (init_table (params self)) 0 [] Hskipped) as Hloop.
  rewrite app_nil_r in Hloop. rewrite Hloop.
  cbn [day_loop rbind]. eexists. split; [reflexivity |].
  cbn [outcomes out_sleep]. split; [apply app_nil_r |].
  intros k. pose proof (init_table_columns (params self) k) as Hk.
  destruct (decide _) as [Hin | Hout].
  - apply Hk in Hin as [col Ecol]. rewrite Ecol.
    apply init_table_empty in Ecol as ->. reflexivity.
  - destruct (init_table (params self) !! k) eqn:Ek; [| reflexivity].
    exfalso. apply Hout, Hk. eauto.
Qed.

End SleepTable.

(** ** The runs of [FragmentationEndpoints] *)

Section FragmentRuns.

Import FragmentationEndpoints.

Lemma rle_runs_zip {A : Type} `{EqDecision A} (l : list A) :
  zip (map fst (rle_runs l)) (map snd (rle_runs l)) = rle_runs l.
Proof.
  induction (rle_runs l) as [|[n v] runs IH]; [reflexivity |].
  cbn [map zip zip_with fst snd]. f_equal. exact IH.
Qed.

Lemma rle_runs_cons {A : Type} `{EqDecision A} (v : A) (l : list A) :
  exists n runs,
    rle_runs (v :: l) = (S n, v) :: runs
    /\ (rle_runs l = runs /\ n = 0 /\ (forall m runs', runs = (m, v) :: runs' -> False)
        \/ rle_runs l = (n, v) :: runs).
Proof.
  cbn [rle_runs]. destruct (rle_runs l) as [|[n w] runs].
  - exists 0, []. split; [reflexivity |]. left. repeat split. intros ? ? [=].
  - destruct (decide (v = w)) as [-> | Hne].
    + exists n, runs. split; [reflexivity |]. right. reflexivity.
    + exists 0, ((n, w) :: runs). split; [reflexivity |]. left. repeat split.
      intros m runs' [= _ Hw _]. congruence.
Qed.

(** The runs of [true] of a mask hold every [true] once, and none is
    empty. *)
Lemma rle_runs_true (mask : list bool) :
  sum_list (map fst (filter (fun lv => snd lv = true) (rle_runs mask)))
  = length (filter (fun b => b = true) mask)
  /\ Forall (fun lv => 1 <= fst lv) (rle_runs mask).
Proof.
  induction mask as [|b mask [IHsum IHpos]]; [split; [reflexivity | constructor] |].
  destruct (rle_runs_cons b mask) as (n & runs & -> & [(E & -> & _) | E]).
  - rewrite E in IHsum, IHpos. split.
    + rewrite !filter_cons. cbn [snd].
      destruct (decide (b = true)) as [-> | Hb]; simpl; rewrite <- IHsum; reflexivity.
    + constructor; [cbn; lia | exact IHpos].
  - rewrite E in IHsum, IHpos. apply Forall_cons in IHpos as [Hn IHpos]. split.
    + rewrite !filter_cons in *. cbn [snd] in *.
      destruct (decide (b = true)) as [-> | Hb]; simpl in *; lia.
    + constructor; [cbn; lia | exact IHpos].
Qed.

(** X15: the runs that [predict] records for a block hold every minute
    of the block that is in the level exactly once, and no run is empty:
    their lengths add up to the number of minutes in the level. *)
Theorem fragment_runs_cover_level (self : t) (results : results_t) (day : nat)
        (accel_metric_60 : list Q) :
  lens self = [] ->
  let recorded := lens (snd (predict self results day accel_metric_60)) in
  sum_list recorded
  = length (filter (fun v => Bouts.in_level (lthresh self) (uthresh self) v = true)
                   accel_metric_60)
  /\ Forall (fun n => 1 <= n) recorded.
Proof.
  intros Hnew.
  assert (Hlens : lens (snd (predict self results day accel_metric_60))
                  = level_runs self accel_metric_60).
  { unfold predict. rewrite Hnew. cbn [app lens with_cache].
    repeat (destruct (pointer _ _); cbn [snd lens with_cache name state level
                                           lthresh uthresh column];
            [| reflexivity]).
    reflexivity. }
  cbv zeta. rewrite Hlens. unfold level_runs, rle.
  rewrite rle_runs_zip.
  destruct (rle_runs_true (map (fun v => Qle_bool (lthresh self) v
                                         && Np.Qltb v (uthresh self)) accel_metric_60))
    as [Hsum Hpos].
  split.
  - rewrite Hsum. clear. unfold Bouts.in_level.
    induction accel_metric_60 as [|v l IH]; [reflexivity |].
    cbn [map]. rewrite !filter_cons.
    destruct (decide _) as [E | E]; cbn [length]; rewrite IH; reflexivity.
  - apply Forall_forall. intros n Hn.
    apply list_elem_of_fmap in Hn as (lv & -> & Hlv).
    apply list_elem_of_filter in Hlv as [_ Hlv].
    rewrite Forall_forall in Hpos. apply Hpos, Hlv.
Qed.

End FragmentRuns.

Section FragmentDay.

Import FragmentationEndpoints.

Context `{FragmentationStatistics}.

Lemma write_all_values (day : nat) (todo : list (string * flt)) :
  forall results : results_t,
    NoDup (map fst todo) ->
    Forall (reserved results day) (map fst todo) ->
    exists results',
      write_all results day todo = (Ok tt, results')
      /\ (forall p v, (p, v) ∈ todo -> results_get results' p day = Ok v)
      /\ (forall n j, n ∉ map fst todo \/ j <> day ->
                      results_get results' n j = results_get results n j).
Proof.
  induction todo as [|[p v] todo IH]; intros results Hnd Hres.
  { exists results. split; [reflexivity |]. split; [| reflexivity].
    intros p v Hin. inversion Hin. }
  cbn [map fst] in Hnd, Hres. apply NoDup_cons in Hnd as [Hp Hnd].
  apply Forall_cons in Hres as [Hres_p Hres].
  destruct (results_set_reserved results p day v Hres_p) as (r1 & E1 & K1).
  destruct (IH r1 Hnd) as (results' & Ew & Hvals & Hframe).
  { eapply Forall_impl; [exact Hres | exact K1]. }
  exists results'. cbn [write_all]. rewrite E1. split; [exact Ew |]. split.
  - intros p' v' Hin. apply elem_of_cons in Hin as [[= -> ->] | Hin].
    + rewrite Hframe by (left; exact Hp). eapply results_get_set_eq, E1.
    + apply Hvals, Hin.
  - intros n j Hout. cbn [map fst] in Hout. rewrite Hframe.
    + apply (results_get_set_ne results r1 p n day j v E1).
      destruct Hout as [Hn | Hj]; [left | right; exact Hj].
      intros ->. apply Hn. left.
    + destruct Hout as [Hn | Hj]; [left | right; exact Hj].
      intros Hin. apply Hn. right. exact Hin.
Qed.

Lemma names_differ (level state : string) (lthresh uthresh : Q) :
  NoDup (name (init level state lthresh uthresh)).
Proof.
  cbn [name init map]. unfold endpoint_name.
  repeat (apply NoDup_cons; split);
    [intros Hin; repeat (apply elem_of_cons in Hin as [Heq | Hin]);
     [(apply (inj (String.append state)) in Heq; injection Heq as Heq;
       apply (inj (String.append level)) in Heq; discriminate) .. | inversion Hin] ..
    | apply NoDup_nil_2].
Qed.

(** X16: a day given to a new [FragmentationEndpoints] in one block:
    when the five columns that the endpoint names have an entry for the
    day, [predict] finds them, [reset_cached] writes the five statistics
    of the runs of the block to them, leaves every other entry of the
    results as it was, and leaves the endpoint as new. *)
Theorem fragment_day_in_one_block (level state : string) (lthresh uthresh : Q)
        (results : results_t) (day : nat) (accel_metric_60 : list Q) :
  let self := init level state lthresh uthresh in
  let runs := level_runs self accel_metric_60 in
  Forall (reserved results day) (name self) ->
  exists fed results',
    predict self results day accel_metric_60 = (Ok tt, fed)
    /\ reset_cached fed results = (Ok tt, self, results')
    /\ map (fun n => results_get results' n day) (name self)
       = map Ok [average_duration runs; state_transition_probability runs;
                 gini_index runs; average_hazard runs;
                 state_power_law_distribution runs]
    /\ (forall n j, n ∉ name self \/ j <> day ->
                    results_get results' n j = results_get results n j).
Proof.
  intros self runs Hres.
  pose proof (names_differ level state lthresh uthresh) as Hnd. fold self in Hnd.
  assert (Hptr : forall n, n ∈ name self -> pointer results n = Ok n).
  { intros n Hn. rewrite Forall_forall in Hres. destruct (Hres n Hn) as (arr & E & _).
    unfold pointer. rewrite E. reflexivity. }
  set (todo := zip (name self)
                 [average_duration runs; state_transition_probability runs;
                  gini_index runs; average_hazard runs;
                  state_power_law_distribution runs]).
  assert (Hfst : map fst todo = name self) by reflexivity.
  destruct (write_all_values day todo results) as (results' & Ew & Hvals & Hframe).
  { rewrite Hfst. exact Hnd. }
  { rewrite Hfst. exact Hres. }
  rewrite Hfst in Hframe.
  eexists _, results'. split.
  { unfold predict, column.
    subst self.
    cbn [FragmentationEndpoints.state FragmentationEndpoints.level lens
         r_ad r_tp r_gi r_ah r_pld i with_cache init app].
    rewrite (Hptr (state +:+ " " +:+ level +:+ " " +:+ "avg duration")%string)
      by (apply list_elem_of_In; cbn; auto 10).
    rewrite (Hptr (state +:+ " " +:+ level +:+ " " +:+ "transition probability")%string)
      by (apply list_elem_of_In; cbn; auto 10).
    rewrite (Hptr (state +:+ " " +:+ level +:+ " " +:+ "gini index")%string)
      by (apply list_elem_of_In; cbn; auto 10).
    rewrite (Hptr (state +:+ " " +:+ level +:+ " " +:+ "avg hazard")%string)
      by (apply list_elem_of_In; cbn; auto 10).
    rewrite (Hptr (state +:+ " " +:+ level +:+ " " +:+ "power law distribution")%string)
      by (apply list_elem_of_In; cbn; auto 10).
    reflexivity. }
  split.
  { unfold reset_cached. subst self.
    cbn [r_ad r_tp r_gi r_ah r_pld i with_cache lens init].
    change (write_all results day _) with (write_all results day todo).
    rewrite Ew. reflexivity. }
  split; [| exact Hframe].
  unfold todo, self in Hvals. unfold self. cbn [name init map].
  repeat (f_equal; [apply Hvals; apply list_elem_of_In; cbn; auto 10 |]).
  f_equal. apply Hvals. apply list_elem_of_In. cbn. auto 10.
Qed.

End FragmentDay.

(** ** Runs of the further properties *)

Section BoutRuns.

Import Bouts Examples.

Lemma open_bouts_within_closed_witness :
  1 <= 60
  /\ exists q_open q_closed,
      get_activity_bouts one_break (1 # 10) 100 60 10 (8 # 10) false 1 = Ok q_open
      /\ get_activity_bouts one_break (1 # 10) 100 60 10 (8 # 10) true 1 = Ok q_closed
      /\ (q_open <= q_closed)%Q.
Proof.
  split; [lia |].
  apply (open_bouts_within_closed one_break (1 # 10) 100 60 10 (8 # 10)). lia.
Defined.

Lemma open_bouts_within_level_time_witness :
  exact_epochs 1
  /\ 1 * 60 = 60
  /\ (Z.of_nat (length one_break) < 2 ^ 53)%Z
  /\ exists q,
      get_activity_bouts one_break (TotalIntensityTime.lthresh mvpa_time)
        (TotalIntensityTime.uthresh mvpa_time) 60 10 (8 # 10) false 1 = Ok q
      /\ (q <= TotalIntensityTime.minutes mvpa_time one_break 1)%Q.
Proof.
  assert (He : exact_epochs 1) by (left; reflexivity).
  assert (Hn : (Z.of_nat (length one_break) < 2 ^ 53)%Z) by (vm_compute; reflexivity).
  split; [exact He |]. split; [reflexivity |]. split; [exact Hn |].
  apply (open_bouts_within_level_time mvpa_time one_break 60 10 (8 # 10) 1 He);
    [reflexivity | exact Hn].
Defined.

Lemma bout_time_within_data_witness :
  exists q,
    get_activity_bouts one_break (1 # 10) 100 60 10 (8 # 10) true 1 = Ok q
    /\ (0 <= q <= Np.of_nat (length one_break) * epoch_minutes 60)%Q.
Proof.
  eexists. split; [vm_compute; reflexivity |].
  apply (bout_time_within_data one_break (1 # 10) 100 60 (8 # 10) 10 true 1).
  vm_compute; reflexivity.
Defined.

Lemma nothing_in_level_no_bout_witness :
  Forall (fun v => in_level (1 # 10) 100 v = false) all_low
  /\ (0 <= 8 # 10)%Q
  /\ 1 <= 60
  /\ ((1 <= 3 <= 2)%Z \/ ((3 <= 3 <= 4)%Z /\ break_window 60 <= length all_low))
  /\ returns (get_activity_bouts all_low (1 # 10) 100 60 10 (8 # 10) true 3) 0.
Proof.
  assert (Hout : Forall (fun v => in_level (1 # 10) 100 v = false) all_low)
    by (repeat constructor).
  assert (Hc : (0 <= 8 # 10)%Q) by (unfold Qle; simpl; lia).
  assert (Hm : (1 <= 3 <= 2)%Z \/ ((3 <= 3 <= 4)%Z /\ break_window 60 <= length all_low)).
  { right. split; [lia |]. vm_compute. lia. }
  split; [exact Hout |]. split; [exact Hc |]. split; [lia |]. split; [exact Hm |].
  apply (nothing_in_level_no_bout all_low (1 # 10) 100 60 (8 # 10) Hout Hc 10 true 3);
    [lia | exact Hm].
Defined.

End BoutRuns.

Section EndpointRuns.

Import Examples.

Lemma total_time_of_blocks_witness :
  exact_epochs 1
  /\ results_get mvpa_day (TotalIntensityTime.name mvpa_time) 0 = Ok (fin 0)
  /\ exact_count 1 (length ([1; 0] ++ [1; 1])%Q) 0
  /\ exists r_a r_blocks r_whole,
      TotalIntensityTime.predict mvpa_time mvpa_day 0 [1; 0]%Q 1 = (Ok tt, r_a)
      /\ TotalIntensityTime.predict mvpa_time r_a 0 [1; 1]%Q 1 = (Ok tt, r_blocks)
      /\ TotalIntensityTime.predict mvpa_time mvpa_day 0 ([1; 0] ++ [1; 1])%Q 1
         = (Ok tt, r_whole)
      /\ forall n j,
          match results_get r_blocks n j, results_get r_whole n j with
          | Ok v, Ok v' => flt_eq v v'
          | Raise e, Raise e' => e = e'
          | _, _ => False
          end.
Proof.
  assert (He : exact_epochs 1) by (left; reflexivity).
  assert (Hget : results_get mvpa_day (TotalIntensityTime.name mvpa_time) 0 = Ok (fin 0))
    by (vm_compute; reflexivity).
  assert (Hz : exact_count 1 (length ([1; 0] ++ [1; 1])%Q) 0).
  { exists 0%Z. split; [lia |]. split; [vm_compute; reflexivity | reflexivity]. }
  split; [exact He |]. split; [exact Hget |]. split; [exact Hz |].
  apply (total_time_of_blocks mvpa_time mvpa_day 0 [1; 0]%Q [1; 1]%Q 1 (fin 0) He Hget Hz).
Defined.

Lemma gradient_of_blocks_witness :
  exact_epochs 1
  /\ Forall (exact_count 1 (length (one_bin ++ Scenario.four_minutes)))
            (IntensityGradient.hist Scenario.gradient)
  /\ (forall k, k < 3 ->
        is_Some (Scenario.gradient_day
                   !! nth k (IntensityGradient.name Scenario.gradient) ""%string))
  /\ exists s_a s_blocks s_whole,
      IntensityGradient.predict Scenario.gradient Scenario.gradient_day 0 one_bin 1
      = (Ok tt, s_a)
      /\ IntensityGradient.predict s_a Scenario.gradient_day 0 Scenario.four_minutes 1
         = (Ok tt, s_blocks)
      /\ IntensityGradient.predict Scenario.gradient Scenario.gradient_day 0
           (one_bin ++ Scenario.four_minutes) 1 = (Ok tt, s_whole)
      /\ Forall2 Qeq (IntensityGradient.hist s_blocks) (IntensityGradient.hist s_whole)
      /\ IntensityGradient.set_hist s_blocks (IntensityGradient.hist s_whole) = s_whole.
Proof.
  assert (He : exact_epochs 1) by (left; reflexivity).
  assert (Hz : Forall (exact_count 1 (length (one_bin ++ Scenario.four_minutes)))
                      (IntensityGradient.hist Scenario.gradient)).
  { apply Forall_forall. intros h Hh.
    apply list_elem_of_In, repeat_spec in Hh. subst h.
    exists 0%Z. split; [lia |]. split; [vm_compute; reflexivity | reflexivity]. }
  assert (Hcols : forall k, k < 3 ->
            is_Some (Scenario.gradient_day
                       !! nth k (IntensityGradient.name Scenario.gradient) ""%string)).
  { intros k Hk. destruct k as [|[|[|k]]]; [exists [nan]; vm_compute; reflexivity .. | lia]. }
  split; [exact He |]. split; [exact Hz |]. split; [exact Hcols |].
  apply (gradient_of_blocks Scenario.gradient Scenario.gradient_day 0
           one_bin Scenario.four_minutes 1 He Hz Hcols).
Defined.

Lemma gradient_of_one_bin_witness :
  IntensityGradient.ig gradient_one_bin = Some "wake intensity gradient"%string
  /\ IntensityGradient.ig_int gradient_one_bin = Some "wake ig intercept"%string
  /\ IntensityGradient.ig_r gradient_one_bin = Some "wake ig r-squared"%string
  /\ IntensityGradient.i gradient_one_bin = Some 0
  /\ Forall (reserved Scenario.gradient_day 0)
            ["wake intensity gradient"; "wake ig intercept"; "wake ig r-squared"]%string
  /\ length (IntensityGradient.where_positive (IntensityGradient.hist gradient_one_bin)
               (IntensityGradient.hist gradient_one_bin)) <= 1
  /\ exists results',
      @IntensityGradient.reset_cached Scenario.no_fit gradient_one_bin
        Scenario.gradient_day
      = (Ok tt, IntensityGradient.reset gradient_one_bin, results')
      /\ (forall p, p ∈ ["wake intensity gradient"; "wake ig intercept";
                         "wake ig r-squared"]%string ->
                    results_get results' p 0 = Ok nan)
      /\ (forall n j, n ∉ ["wake intensity gradient"; "wake ig intercept";
                           "wake ig r-squared"]%string \/ j <> 0 ->
                      results_get results' n j = results_get Scenario.gradient_day n j).
Proof.
  assert (H0 : IntensityGradient.ig gradient_one_bin = Some "wake intensity gradient"%string)
    by (vm_compute; reflexivity).
  assert (H1 : IntensityGradient.ig_int gradient_one_bin = Some "wake ig intercept"%string)
    by (vm_compute; reflexivity).
  assert (H2 : IntensityGradient.ig_r gradient_one_bin = Some "wake ig r-squared"%string)
    by (vm_compute; reflexivity).
  assert (H3 : IntensityGradient.i gradient_one_bin = Some 0) by (vm_compute; reflexivity).
  assert (Hres : Forall (reserved Scenario.gradient_day 0)
                   ["wake intensity gradient"; "wake ig intercept";
                    "wake ig r-squared"]%string).
  { repeat constructor; (exists [nan]; split; [vm_compute; reflexivity | simpl; lia]). }
  assert (Hbin : length (IntensityGradient.where_positive
                           (IntensityGradient.hist gradient_one_bin)
                           (IntensityGradient.hist gradient_one_bin)) <= 1).
  { vm_compute. lia. }
  repeat (split; [assumption |]).
  apply (@gradient_of_one_bin Scenario.no_fit gradient_one_bin Scenario.gradient_day
           "wake intensity gradient" "wake ig intercept" "wake ig r-squared" 0);
    assumption.
Defined.

Lemma fragment_runs_cover_level_witness :
  FragmentationEndpoints.lens Scenario.fragments = []
  /\ sum_list (FragmentationEndpoints.lens
                 (snd (FragmentationEndpoints.predict Scenario.fragments
                         Scenario.gradient_day 0 Scenario.four_minutes)))
     = length (filter (fun v => Bouts.in_level
                                  (FragmentationEndpoints.lthresh Scenario.fragments)
                                  (FragmentationEndpoints.uthresh Scenario.fragments) v
                                = true)
                      Scenario.four_minutes)
  /\ Forall (fun n => 1 <= n)
            (FragmentationEndpoints.lens
               (snd (FragmentationEndpoints.predict Scenario.fragments
                       Scenario.gradient_day 0 Scenario.four_minutes))).
Proof.
  split; [reflexivity |].
  apply (fragment_runs_cover_level Scenario.fragments Scenario.gradient_day 0
           Scenario.four_minutes).
  reflexivity.
Defined.

Lemma fragment_day_in_one_block_witness :
  Forall (reserved Scenario.gradient_day 0)
         (FragmentationEndpoints.name Scenario.fragments)
  /\ exists fed results',
      FragmentationEndpoints.predict Scenario.fragments Scenario.gradient_day 0
        Scenario.four_minutes = (Ok tt, fed)
      /\ @FragmentationEndpoints.reset_cached Scenario.no_statistics fed
           Scenario.gradient_day = (Ok tt, Scenario.fragments, results')
      /\ map (fun n => results_get results' n 0)
             (FragmentationEndpoints.name Scenario.fragments)
         = map Ok [nan; nan; nan; nan; nan]
      /\ (forall n j, n ∉ FragmentationEndpoints.name Scenario.fragments \/ j <> 0 ->
                      results_get results' n j = results_get Scenario.gradient_day n j).
Proof.
  assert (Hres : Forall (reserved Scenario.gradient_day 0)
                        (FragmentationEndpoints.name Scenario.fragments)).
  { repeat constructor; (exists [nan]; split; [vm_compute; reflexivity | simpl; lia]). }
  split; [exact Hres |].
  apply (@fragment_day_in_one_block Scenario.no_statistics "sed" "wake" (-1) (50 # 1000)
           Scenario.gradient_day 0 Scenario.four_minutes Hres).
Defined.

End EndpointRuns.

Section SleepTableRuns.

Import Sleep Scenario SleepExamples.

Lemma sleep_table_columns_witness :
  exists out,
    predict quiet sleep_as_is slow_time still (Some (1 # 100)%Q) None two_days = Ok out
    /\ forall k, is_Some (out_sleep out !! k)
                 <-> k ∈ ["Day N"; "Date"; "TSO Start Timestamp"; "TSO Start";
                          "TSO Duration"]%string
                         ++ map metric_name (params sleep_as_is).
Proof.
  eexists. split; [vm_compute; reflexivity |].
  apply (sleep_table_columns quiet sleep_as_is slow_time still
           (Some (1 # 100)%Q) None two_days).
  vm_compute; reflexivity.
Defined.

Lemma day_at_the_end_raises_witness :
  downsample sleep_short_days = false
  /\ last_day_of_40 !! day_key_str sleep_short_days = Some ([(0, 20)] ++ (260, 300) :: [])
  /\ Forall (fun d => f_lt (hours (Z.of_nat (snd d) - Z.of_nat (fst d))
                                  (infer_fs slow_time (Some (1 # 100)%Q)))
                           (min_day_hrs sleep_short_days) = true) [(0, 20)]
  /\ f_lt (hours (Z.of_nat 300 - Z.of_nat 260) (infer_fs slow_time (Some (1 # 100)%Q)))
          (min_day_hrs sleep_short_days) = false
  /\ length slow_time <= 260 + 50
  /\ predict quiet sleep_short_days slow_time still (Some (1 # 100)%Q) None last_day_of_40
     = Raise IndexError.
Proof.
  assert (H0 : downsample sleep_short_days = false) by reflexivity.
  assert (H1 : last_day_of_40 !! day_key_str sleep_short_days
               = Some ([(0, 20)] ++ (260, 300) :: [])) by (vm_compute; reflexivity).
  assert (H2 : Forall (fun d => f_lt (hours (Z.of_nat (snd d) - Z.of_nat (fst d))
                                            (infer_fs slow_time (Some (1 # 100)%Q)))
                                     (min_day_hrs sleep_short_days) = true) [(0, 20)]).
  { constructor; [vm_compute; reflexivity | constructor]. }
  assert (H3 : f_lt (hours (Z.of_nat 300 - Z.of_nat 260)
                           (infer_fs slow_time (Some (1 # 100)%Q)))
                    (min_day_hrs sleep_short_days) = false) by (vm_compute; reflexivity).
  assert (H4 : length slow_time <= 260 + 50) by (vm_compute; lia).
  repeat (split; [assumption |]).
  apply (day_at_the_end_raises quiet sleep_short_days slow_time still
           (Some (1 # 100)%Q) None last_day_of_40 [(0, 20)] [] 260 300); assumption.
Defined.

Lemma no_day_long_enough_witness :
  downsample sleep_short_days = false
  /\ days_of_20 !! day_key_str sleep_short_days = Some [(0, 20); (20, 40)]
  /\ Forall (fun d => f_lt (hours (Z.of_nat (snd d) - Z.of_nat (fst d))
                                  (infer_fs slow_time (Some (1 # 100)%Q)))
                           (min_day_hrs sleep_short_days) = true) [(0, 20); (20, 40)]
  /\ exists out,
      predict quiet sleep_short_days slow_time still (Some (1 # 100)%Q) None days_of_20
      = Ok out
      /\ outcomes out = repeat SkippedHours (length [(0, 20); (20, 40)])
      /\ forall k, out_sleep out !! k
                   = if decide (k ∈ ["Day N"; "Date"; "TSO Start Timestamp"; "TSO Start";
                                     "TSO Duration"]%string
                                    ++ map metric_name (params sleep_short_days))
                     then Some [] else None.
Proof.
  assert (H0 : downsample sleep_short_days = false) by reflexivity.
  assert (H1 : days_of_20 !! day_key_str sleep_short_days = Some [(0, 20); (20, 40)])
    by (vm_compute; reflexivity).
  assert (H2 : Forall (fun d => f_lt (hours (Z.of_nat (snd d) - Z.of_nat (fst d))
                                            (infer_fs slow_time (Some (1 # 100)%Q)))
                                     (min_day_hrs sleep_short_days) = true)
                      [(0, 20); (20, 40)]).
  { repeat constructor. }
  repeat (split; [assumption |]).
  apply (no_day_long_enough quiet sleep_short_days slow_time still
           (Some (1 # 100)%Q) None days_of_20 [(0, 20); (20, 40)]); assumption.
Defined.

End SleepTableRuns.
